(** * dragonfly_automation: a shallow embedding of the acquisition helpers

  The development follows the layout of the Python package:

  - [Py]            : the few Python notions the modules share
                      (exceptions, floats with nan and infinities);
  - [Numpy]         : [np.percentile] over exact rationals;
  - [Settings]      : the settings objects of [pipeline_plate_settings.py];
  - [Exposure]      : [operations.py], the over-exposure check
                      ([check_slice_for_overexposure]);
  - [Operations]    : [operations.py], the hardware side ([move_z],
                      [autoexposure]);
  - [Utils]         : [utils.py] ([to_uint8], [well_id_to_position]);
  - [Confluency]    : [confluency_assessments.py] ([assess_confluency]);
  - [FOVClassifier] : [fov_classifier.py] ([catch_errors],
                      [classify_raw_fov] and its stages).

  Numbers that are Python floats in the source are rationals ([Q]) here:
  the arithmetic is exact, rounding is not modelled.  Where the source
  can meet a nan or an infinity, the value is a [Py.pyfloat]. *)

From Stdlib Require Import String Ascii Bool Arith ZArith QArith Qround Lia Lqa List.
Import ListNotations.

Local Open Scope Z_scope.

(* ===================================================================== *)
(** * Python values, exceptions and results *)
(* ===================================================================== *)

Module Py.

(** The exception classes that the modelled code raises or lets through. *)
Inductive exn_class : Type :=
| ValueError
| TypeError
| IndexError
| AttributeError
| OtherError.

Record exn : Type := mkExn { exn_kind : exn_class; exn_message : string }.

(** A call either returns a value or raises. *)
Inductive result (A : Type) : Type :=
| Ok (a : A)
| Raise (e : exn).
Arguments Ok {A} a.
Arguments Raise {A} e.

Definition bind {A B : Type} (r : result A) (k : A -> result B) : result B :=
  match r with
  | Ok a => k a
  | Raise e => Raise e
  end.

(** A Python float: a finite value, nan, or a signed infinity. *)
Inductive pyfloat : Type :=
| Fin (q : Q)
| Nan
| Inf (negative : bool).

(** [x > bound] for a float [x] and a finite bound; every comparison
    with nan is false. *)
Definition float_gt (x : pyfloat) (bound : Q) : bool :=
  match x with
  | Fin q => negb (Qle_bool q bound)
  | Nan => false
  | Inf negative => negb negative
  end.

Definition isnan (x : pyfloat) : bool :=
  match x with Nan => true | _ => false end.

End Py.

(** Strict comparison of rationals as a boolean. *)
Definition Qltb (x y : Q) : bool := negb (Qle_bool y x).

(* ===================================================================== *)
(** * numpy: percentiles *)
(* ===================================================================== *)

Module Numpy.

(** A 2D array of integer pixels, row by row. *)
Definition image : Type := list (list Z).

Definition flatten (im : image) : list Z := List.concat im.

Fixpoint insert_sorted (x : Z) (l : list Z) : list Z :=
  match l with
  | [] => [x]
  | y :: l' => if x <=? y then x :: l else y :: insert_sorted x l'
  end.

Definition sort (l : list Z) : list Z := fold_right insert_sorted [] l.

(** [np.percentile(data, q)] with numpy's default method, 'linear':
    the sorted data are read at the virtual index [q/100 * (n-1)] and
    the two neighbours are interpolated.  On empty data numpy gives nan,
    here [None]. *)
Definition percentile (data : list Z) (q : Q) : option Q :=
  match data with
  | [] => None
  | _ :: _ =>
      let s := sort data in
      let n := Z.of_nat (length s) in
      let index := (q / 100 * inject_Z (n - 1))%Q in
      let lo := Qfloor index in
      let hi := Z.min (lo + 1) (n - 1) in
      let g := (index - inject_Z lo)%Q in
      let a := nth (Z.to_nat lo) s 0 in
      let b := nth (Z.to_nat hi) s 0 in
      Some (inject_Z a + g * (inject_Z b - inject_Z a))%Q
  end.

(** [p > bound] where [p] is a percentile: false on nan. *)
Definition exceeds (p : option Q) (bound : Q) : bool :=
  match p with
  | Some v => Qltb bound v
  | None => false
  end.

End Numpy.

(* ===================================================================== *)
(** * Settings objects *)
(* ===================================================================== *)

Module Settings.

(** Modelled from the spec: the classes of [settings_schemas] are not
    part of the sources; the fields are those named by the constructor
    calls of [pipeline_plate_settings.py] and read by [operations.py]. *)
Record StackSettings : Type := mkStackSettings {
  stage_label : string;
  relative_top : Q;
  relative_bottom : Q;
  step_size : Q
}.

(** Modelled from the spec: see [StackSettings].  Only the working
    values that [autoexposure] reads and writes are kept, with the
    names of the laser property. *)
Record ChannelSettings : Type := mkChannelSettings {
  laser_line : string;
  laser_name : string;
  laser_power : Q;
  exposure_time : Q
}.

(** Modelled from the spec: see [StackSettings]. *)
Record AutoexposureSettings : Type := mkAutoexposureSettings {
  min_intensity : Q;
  max_intensity : Q;
  min_exposure_time : Q;
  max_exposure_time : Q;
  default_exposure_time : Q;
  min_laser_power : Q;
  relative_exposure_step : Q;
  z_step_size : Q
}.

Definition DEFAULT_LASER_POWER : Q := 10.
Definition DEFAULT_EXPOSURE_TIME : Q := 50.

Definition STAGE_LABEL : string := "PiezoZ".

Definition dev_stack_settings : StackSettings :=
  mkStackSettings STAGE_LABEL 16 (-10) 7.

Definition gfp_channel_settings : ChannelSettings :=
  mkChannelSettings "Andor ILE-A" "Laser 488-Power Setpoint"
    DEFAULT_LASER_POWER DEFAULT_EXPOSURE_TIME.

(** [autoexposure_settings] of [pipeline_plate_settings.py]. *)
Definition autoexposure_settings : AutoexposureSettings :=
  {| min_intensity := 2 ^ 14;
     max_intensity := 2 ^ 15;
     min_exposure_time := 40;
     max_exposure_time := 500;
     default_exposure_time := DEFAULT_EXPOSURE_TIME;
     min_laser_power := 1;
     relative_exposure_step := 8 # 10;
     z_step_size := 1 |}.

Definition set_min_laser_power (m : Q) (s : AutoexposureSettings)
  : AutoexposureSettings :=
  {| min_intensity := min_intensity s;
     max_intensity := max_intensity s;
     min_exposure_time := min_exposure_time s;
     max_exposure_time := max_exposure_time s;
     default_exposure_time := default_exposure_time s;
     min_laser_power := m;
     relative_exposure_step := relative_exposure_step s;
     z_step_size := z_step_size s |}.

End Settings.

(* ===================================================================== *)
(** * operations.py: the over-exposure check *)
(* ===================================================================== *)

Module Exposure.
Import Settings Numpy.
Local Open Scope Q_scope.

(** [np.percentile(snap_data, 99.9) > autoexposure_settings.max_intensity] *)
Definition slice_is_overexposed
    (snap_data : image) (s : AutoexposureSettings) : bool :=
  exceeds (percentile (flatten snap_data) (999 # 10)) (max_intensity s).

(** [check_slice_for_overexposure]: returns
    [(laser_power, exposure_time, slice_was_overexposed)]. *)
Definition check_slice_for_overexposure
    (laser_power exposure_time : Q) (snap_data : image)
    (s : AutoexposureSettings) : Q * Q * bool :=
  let slice_was_overexposed := slice_is_overexposed snap_data s in
  if slice_was_overexposed then
    let exposure_time := exposure_time * relative_exposure_step s in
    if Qltb exposure_time (min_exposure_time s) then
      (laser_power * relative_exposure_step s,
       default_exposure_time s, slice_was_overexposed)
    else (laser_power, exposure_time, slice_was_overexposed)
  else (laser_power, exposure_time, slice_was_overexposed).

(** Repeated application, as the loop of [autoexposure] does it: the
    laser power and exposure time returned for one snap are the ones
    used for the next. *)
Definition next_settings (s : AutoexposureSettings)
    (st : Q * Q) (snap_data : image) : Q * Q :=
  let '(lp, et, _) :=
    check_slice_for_overexposure (fst st) (snd st) snap_data s in
  (lp, et).

Definition settings_after (s : AutoexposureSettings)
    (snaps : list image) (st : Q * Q) : Q * Q :=
  fold_left (next_settings s) snaps st.

(** [x * r * r * ... * r], [n] factors [r]. *)
Fixpoint scaled (x r : Q) (n : nat) : Q :=
  match n with
  | O => x
  | S n' => scaled (x * r) r n'
  end.

(** A saturated 2x2 frame and a dark one, for concrete runs. *)
Definition bright_snap : image := [[65535%Z; 65535%Z]; [65535%Z; 65535%Z]].
Definition dark_snap : image := [[500%Z; 510%Z]; [498%Z; 505%Z]].

End Exposure.

(* ===================================================================== *)
(** * operations.py: stage motion and the autoexposure loop *)
(* ===================================================================== *)

Module Operations.
Import Py Settings Numpy Exposure.

(** The values a caller can pass for [position]. *)
Inductive pyval : Type :=
| PyNone
| PyBool (b : bool)
| PyInt (z : Z)
| PyFloat (f : pyfloat)
| PyStr (s : string)
| PyList (l : list Z).

(** The message of the TypeError that the builtin [float] raises on an
    argument that is neither a number nor a string. *)
Definition builtin_float_message : string :=
  "float() argument must be a string or a number".

(** The builtin [float(x)].  [parse] stands for Python's reading of a
    string as a float ([None]: the string is not a float literal, which
    is a ValueError); an argument of another type is a TypeError.  The
    floats are exact here, so that every integer has one: the
    OverflowError of an integer beyond the range of a double is left
    out. *)
Definition py_float (parse : string -> option pyfloat) (x : pyval)
  : result pyfloat :=
  match x with
  | PyFloat f => Ok f
  | PyInt z => Ok (Fin (inject_Z z))
  | PyBool b => Ok (Fin (if b then 1 else 0)%Q)
  | PyStr s =>
      match parse s with
      | Some f => Ok f
      | None => Raise (mkExn ValueError "could not convert string to float")
      end
  | PyNone | PyList _ => Raise (mkExn TypeError builtin_float_message)
  end.

(** The part of the Micro-Manager core that the operations call, over a
    hardware state [hw].  Every call can fail (errors propagate). *)
Record MMCore (hw : Type) : Type := mkMMCore {
  setPosition : string -> pyfloat -> hw -> result hw;
  setRelativePosition : string -> pyfloat -> hw -> result hw;
  waitForDevice : string -> hw -> result hw;
  getPosition : string -> hw -> result Q;
  setProperty : string -> string -> Q -> hw -> result hw;
  setExposure : Q -> hw -> result hw;
  waitForSystem : hw -> result hw;
  (** [acquire_snap]: [mm_studio.live().snap(True)], then the frame that
      the gateway maps in memory. *)
  snap : hw -> result (image * hw)
}.
Arguments setPosition {hw}.
Arguments setRelativePosition {hw}.
Arguments waitForDevice {hw}.
Arguments getPosition {hw}.
Arguments setProperty {hw}.
Arguments setExposure {hw}.
Arguments waitForSystem {hw}.
Arguments snap {hw}.

Definition kind_is_valid (kind : option string) : bool :=
  match kind with
  | Some k => String.eqb k "relative" || String.eqb k "absolute"
  | None => false
  end.

(** [move_z(mm_core, stage_label, position=None, kind=None)]: the
    position reported by the stage and the new hardware state. *)
Definition move_z {hw : Type} (parse : string -> option pyfloat)
    (mm_core : MMCore hw) (stage_label : string)
    (position : pyval) (kind : option string) (h : hw) : result (Q * hw) :=
  (* validate `kind` *)
  if negb (kind_is_valid kind) then
    Raise (mkExn ValueError "`kind` must be either 'relative' or 'absolute'")
  else
  (* validate `position`: only a ValueError of float() is translated *)
  match py_float parse position with
  | Raise (mkExn ValueError _) =>
      Raise (mkExn TypeError "`position` cannot be coerced to float")
  | Raise e => Raise e
  | Ok position =>
      if isnan position then
        Raise (mkExn TypeError "`position` cannot be nan")
      else
        (* move the stage *)
        bind (match kind with
              | Some "absolute"%string => setPosition mm_core stage_label position h
              | _ => setRelativePosition mm_core stage_label position h
              end) (fun h =>
        (* return the actual position of the stage *)
        bind (waitForDevice mm_core stage_label h) (fun h =>
        bind (getPosition mm_core stage_label h) (fun actual_position =>
        Ok (actual_position, h))))
  end.

(** The body of the [while] loop of [autoexposure], at most [fuel] times.
    [channel_settings] is the object that the loop mutates; [None] means
    that the loop is still running when the fuel is spent. *)
Fixpoint autoexposure_loop {hw : Type} (parse : string -> option pyfloat)
    (mm_core : MMCore hw) (stack_settings : StackSettings)
    (autoexposure_settings : AutoexposureSettings) (fuel : nat)
    (current_z_position : Q) (channel_settings : ChannelSettings) (h : hw)
  : option (result (ChannelSettings * hw)) :=
  if Qle_bool current_z_position (relative_top stack_settings) then
    match fuel with
    | O => None
    | S fuel' =>
        match waitForSystem mm_core h with
        | Raise e => Some (Raise e)
        | Ok h =>
        match snap mm_core h with
        | Raise e => Some (Raise e)
        | Ok (snap_data, h) =>
        let '(laser_power, exposure_time, slice_was_overexposed) :=
          check_slice_for_overexposure
            (Settings.laser_power channel_settings)
            (Settings.exposure_time channel_settings)
            snap_data autoexposure_settings in
        let step :=
          if slice_was_overexposed then
            let channel_settings :=
              mkChannelSettings (laser_line channel_settings)
                (laser_name channel_settings) laser_power exposure_time in
            bind (setProperty mm_core (laser_line channel_settings)
                    (laser_name channel_settings)
                    (Settings.laser_power channel_settings) h) (fun h =>
            bind (setExposure mm_core
                    (Settings.exposure_time channel_settings) h) (fun h =>
            Ok (relative_bottom stack_settings, channel_settings, h)))
          else
            Ok ((current_z_position + step_size stack_settings)%Q,
                channel_settings, h) in
        match step with
        | Raise e => Some (Raise e)
        | Ok (new_z_position, channel_settings, h) =>
        match move_z parse mm_core (stage_label stack_settings)
                (PyFloat (Fin new_z_position)) (Some "absolute"%string) h with
        | Raise e => Some (Raise e)
        | Ok (current_z_position, h) =>
            autoexposure_loop parse mm_core stack_settings
              autoexposure_settings fuel' current_z_position
              channel_settings h
        end end end end
    end
  else Some (Ok (channel_settings, h)).

(** [autoexposure]: the value of the [return] statement (the flag
    [autoexposure_did_succeed] alone), with the mutated channel settings
    and the hardware state. *)
Definition autoexposure {hw : Type} (parse : string -> option pyfloat)
    (mm_core : MMCore hw) (stack_settings : StackSettings)
    (channel_settings : ChannelSettings)
    (autoexposure_settings : AutoexposureSettings) (fuel : nat) (h : hw)
  : option (result (bool * ChannelSettings * hw)) :=
  let autoexposure_did_succeed := true in
  (* move to the bottom of the z-stack *)
  match move_z parse mm_core (stage_label stack_settings)
          (PyFloat (Fin (relative_bottom stack_settings)))
          (Some "relative"%string) h with
  | Raise e => Some (Raise e)
  | Ok (current_z_position, h) =>
      match autoexposure_loop parse mm_core stack_settings
              autoexposure_settings fuel current_z_position
              channel_settings h with
      | None => None
      | Some (Raise e) => Some (Raise e)
      | Some (Ok (channel_settings, h)) =>
          Some (Ok (autoexposure_did_succeed, channel_settings, h))
      end
  end.

(** A stand-in for the hardware: a stage that goes exactly where it is
    sent, and a camera that gives the frames of a list in turn (the last
    one for ever). *)
Record mock_hw : Type := mkMock {
  mock_z : Q;
  mock_laser : Q;
  mock_exposure : Q;
  mock_frames : list image
}.

Definition float_to_Q (f : pyfloat) : Q :=
  match f with Fin q => q | _ => 0%Q end.

Definition mock_core : MMCore mock_hw :=
  {| setPosition := fun _ p h =>
       Ok (mkMock (float_to_Q p) (mock_laser h) (mock_exposure h) (mock_frames h));
     setRelativePosition := fun _ p h =>
       Ok (mkMock (Qred (mock_z h + float_to_Q p)) (mock_laser h)
             (mock_exposure h) (mock_frames h));
     waitForDevice := fun _ h => Ok h;
     getPosition := fun _ h => Ok (mock_z h);
     setProperty := fun _ _ v h =>
       Ok (mkMock (mock_z h) v (mock_exposure h) (mock_frames h));
     setExposure := fun v h =>
       Ok (mkMock (mock_z h) (mock_laser h) v (mock_frames h));
     waitForSystem := fun h => Ok h;
     snap := fun h =>
       match mock_frames h with
       | [] => Ok (dark_snap, h)
       | [f] => Ok (f, h)
       | f :: rest =>
           Ok (f, mkMock (mock_z h) (mock_laser h) (mock_exposure h) rest)
       end |}.

(** A reading of strings that knows one literal, for concrete runs. *)
Definition parse_nan_only (s : string) : option pyfloat :=
  if String.eqb s "nan" then Some Nan else None.

End Operations.

(* ===================================================================== *)
(** * utils.py *)
(* ===================================================================== *)

Module Utils.
Import Py Numpy.

(** Rounding towards zero, as a C cast of a float to an integer. *)
Definition Qtrunc (x : Q) : Z := Z.quot (Qnum x) (Zpos (Qden x)).

(** [x.astype('uint8')] for one float: the integer part, kept modulo 256. *)
Definition astype_uint8 (x : Q) : Z := (Qtrunc x) mod 256.

(** What [to_uint8] does to one pixel [v] once the percentiles [minn] and
    [maxx] are known and differ: the four array statements of the source,
    in their order. *)
Definition stretch_pixel (minn maxx : Q) (v : Z) : Z :=
  let max_value := 255%Q in
  (* im = im - minn *)
  let x := (inject_Z v - minn)%Q in
  (* im[im < minn] = 0 *)
  let x := if Qltb x minn then 0%Q else x in
  (* im = im/(maxx - minn) *)
  let x := (x / (maxx - minn))%Q in
  (* im[im > 1] = 1 *)
  let x := if Qltb 1 x then 1%Q else x in
  (* (im * max_value).astype(dtype) *)
  astype_uint8 (x * max_value)%Q.

Definition map_pixels (f : Z -> Z) (im : image) : image := map (map f) im.

(** [to_uint8(im)].  On an image without pixels the percentiles are nan,
    the test [minn==maxx] is false and every statement maps nothing. *)
Definition to_uint8 (im : image) : image :=
  let percentile_ := 1%Q in
  match percentile (flatten im) percentile_,
        percentile (flatten im) (100 - percentile_)%Q with
  | Some minn, Some maxx =>
      if Qeq_bool minn maxx then map_pixels (fun _ => 0) im
      else map_pixels (stretch_pixel minn maxx) im
  | _, _ => map_pixels (fun _ => 0) im
  end.

(** The shape of an image: the length of every row. *)
Definition shape (im : image) : list nat := map (@List.length Z) im.

(** Clipping and rescaling from the range [[minn, maxx]] into [[0, 255]],
    as the description of [to_uint8] words it: values at or below [minn]
    go to 0, values at or above [maxx] to 255, the others in proportion. *)
Definition clip_rescale_pixel (minn maxx : Q) (v : Z) : Z :=
  let x := ((inject_Z v - minn) / (maxx - minn))%Q in
  let x := if Qltb x 0 then 0%Q else x in
  let x := if Qltb 1 x then 1%Q else x in
  astype_uint8 (x * 255)%Q.

(** [to_uint8] as it is described: the percentiles of the source, then
    [clip_rescale_pixel] on every pixel. *)
Definition clip_rescale (im : image) : image :=
  match percentile (flatten im) 1, percentile (flatten im) (100 - 1)%Q with
  | Some minn, Some maxx =>
      if Qeq_bool minn maxx then map_pixels (fun _ => 0) im
      else map_pixels (clip_rescale_pixel minn maxx) im
  | _, _ => map_pixels (fun _ => 0) im
  end.

Definition is_row_letter (c : ascii) : bool :=
  let n := nat_of_ascii c in (65 <=? n)%nat && (n <=? 72)%nat.

Definition is_digit (c : ascii) : bool :=
  let n := nat_of_ascii c in (48 <=? n)%nat && (n <=? 57)%nat.

(** The regular expression's [$]: the end of the string, or the position
    before a newline that ends the string. *)
Definition at_end (s : string) : bool :=
  match s with
  | EmptyString => true
  | String c EmptyString => (nat_of_ascii c =? 10)%nat
  | _ => false
  end.

(** [re.findall(r'^([A-H])([0-9]{1,2})$', well_id)]: the two groups of
    the match at the start of the string, if there is one.  The digits are
    taken greedily, two before one. *)
Definition findall_well_id (well_id : string) : list (ascii * string) :=
  match well_id with
  | String r rest =>
      if is_row_letter r then
        match rest with
        | String d1 (String d2 tail) =>
            if is_digit d1 && is_digit d2 && at_end tail
            then [(r, String d1 (String d2 EmptyString))]
            else if is_digit d1 && at_end (String d2 tail)
            then [(r, String d1 EmptyString)]
            else []
        | String d1 EmptyString =>
            if is_digit d1 then [(r, String d1 EmptyString)] else []
        | EmptyString => []
        end
      else []
  | EmptyString => []
  end.

(** [int(col)] on a string of decimal digits. *)
Fixpoint int_of_digits (acc : Z) (s : string) : Z :=
  match s with
  | EmptyString => acc
  | String c s' => int_of_digits (10 * acc + (Z.of_nat (nat_of_ascii c) - 48)) s'
  end.

(** [list('ABCDEFGH').index(row)] *)
Definition row_index (row : ascii) : Z := Z.of_nat (nat_of_ascii row) - 65.

(** [well_id_to_position(well_id)]; [result[0]] raises an IndexError when
    nothing matches. *)
Definition well_id_to_position (well_id : string) : result (Z * Z) :=
  match findall_well_id well_id with
  | [] => Raise (mkExn IndexError "list index out of range")
  | (row, col) :: _ =>
      let row_ind := row_index row in
      let col_ind := int_of_digits 0 col - 1 in
      Ok (row_ind, col_ind)
  end.

(** The decimal writing of a column number from 1 to 99. *)
Definition digit_char (d : nat) : ascii := ascii_of_nat (48 + d).

Definition column_digits (n : nat) : string :=
  if (n <? 10)%nat then String (digit_char n) EmptyString
  else String (digit_char (n / 10)) (String (digit_char (n mod 10)) EmptyString).

(** The label of the well in row [r] and column [c], both counted from
    zero: the inverse mapping of [well_id_to_position] on a plate. *)
Definition position_to_well_id (r c : nat) : string :=
  String (ascii_of_nat (65 + r)) (column_digits (S c)).

(** The 96 wells of a plate, as (row, column) pairs. *)
Definition plate_positions : list (nat * nat) :=
  list_prod (seq 0 8) (seq 0 12).

End Utils.

(* ===================================================================== *)
(** * confluency_assessments.py *)
(* ===================================================================== *)

Module Confluency.
Import Py Numpy.

Definition mask : Type := list (list bool).
Definition positions : Type := list (Z * Z).

(** A 2x2 array of floats, row by row. *)
Definition matrix : Type := list (list pyfloat).

(** [np.isfinite(x)] *)
Definition isfinite (x : pyfloat) : bool :=
  match x with Fin _ => true | _ => false end.

Definition total (xs : list Q) : Q := fold_right Qplus 0%Q xs.

(** The mean of one coordinate over the positions. *)
Definition mean (xs : list Z) : Q :=
  (total (map inject_Z xs) / inject_Z (Z.of_nat (length xs)))%Q.

(** One entry of [np.cov]: the products of the deviations from the two
    means, summed and divided by [N - 1].  With fewer than two
    observations numpy warns that the degrees of freedom are not
    positive and divides by 0.0: the entry is nan. *)
Definition covariance (xs ys : list Z) : pyfloat :=
  if (length xs <=? 1)%nat then Nan
  else
    Fin (total (map (fun '(x, y) =>
                       (inject_Z x - mean xs) * (inject_Z y - mean ys))%Q
                  (combine xs ys))
         / inject_Z (Z.of_nat (length xs) - 1))%Q.

(** [np.cov(positions.transpose())]: the two coordinates are the
    variables, the positions the observations. *)
Definition np_cov (ps : positions) : matrix :=
  let rows := map fst ps in
  let cols := map snd ps in
  [[covariance rows rows; covariance rows cols];
   [covariance cols rows; covariance cols cols]].

(** [numpy.linalg.LinAlgError], raised by [np.linalg.eig] on an array
    that is not finite. *)
Definition linalg_error : exn :=
  mkExn OtherError "LinAlgError: Array must not contain infs or NaNs".

(** The image-processing and linear-algebra steps that the module takes
    from skimage, scipy and numpy. *)
Record ImageLib : Type := mkImageLib {
  _generate_background_mask : image -> result mask;
  _find_nucleus_positions : mask -> Z -> result positions;
  (** [((positions.mean(axis=0) - image_size/2)**2).sum()**.5 / image_size] *)
  rel_com_offset_of : positions -> Z -> pyfloat;
  (** [(max(evals) - min(evals))/min(evals)] for the eigenvalues [evals]
      that [np.linalg.eig] finds for a finite matrix; a division by zero
      gives an infinity or nan, it does not raise *)
  eigenvalue_ratio : matrix -> pyfloat
}.

(** [np.linalg.eig(np.cov(positions.transpose()))] and the ratio of the
    eigenvalues: [eig] first checks that its argument is finite. *)
Definition eval_ratio_of (lib : ImageLib) (ps : positions)
  : result pyfloat :=
  let c := np_cov ps in
  if forallb (forallb isfinite) c then Ok (eigenvalue_ratio lib c)
  else Raise linalg_error.

(** [_calculate_nucleus_position_features(positions, image_size)] *)
Definition _calculate_nucleus_position_features
    (lib : ImageLib) (ps : positions) (image_size : Z)
  : result (Z * pyfloat * pyfloat) :=
  let num_nuclei := Z.of_nat (List.length ps) in
  let rel_com_offset := rel_com_offset_of lib ps image_size in
  bind (eval_ratio_of lib ps) (fun eval_ratio =>
  Ok (num_nuclei, rel_com_offset, eval_ratio)).

(** The [if]/[elif] chain of [assess_confluency]. *)
Definition confluency_decision
    (num_nuclei : Z) (rel_com_offset eval_ratio : pyfloat) : bool * string :=
  let min_num_nuclei := 20 in
  let max_num_nuclei := 55 in
  let max_rel_com_offset := (3 # 10)%Q in
  let max_eval_ratio := 1%Q in
  if num_nuclei >? max_num_nuclei then (false, "high"%string)
  else if num_nuclei <? min_num_nuclei then (false, "low"%string)
  else if float_gt rel_com_offset max_rel_com_offset
          || float_gt eval_ratio max_eval_ratio
       then (false, "anisotropic"%string)
  else (true, "good"%string).

(** [_log_confluency_data]: the files written are left out; what remains
    is the failure of the format ['%05d'] on a missing position index. *)
Definition _log_confluency_data (position_ind : option Z) : result unit :=
  match position_ind with
  | Some _ => Ok tt
  | None => Raise (mkExn TypeError "%d format: a number is required, not NoneType")
  end.

(** [assess_confluency(snap, log_dir=None, position_ind=None)]: returns
    [(confluency_is_good, confluency_label)]. *)
Definition assess_confluency (lib : ImageLib) (snap : image)
    (log_dir : option string) (position_ind : option Z)
  : result (bool * string) :=
  let nucleus_radius := 15 in
  let image_size := 1024 in
  bind (_generate_background_mask lib snap) (fun mask =>
  bind (_find_nucleus_positions lib mask nucleus_radius) (fun nucleus_positions =>
  bind (_calculate_nucleus_position_features lib nucleus_positions image_size)
    (fun '(num_nuclei, rel_com_offset, eval_ratio) =>
  let decision := confluency_decision num_nuclei rel_com_offset eval_ratio in
  bind (match log_dir with
        | Some _ => _log_confluency_data position_ind
        | None => Ok tt
        end) (fun _ =>
  Ok decision)))).

(** The nucleus positions that [assess_confluency] computes for a snap. *)
Definition nucleus_positions_of (lib : ImageLib) (snap : image)
  : result positions :=
  bind (_generate_background_mask lib snap) (fun mask =>
  _find_nucleus_positions lib mask 15).

(** A library that reports [n] nuclei on a diagonal and the given two
    features, for concrete runs. *)
Definition fixed_lib (n : nat) (off ratio : pyfloat) : ImageLib :=
  {| _generate_background_mask := fun _ => Ok [];
     _find_nucleus_positions := fun _ _ =>
       Ok (map (fun i => (Z.of_nat i, Z.of_nat i)) (seq 0 n));
     rel_com_offset_of := fun _ _ => off;
     eigenvalue_ratio := fun _ => ratio |}.

End Confluency.

(* ===================================================================== *)
(** * fov_classifier.py *)
(* ===================================================================== *)

Module FOVClassifier.
Import Py.
Local Open Scope string_scope.

Inductive mode_t : Type := Training | Prediction.

(** What a caller can pass as [image]. *)
Inductive raw_fov : Type :=
| NotNdarray
| Ndarray (dtype : string) (shape : list Z) (pixels : list Z).

Definition mask : Type := list (list bool).
Definition positions : Type := list (Z * Z).
Definition features : Type := list (string * pyfloat).

(** [self.log_info]; a key that is absent reads as [None], as with
    [dict.get]. *)
Record log_info_t : Type := mkLogInfo {
  log_position_ind : option Z;
  log_raw_image : option raw_fov;
  log_positions : option positions;
  log_features : option features;
  (** [dict(method_name=..., error_message=...)] *)
  log_error_info : option (string * string);
  log_decision : option bool;
  log_reason : option string
}.

(** The attributes of a classifier that [classify_raw_fov] reads and
    writes.  [calls] is not in the source: it lists, oldest first, the
    wrapped methods whose body was really run, each with the exception it
    raised if it raised one. *)
Record classifier : Type := mkClassifier {
  mode : mode_t;
  log_dir : option string;
  error_has_occured : bool;
  decision_has_been_made : bool;
  (** [None]: the attribute is not set *)
  decision_flag : option (option bool);
  log_info : log_info_t;
  calls : list (string * option exn)
}.

(** The steps that the classifier takes from skimage, scipy and sklearn. *)
Record Stages : Type := mkStages {
  (** [skimage.filters.threshold_li(image) > min_otsu_thresh] *)
  nuclei_above_threshold : raw_fov -> result bool;
  background_mask_of : raw_fov -> result mask;
  nucleus_positions_of : mask -> result positions;
  features_of : positions -> result features;
  (** [self.model.predict(X)[0]] *)
  model_predict : features -> result bool
}.

(** A computation on the classifier: a result and the classifier after it
    (also when it raises). *)
Definition M (A : Type) : Type := classifier -> result A * classifier.

Definition ret {A : Type} (a : A) : M A := fun self => (Ok a, self).

Definition mbind {A B : Type} (m : M A) (k : A -> M B) : M B :=
  fun self =>
    match m self with
    | (Ok a, self') => k a self'
    | (Raise e, self') => (Raise e, self')
    end.

Notation "x <- m ;; k" := (mbind m (fun x => k))
  (at level 61, m at next level, right associativity).
Notation "m ;;; k" := (mbind m (fun _ => k))
  (at level 61, right associativity).

Definition with_flags (self : classifier) (err made : bool) : classifier :=
  mkClassifier (mode self) (log_dir self) err made
    (decision_flag self) (log_info self) (calls self).

Definition with_log (self : classifier) (l : log_info_t) : classifier :=
  mkClassifier (mode self) (log_dir self) (error_has_occured self)
    (decision_has_been_made self) (decision_flag self) l (calls self).

Definition record_call (self : classifier) (name : string)
    (raised : option exn) : classifier :=
  mkClassifier (mode self) (log_dir self) (error_has_occured self)
    (decision_has_been_made self) (decision_flag self) (log_info self)
    (calls self ++ [(name, raised)])%list.

(** [make_decision(self, decision, reason, error_info=None)] *)
Definition make_decision (decision : option bool) (reason : option string)
    (error_info : option (string * string)) : M unit :=
  fun self =>
    (* if an error has already occured, do nothing *)
    if error_has_occured self || decision_has_been_made self then (Ok tt, self)
    else
      let l := log_info self in
      (Ok tt,
       mkClassifier (mode self) (log_dir self) (error_has_occured self)
         true (Some decision)
         (mkLogInfo (log_position_ind l) (log_raw_image l) (log_positions l)
            (log_features l) error_info decision reason)
         (calls self)).

Definition error_reason (method_name : string) : string :=
  "Error in method `FOVClassifier." ++ method_name ++ "`".

(** [catch_errors(method)]: the wrapper around a method called
    [method_name].  A wrapped call gives [None] when the method was not
    run or was stopped by an exception. *)
Definition catch_errors {A B : Type} (method_name : string)
    (method : classifier -> A -> result B) (args : A) : M (option B) :=
  fun self =>
    match mode self with
    | Training =>
        (* only wrap in 'prediction' mode *)
        match method self args with
        | Ok b => (Ok (Some b), record_call self method_name None)
        | Raise e => (Raise e, record_call self method_name (Some e))
        end
    | Prediction =>
        if error_has_occured self || decision_has_been_made self
        then (Ok None, self)
        else
          match method self args with
          | Ok b => (Ok (Some b), record_call self method_name None)
          | Raise error =>
              let self := record_call self method_name (Some error) in
              let error_info := (method_name, exn_message error) in
              let '(_, self) :=
                make_decision (Some false) (Some (error_reason method_name))
                  (Some error_info) self in
              (Ok None,
               with_flags self true (decision_has_been_made self))
          end
    end.

Definition image_size : Z := 1024.

Definition none_has_no_attribute {A : Type} : result A :=
  Raise (mkExn AttributeError "'NoneType' object has no attribute").

(** The body of [validate_raw_fov]: [dict(flag=flag, message=message)]. *)
Definition validate_raw_fov_body (self : classifier) (image : raw_fov)
  : result (bool * option string) :=
  match image with
  | NotNdarray => Ok (false, Some "Image is not an np.ndarray")
  | Ndarray dtype shape _ =>
      if negb (String.eqb dtype "uint16") then
        Ok (false, Some "Image is not uint16")
      else
        match shape with
        | [rows; cols] =>
            if negb (rows =? image_size)%Z || negb (cols =? image_size)%Z
            then Ok (false, Some "Image shape is not (1024, 1024)")
            else Ok (true, None)
        | _ => Ok (false, Some "Image is not 2D")
        end
  end.

Definition are_nuclei_in_fov_body (st : Stages) (self : classifier)
    (image : raw_fov) : result bool :=
  nuclei_above_threshold st image.

(** The body of [is_fov_candidate]. *)
Definition is_fov_candidate_body (self : classifier)
    (positions : option positions) : result bool :=
  match positions with
  | None => none_has_no_attribute
  | Some positions =>
      let min_num_nuclei := 10%Z in
      let max_num_nuclei := 100%Z in
      let num_positions := Z.of_nat (List.length positions) in
      if (num_positions <? min_num_nuclei)%Z
         || (num_positions >? max_num_nuclei)%Z
      then Ok false else Ok true
  end.

Definition generate_background_mask_body (st : Stages) (self : classifier)
    (image : raw_fov) : result mask :=
  background_mask_of st image.

Definition find_nucleus_positions_body (st : Stages) (self : classifier)
    (mask : option mask) : result positions :=
  match mask with
  | None => none_has_no_attribute
  | Some mask => nucleus_positions_of st mask
  end.

Definition calculate_features_body (st : Stages) (self : classifier)
    (positions : option positions) : result features :=
  match positions with
  | None => none_has_no_attribute
  | Some positions => features_of st positions
  end.

Definition predict_body (st : Stages) (self : classifier)
    (features : option features) : result bool :=
  match features with
  | None => none_has_no_attribute
  | Some features => model_predict st features
  end.

(** The wrapped methods, under the names that [catch_errors] gives them. *)
Definition validate_raw_fov := catch_errors "validate_raw_fov" validate_raw_fov_body.
Definition are_nuclei_in_fov (st : Stages) :=
  catch_errors "are_nuclei_in_fov" (are_nuclei_in_fov_body st).
Definition is_fov_candidate := catch_errors "is_fov_candidate" is_fov_candidate_body.
Definition generate_background_mask (st : Stages) :=
  catch_errors "generate_background_mask" (generate_background_mask_body st).
Definition find_nucleus_positions (st : Stages) :=
  catch_errors "find_nucleus_positions" (find_nucleus_positions_body st).
Definition calculate_features (st : Stages) :=
  catch_errors "calculate_features" (calculate_features_body st).
Definition predict (st : Stages) := catch_errors "predict" (predict_body st).

(** The exception of [log_classification_info]. *)
Definition missing_position_ind : exn :=
  mkExn ValueError
    "A position_ind must be provided to log classification info".

(** [log_classification_info]: printing and the files written are left
    out; what remains is the check on the position index. *)
Definition log_classification_info : M unit :=
  fun self =>
    match log_dir self with
    | None => (Ok tt, self)
    | Some _ =>
        match log_position_ind (log_info self) with
        | None =>
            (Raise missing_position_ind, self)
        | Some _ => (Ok tt, self)
        end
    end.

Definition set_log (f : log_info_t -> log_info_t) : M unit :=
  fun self => (Ok tt, with_log self (f (log_info self))).

(** [not x] for a value that is [None] or a boolean. *)
Definition py_not (x : option bool) : bool :=
  match x with Some true => false | _ => true end.

(** [classify_raw_fov(self, image, position_ind=None)] *)
Definition classify_raw_fov (st : Stages) (image : raw_fov)
    (position_ind : option Z) : M (option bool) :=
  (* reset the 'state' of the decision-making logic and the log info *)
  (fun self =>
     (Ok tt,
      mkClassifier (mode self) (log_dir self) false false (decision_flag self)
        (mkLogInfo position_ind None None None None None None)
        (calls self))) ;;;
  (* validate the image *)
  validation_result <- validate_raw_fov image ;;
  match validation_result with
  | Some (flag, message) =>
      if flag then
        set_log (fun l =>
          mkLogInfo (log_position_ind l) (Some image) (log_positions l)
            (log_features l) (log_error_info l) (log_decision l) (log_reason l))
      else make_decision (Some false) message None
  | None => ret tt
  end ;;;
  (* check whether there are any nuclei in the FOV *)
  nuclei_in_fov <- are_nuclei_in_fov st image ;;
  (if py_not nuclei_in_fov
   then make_decision (Some false) (Some "No nuclei in the FOV") None
   else ret tt) ;;;
  (* calculate the background mask, then the nucleus positions *)
  mask <- generate_background_mask st image ;;
  positions <- find_nucleus_positions st mask ;;
  set_log (fun l =>
    mkLogInfo (log_position_ind l) (log_raw_image l) positions
      (log_features l) (log_error_info l) (log_decision l) (log_reason l)) ;;;
  (* determine if the FOV is a candidate *)
  fov_is_candidate <- is_fov_candidate positions ;;
  (if py_not fov_is_candidate
   then make_decision (Some false) (Some "FOV is not a candidate") None
   else ret tt) ;;;
  (* calculate features from the positions *)
  features <- calculate_features st positions ;;
  set_log (fun l =>
    mkLogInfo (log_position_ind l) (log_raw_image l) (log_positions l)
      features (log_error_info l) (log_decision l) (log_reason l)) ;;;
  (* finally, use the trained model to generate a prediction *)
  model_prediction <- predict st features ;;
  make_decision model_prediction (Some "Model prediction") None ;;;
  (* log everything we've accumulated in self.log_info *)
  log_classification_info ;;;
  (fun self =>
     match decision_flag self with
     | Some flag => (Ok flag, self)
     | None => (none_has_no_attribute, self)
     end).

(** A classifier as [__init__] leaves it, before the first call. *)
Definition new_classifier (m : mode_t) (dir : option string) : classifier :=
  mkClassifier m dir false false None
    (mkLogInfo None None None None None None None) [].

(** The names of the wrapped methods run so far. *)
Definition called (self : classifier) : list string := map fst (calls self).

(** The wrapped methods that raised. *)
Definition raised_in (self : classifier) (name : string) (e : exn) : Prop :=
  In (name, Some e) (calls self).

(** A well-formed frame, and stages that find [n] nuclei in it. *)
Definition good_frame : raw_fov := Ndarray "uint16" [1024%Z; 1024%Z] [].

Definition stages_with (n : nat) (feat : result features) : Stages :=
  {| nuclei_above_threshold := fun _ => Ok true;
     background_mask_of := fun _ => Ok [];
     nucleus_positions_of := fun _ =>
       Ok (map (fun i => (Z.of_nat i, Z.of_nat i)) (seq 0 n));
     features_of := fun _ => feat;
     model_predict := fun _ => Ok true |}.

(** A trace of wrapped calls none of which raised. *)
Definition quiet (trace : list (string * option exn)) : Prop :=
  Forall (fun c => snd c = None) trace.

(** The state of a classifier in prediction mode in the course of
    [classify_raw_fov], [base] being the calls recorded before it and
    [dir] and [position_ind] the logging set-up: either
    no wrapped method has raised, or the last one run did and the
    rejection is recorded with its name and message. *)
Definition contained (base : list (string * option exn))
    (dir : option string) (position_ind : option Z)
    (self : classifier) : Prop :=
  mode self = Prediction
  /\ log_dir self = dir
  /\ log_position_ind (log_info self) = position_ind
  /\ (decision_has_been_made self = true ->
      exists d, decision_flag self = Some d)
  /\ exists trace,
       calls self = (base ++ trace)%list
       /\ if error_has_occured self then
            exists before name e,
              trace = (before ++ [(name, Some e)])%list
              /\ quiet before
              /\ decision_has_been_made self = true
              /\ decision_flag self = Some (Some false)
              /\ log_decision (log_info self) = Some false
              /\ log_reason (log_info self) = Some (error_reason name)
              /\ log_error_info (log_info self)
                 = Some (name, exn_message e)
          else quiet trace.

(** In training mode: no wrapped method has raised so far. *)
Definition running (base : list (string * option exn))
    (self : classifier) : Prop :=
  mode self = Training
  /\ exists trace, calls self = (base ++ trace)%list /\ quiet trace.

(** In training mode: the last wrapped method run raised [e]. *)
Definition stopped_by (base : list (string * option exn)) (e : exn)
    (self : classifier) : Prop :=
  exists before name,
    calls self = (base ++ before ++ [(name, Some e)])%list /\ quiet before.

(** A computation started in a state of [P] ends in a state of [Qok] with
    its value, or of [Qex] with its exception. *)
Definition hoare {A : Type} (P : classifier -> Prop) (m : M A)
    (Qok : A -> classifier -> Prop) (Qex : exn -> classifier -> Prop)
  : Prop :=
  forall self, P self ->
    match m self with
    | (Ok a, self') => Qok a self'
    | (Raise e, self') => Qex e self'
    end.

End FOVClassifier.

(* ===================================================================== *)
(** * A steady hardware, for runs of the autoexposure loop *)
(* ===================================================================== *)

Module Bench.
Import Py Numpy Operations.

(** A core whose state is the position of the stage: the stage goes
    exactly where it is sent, nothing fails, and the camera gives the same
    frame at every snap. *)
Definition steady_core (frame : image) : MMCore Q :=
  {| setPosition := fun _ p _ => Ok (float_to_Q p);
     setRelativePosition := fun _ p z => Ok (z + float_to_Q p)%Q;
     waitForDevice := fun _ z => Ok z;
     getPosition := fun _ z => Ok z;
     setProperty := fun _ _ _ z => Ok z;
     setExposure := fun _ z => Ok z;
     waitForSystem := fun z => Ok z;
     snap := fun z => Ok (frame, z) |}.

End Bench.

(* ===================================================================== *)
(** * fov_classifier.py: the steps of [classify_raw_fov], one after the other *)
(* ===================================================================== *)

Module Staged.
Import Py FOVClassifier.
Local Open Scope string_scope.

(** How a classification ends, following the steps listed in the
    docstring of [classify_raw_fov] (each one: yes, no, or error). *)
Inductive outcome : Type :=
| Rejected (reason : option string)
| Failed (method_name : string) (error : exn)
| Predicted (prediction : bool).

(** The method bodies applied in the order of [classify_raw_fov], each to
    the result of the one before, stopping at the first 'no' or error. *)
Definition staged_outcome (st : Stages) (self : classifier)
    (image : raw_fov) : outcome :=
  match validate_raw_fov_body self image with
  | Raise e => Failed "validate_raw_fov" e
  | Ok (false, message) => Rejected message
  | Ok (true, _) =>
  match are_nuclei_in_fov_body st self image with
  | Raise e => Failed "are_nuclei_in_fov" e
  | Ok false => Rejected (Some "No nuclei in the FOV")
  | Ok true =>
  match generate_background_mask_body st self image with
  | Raise e => Failed "generate_background_mask" e
  | Ok mask =>
  match find_nucleus_positions_body st self (Some mask) with
  | Raise e => Failed "find_nucleus_positions" e
  | Ok positions =>
  match is_fov_candidate_body self (Some positions) with
  | Raise e => Failed "is_fov_candidate" e
  | Ok false => Rejected (Some "FOV is not a candidate")
  | Ok true =>
  match calculate_features_body st self (Some positions) with
  | Raise e => Failed "calculate_features" e
  | Ok features =>
  match predict_body st self (Some features) with
  | Raise e => Failed "predict" e
  | Ok prediction => Predicted prediction
  end end end end end end end.

Definition decision_of (o : outcome) : option bool :=
  match o with
  | Predicted b => Some b
  | _ => Some false
  end.

Definition reason_of (o : outcome) : option string :=
  match o with
  | Rejected reason => reason
  | Failed method_name _ => Some (error_reason method_name)
  | Predicted _ => Some "Model prediction"
  end.

Definition error_info_of (o : outcome) : option (string * string) :=
  match o with
  | Failed method_name error => Some (method_name, exn_message error)
  | _ => None
  end.

End Staged.

(* ===================================================================== *)
(** * utils.py: site labels *)
(* ===================================================================== *)

Module SiteLabels.
Import Py Utils.
Local Open Scope string_scope.

(** [str(n)] for a natural number: its decimal digits, most significant
    first.  [fuel] bounds the number of digits. *)
Fixpoint decimal_digits (fuel n : nat) : string :=
  match fuel with
  | O => ""
  | S fuel' =>
      if (n <? 10)%nat then String (digit_char n) ""
      else decimal_digits fuel' (n / 10) ++ String (digit_char (n mod 10)) ""
  end.

Definition str_of_nat (n : nat) : string := decimal_digits (S n) n.

(** The longest run of digits at the start of a string, and the rest. *)
Fixpoint take_digits (s : string) : string * string :=
  match s with
  | String c s' =>
      if is_digit c then
        let (digits, rest) := take_digits s' in (String c digits, rest)
      else ("", s)
  | "" => ("", "")
  end.

(** [s] without the literal [p] at its start, if it starts with [p]. *)
Fixpoint strip_prefix (p s : string) : option string :=
  match p, s with
  | "", _ => Some s
  | String a p', String b s' =>
      if Ascii.eqb a b then strip_prefix p' s' else None
  | String _ _, "" => None
  end.

(** The end of the pattern, [-Site_([0-9]+)$], on what follows the well
    id.  The digits are taken greedily; giving one back cannot help [$],
    which would then stand before a digit. *)
Definition match_site (well_id after : string) : list (string * string) :=
  match strip_prefix "-Site_" after with
  | Some tail =>
      let (digits, rest) := take_digits tail in
      match digits with
      | "" => []
      | String _ _ => if at_end rest then [(well_id, digits)] else []
      end
  | None => []
  end.

(** [re.findall(r'^([A-H][0-9]{1,2})-Site_([0-9]+)$', label)]: the well
    id is tried with two digits before it is tried with one. *)
Definition findall_site_label (label : string) : list (string * string) :=
  match label with
  | String r (String d1 rest) =>
      if is_row_letter r && is_digit d1 then
        let one := match_site (String r (String d1 "")) rest in
        match rest with
        | String d2 rest' =>
            if is_digit d2 then
              match match_site (String r (String d1 (String d2 ""))) rest' with
              | [] => one
              | found => found
              end
            else one
        | "" => one
        end
      else []
  | _ => []
  end.

(** [parse_hcs_site_label(label)]: [(well_id, site_num)]. *)
Definition parse_hcs_site_label (label : string) : result (string * Z) :=
  match findall_site_label label with
  | [] => Raise (mkExn IndexError "list index out of range")
  | (well_id, site_num) :: _ =>
      let site_num := int_of_digits 0 site_num in
      Ok (well_id, site_num)
  end.

(** The label that the site generator gives to site [n] of a well. *)
Definition site_label (well_id : string) (n : nat) : string :=
  well_id ++ "-Site_" ++ str_of_nat n.

Fixpoint all_digits (s : string) : bool :=
  match s with
  | "" => true
  | String c s' => is_digit c && all_digits s'
  end.

End SiteLabels.

(* ===================================================================== *)
(** * utils.py: the least-squares interpolator *)
(* ===================================================================== *)

Module LeastSquares.
Import Py.

(** [x[i]] for an index that is not negative. *)
Definition item (x : list Q) (i : nat) : result Q :=
  match nth_error x i with
  | Some v => Ok v
  | None => Raise (mkExn IndexError "index is out of bounds")
  end.

(** The [for col_ind] loop: one row of [Z]. *)
Fixpoint fill_row (p0 p1 p2 : Q) (x y : list Q) (row_ind : nat)
    (cols : list nat) : result (list Q) :=
  match cols with
  | [] => Ok []
  | col_ind :: cols' =>
      bind (item x col_ind) (fun xc =>
      bind (item y row_ind) (fun yr =>
      bind (fill_row p0 p1 p2 x y row_ind cols') (fun rest =>
      Ok ((xc * p0 + yr * p1 + p2)%Q :: rest))))
  end.

(** The [for row_ind] loop. *)
Fixpoint fill_rows (p0 p1 p2 : Q) (x y : list Q) (rows : list nat)
    (cols : list nat) : result (list (list Q)) :=
  match rows with
  | [] => Ok []
  | row_ind :: rows' =>
      bind (fill_row p0 p1 p2 x y row_ind cols) (fun row =>
      bind (fill_rows p0 p1 p2 x y rows' cols) (fun rest =>
      Ok (row :: rest)))
  end.

(** The function [interpolator(x, y)] that [_least_squares_interpolator]
    returns, for the fitted coefficients [p] and for [x] and [y] already
    made one-dimensional: [Z] has [len(x)] rows and [len(y)] columns. *)
Definition interpolator (p : Q * Q * Q) (x y : list Q)
  : result (list (list Q)) :=
  let '(p0, p1, p2) := p in
  fill_rows p0 p1 p2 x y (seq 0 (length x)) (seq 0 (length y)).

End LeastSquares.

(* ===================================================================== *)
(** * utils.py: the visitation manager *)
(* ===================================================================== *)

Module Visitation.
Local Open Scope string_scope.

(** The exceptions met by the manager. *)
Inductive error : Type :=
| PopFromEmptyList
| UnboundLocal (name : string)
| MissingAttribute (name : string)
| Py4JJavaError (message : string)
| BridgeError (message : string).

Inductive res (A : Type) : Type :=
| Done (a : A)
| Thrown (e : error).
Arguments Done {A} a.
Arguments Thrown {A} e.

(** An entry of [position_list['POSITIONS']]; of its devices only the
    label matters here. *)
Record position : Type := mkPosition { LABEL : string }.

(** The calls made on the microscope: each gives a result or throws, and
    leaves the hardware in some state.  [operations.go_to_position] is
    called by the manager but is not in [operations.py] as given; it is
    taken as it comes, like the two calls on the core. *)
Record Bridge (hw : Type) : Type := mkBridge {
  (** [operations.go_to_position(mms, mmc, ind)] *)
  go_to_position : nat -> hw -> res unit * hw;
  (** [mmc.getPosition('FocusDrive')] *)
  getPosition : hw -> res Q * hw;
  (** [mmc.fullFocus()] *)
  fullFocus : hw -> res unit * hw
}.
Arguments go_to_position {hw}.
Arguments getPosition {hw}.
Arguments fullFocus {hw}.

(** The attributes of a [StageVisitationManager]. *)
Record manager : Type := mkManager {
  well_ids_to_visit : list string;
  position_list : list position;
  unvisited_well_ids : list string;
  (** [None]: the attribute is not set *)
  current_well_id : option string;
  measured_focusdrive_positions : list (string * Q)
}.

(** [StageVisitationManager.__init__] *)
Definition init (well_ids_to_visit : list string)
    (position_list : list position) : manager :=
  mkManager well_ids_to_visit position_list
    (rev well_ids_to_visit) None [].

(** [l.pop()]: the last element and the list without it. *)
Definition pop {A : Type} (l : list A) : option (A * list A) :=
  match rev l with
  | [] => None
  | x :: r => Some (x, rev r)
  end.

(** The [for] loop of [well_id_to_position_ind] from index [ind] on: the
    value of [ind] when the loop is left, by [break] or at the end. *)
Fixpoint last_ind (well_id : string) (ps : list position) (ind : nat) : nat :=
  match ps with
  | [] => ind
  | p :: rest =>
      if String.prefix well_id (LABEL p) then ind
      else match rest with
           | [] => ind
           | _ :: _ => last_ind well_id rest (S ind)
           end
  end.

(** [well_id_to_position_ind(self, well_id)]; on an empty list the loop
    variable is never bound. *)
Definition well_id_to_position_ind (self : manager) (well_id : string)
  : res nat :=
  match position_list self with
  | [] => Thrown (UnboundLocal "ind")
  | ps => Done (last_ind well_id ps 0)
  end.

(** [go_to_next_well(self)] *)
Definition go_to_next_well {hw : Type} (b : Bridge hw)
    (self : manager) (h : hw) : res unit * (manager * hw) :=
  match pop (unvisited_well_ids self) with
  | None => (Thrown PopFromEmptyList, (self, h))
  | Some (well_id, rest) =>
      let self :=
        mkManager (well_ids_to_visit self) (position_list self) rest
          (Some well_id) (measured_focusdrive_positions self) in
      match well_id_to_position_ind self well_id with
      | Thrown e => (Thrown e, (self, h))
      | Done ind =>
          match go_to_position b ind h with
          | (Thrown (Py4JJavaError _), h) =>
              let (r, h) := go_to_position b ind h in (r, (self, h))
          | (r, h) => (r, (self, h))
          end
      end
  end.

(** [d[k] = v] on a dict kept as the list of its items. *)
Fixpoint dict_set (k : string) (v : Q) (d : list (string * Q))
  : list (string * Q) :=
  match d with
  | [] => [(k, v)]
  | (k', v') :: d' =>
      if String.eqb k' k then (k, v) :: d' else (k', v') :: dict_set k v d'
  end.

Fixpoint dict_get (k : string) (d : list (string * Q)) : option Q :=
  match d with
  | [] => None
  | (k', v') :: d' => if String.eqb k' k then Some v' else dict_get k d'
  end.

(** [call_afc(self)] *)
Definition call_afc {hw : Type} (b : Bridge hw)
    (self : manager) (h : hw) : res unit * (manager * hw) :=
  match current_well_id self with
  | None => (Thrown (MissingAttribute "current_well_id"), (self, h))
  | Some well_id =>
      match getPosition b h with
      | (Thrown e, h) => (Thrown e, (self, h))
      | (Done pos_before, h) =>
      match fullFocus b h with
      | (Thrown e, h) => (Thrown e, (self, h))
      | (Done _, h) =>
      match getPosition b h with
      | (Thrown e, h) => (Thrown e, (self, h))
      | (Done pos_after, h) =>
          (Done tt,
           (mkManager (well_ids_to_visit self) (position_list self)
              (unvisited_well_ids self) (current_well_id self)
              (dict_set well_id pos_after
                 (measured_focusdrive_positions self)),
            h))
      end end end
  end.

(** [n] calls of [go_to_next_well] in a row, up to the first that throws. *)
Fixpoint visit {hw : Type} (b : Bridge hw) (n : nat)
    (self : manager) (h : hw) : res unit * (manager * hw) :=
  match n with
  | O => (Done tt, (self, h))
  | S n' =>
      match go_to_next_well b self h with
      | (Done _, (self, h)) => visit b n' self h
      | thrown => thrown
      end
  end.

(** A stage that fails with a Java error a given number of times before
    it moves: the state is the number of failures left and the index of
    the position reached last. *)
Definition flaky_bridge : Bridge (nat * option nat) :=
  {| go_to_position := fun ind h =>
       match fst h with
       | O => (Done tt, (O, Some ind))
       | S k => (Thrown (Py4JJavaError "remote call failed"), (k, snd h))
       end;
     getPosition := fun h => (Done 0%Q, h);
     fullFocus := fun h => (Done tt, h) |}.

(** A stage that never fails; its state is the position of the focus
    drive, which the autofocus moves up by 25. *)
Definition steady_bridge : Bridge Q :=
  {| go_to_position := fun _ z => (Done tt, z);
     getPosition := fun z => (Done z, z);
     fullFocus := fun z => (Done tt, (z + 25)%Q) |}.

(** The same with an autofocus that is out of range. *)
Definition unfocused_bridge : Bridge Q :=
  {| go_to_position := fun _ z => (Done tt, z);
     getPosition := fun z => (Done z, z);
     fullFocus := fun z => (Thrown (BridgeError "AFC out of range"), z) |}.

End Visitation.

(* ===================================================================== *)
(** * fov_classifier.py: saving and loading the training data *)
(* ===================================================================== *)

Module Training.
Import Py FOVClassifier.
Local Open Scope string_scope.

(** The validation results: a dict of strings (scores written with two
    decimals). *)
Definition results : Type := list (string * string).

(** The files of the disk, by path; [text] is what a file holds. *)
Definition disk (text : Type) : Type := string -> option text.

Definition write {text : Type} (d : disk text) (path : string)
    (content : text) : disk text :=
  fun p => if String.eqb p path then Some content else d p.

(** [os.path.isfile(path)] *)
Definition isfile {text : Type} (d : disk text) (path : string) : bool :=
  match d path with Some _ => true | None => false end.

Fixpoint ends_with_slash (s : string) : bool :=
  match s with
  | "" => false
  | String c "" => Ascii.eqb c "/"
  | String _ s' => ends_with_slash s'
  end.

(** [os.path.join(directory, name)] for a [name] that is not absolute. *)
Definition path_join (directory name : string) : string :=
  match directory with
  | "" => name
  | _ => if ends_with_slash directory then directory ++ name
         else directory ++ "/" ++ name
  end.

(** The data frames and the two file formats are kept abstract: the
    fields stand for [DataFrame.to_csv(index=False)], [pd.read_csv],
    [json.dump] and [json.load]; reading can fail. *)
Record Codec (table text : Type) : Type := mkCodec {
  to_csv : table -> text;
  read_csv : text -> result table;
  json_dump : results -> text;
  json_load : text -> result results
}.
Arguments to_csv {table text}.
Arguments read_csv {table text}.
Arguments json_dump {table text}.
Arguments json_load {table text}.

(** The attributes of a classifier that [save] and [load] use.  For the
    two attributes that [__init__] does not set, the outer [None] means
    that the attribute does not exist yet. *)
Record store (table : Type) : Type := mkStore {
  mode : mode_t;
  cache_dir : string;
  training_data : option table;
  current_validation_results : option (option results);
  cached_validation_results : option results
}.
Arguments mkStore {table}.
Arguments mode {table}.
Arguments cache_dir {table}.
Arguments training_data {table}.
Arguments current_validation_results {table}.
Arguments cached_validation_results {table}.

(** [FOVClassifier.__init__], as far as these attributes go. *)
Definition init {table : Type} (cache_dir : string) (mode : option string)
  : result (store table) :=
  match mode with
  | Some "training" => Ok (mkStore Training cache_dir None None None)
  | Some "prediction" => Ok (mkStore Prediction cache_dir None None None)
  | _ => Raise (mkExn ValueError
                  "`mode` must be either 'training' or 'prediction'")
  end.

Definition training_data_filepath {table : Type} (self : store table)
  : string :=
  path_join (cache_dir self) "training_data.csv".

Definition validation_results_filepath {table : Type} (self : store table)
  : string :=
  path_join (cache_dir self) "validation_results.json".

Definition file_not_found : exn :=
  mkExn OtherError "No such file or directory".

(** Reading an attribute that the object does not have. *)
Definition no_attribute {A : Type} (name : string) : result A :=
  Raise (mkExn AttributeError
           ("'FOVClassifier' object has no attribute '" ++ name ++ "'")).

(** [save(self, overwrite=False)]: the result and the disk after it. *)
Definition save {table text : Type} (codec : Codec table text)
    (overwrite : bool) (self : store table) (d : disk text)
  : result unit * disk text :=
  match mode self with
  | Prediction =>
      (Raise (mkExn ValueError
                "Cannot save training data unless mode = 'training'"), d)
  | Training =>
      match current_validation_results self with
      | None => (no_attribute "current_validation_results", d)
      | Some None =>
          (Raise (mkExn ValueError
             "Cannot save training data without current validation results"),
           d)
      | Some (Some validation_results) =>
          (* don't overwrite existing data *)
          let filepath := training_data_filepath self in
          if isfile d filepath && negb overwrite then
            (Raise (mkExn ValueError
                      ("Training data already saved to " ++ cache_dir self)),
             d)
          else
            match training_data self with
            | None => (no_attribute "training_data", d)
            | Some data =>
                (* save the training data *)
                let d := write d filepath (to_csv codec data) in
                (* save the validation results *)
                let d := write d (validation_results_filepath self)
                           (json_dump codec validation_results) in
                (Ok tt, d)
            end
      end
  end.

(** [load(self)]: the result and the classifier after it. *)
Definition load {table text : Type} (codec : Codec table text)
    (self : store table) (d : disk text) : result unit * store table :=
  (* reset the current validation results *)
  let self :=
    mkStore (mode self) (cache_dir self) (training_data self) (Some None)
      (cached_validation_results self) in
  (* load the training data *)
  match d (training_data_filepath self) with
  | None => (Raise file_not_found, self)
  | Some csv =>
      match read_csv codec csv with
      | Raise e => (Raise e, self)
      | Ok data =>
          let self :=
            mkStore (mode self) (cache_dir self) (Some data)
              (current_validation_results self)
              (cached_validation_results self) in
          (* load the cached validation results *)
          match d (validation_results_filepath self) with
          | None => (Raise file_not_found, self)
          | Some json =>
              match json_load codec json with
              | Raise e => (Raise e, self)
              | Ok content =>
                  (Ok tt,
                   mkStore (mode self) (cache_dir self) (training_data self)
                     (current_validation_results self) (Some content))
              end
          end
      end
  end.

(** Files that hold a table or a dict as it is, for concrete runs. *)
Definition plain_codec
  : Codec (list (list string)) (list (list string) + results) :=
  {| to_csv := fun t => inl t;
     read_csv := fun f =>
       match f with
       | inl t => Ok t
       | inr _ => Raise (mkExn OtherError "not a table")
       end;
     json_dump := fun r => inr r;
     json_load := fun f =>
       match f with
       | inr r => Ok r
       | inl _ => Raise (mkExn OtherError "not a dict")
       end |}.

Definition empty_disk {text : Type} : disk text := fun _ => None.

End Training.

(* ===================================================================== *)
(** * utils.py: interpolation of the FocusDrive positions *)
(* ===================================================================== *)

Module Interpolation.
Import Py.
Local Open Scope string_scope.

(** An entry of the [DEVICES] of a position ([Zc] is the key ['Z']). *)
Record device : Type := mkDevice {
  X : Q;
  Y : Z;
  Zc : Z;
  AXES : Z;
  DEVICE : string
}.

(** An entry of [position_list['POSITIONS']]. *)
Record position : Type := mkPosition {
  LABEL : string;
  DEVICES : list device
}.

(** The config entry for the 'FocusDrive' device. *)
Definition focusdrive_config (interpolated_position : Q) : device :=
  {| X := interpolated_position;
     Y := 0;
     Zc := 0;
     AXES := 1;
     DEVICE := "FocusDrive" |}.

Definition with_device (cfg : device) (p : position) : position :=
  mkPosition (LABEL p) (DEVICES p ++ [cfg])%list.

Definition index_error : exn := mkExn IndexError "list index out of range".

(** [positions[ind]['DEVICES'].append(cfg)] *)
Fixpoint append_device (positions : list position) (ind : nat)
    (cfg : device) : result (list position) :=
  match positions, ind with
  | [], _ => Raise index_error
  | p :: rest, O => Ok (with_device cfg p :: rest)
  | p :: rest, S ind' =>
      bind (append_device rest ind' cfg) (fun rest' => Ok (p :: rest'))
  end.

(** A [for] loop over a range that updates the position list. *)
Fixpoint for_each (range : list nat)
    (body : nat -> list position -> result (list position))
    (positions : list position) : result (list position) :=
  match range with
  | [] => Ok positions
  | i :: range' =>
      bind (body i positions) (for_each range' body)
  end.

(** The column of the plate for the [col_ind]-th well of a row, in the
    snake-like order of the position list. *)
Definition physical_col_ind (num_cols row_ind col_ind : nat) : nat :=
  if Nat.even row_ind then (num_cols - 1) - col_ind else col_ind.

(** The loops of [interpolate_focusdrive_positions_from_corners] on
    [position_list['POSITIONS']]; [interpolator] stands for the function
    that [interp2d] builds from the corners, read at its first value.
    The reading and the writing of the JSON files are left out. *)
Definition interpolate_focusdrive_positions_from_corners
    (interpolator : nat -> nat -> Q)
    (num_rows num_cols num_positions_per_well : nat)
    (positions : list position) : result (list position) :=
  for_each (seq 0 num_rows) (fun row_ind =>
    for_each (seq 0 num_cols) (fun col_ind =>
      let interpolated_position :=
        interpolator row_ind (physical_col_ind num_cols row_ind col_ind) in
      let cfg := focusdrive_config interpolated_position in
      for_each (seq 0 num_positions_per_well) (fun pos_ind positions =>
        let ind :=
          (num_positions_per_well * (row_ind * num_cols + col_ind)
           + pos_ind)%nat in
        append_device positions ind cfg)))
    positions.

(** The FocusDrive entry that the position of index [ind] is to get: the
    wells are counted row by row, [num_positions_per_well] positions to
    a well. *)
Definition config_at (interpolator : nat -> nat -> Q)
    (num_cols num_positions_per_well ind : nat) : device :=
  let well := (ind / num_positions_per_well)%nat in
  let row_ind := (well / num_cols)%nat in
  let col_ind := (well mod num_cols)%nat in
  focusdrive_config
    (interpolator row_ind (physical_col_ind num_cols row_ind col_ind)).

(** [positions'] is [positions] with the entry [f i] added to every
    position of index [i] from [lo] to [hi - 1]. *)
Definition updated (lo hi : nat) (f : nat -> device)
    (positions positions' : list position) : Prop :=
  length positions' = length positions
  /\ forall i,
       nth_error positions' i
       = if (lo <=? i)%nat && (i <? hi)%nat
         then option_map (with_device (f i)) (nth_error positions i)
         else nth_error positions i.

End Interpolation.

(* ===================================================================== *)
(** * Theorems *)
(* ===================================================================== *)

(** ** Rational comparisons *)

Lemma Qltb_lt (x y : Q) : Qltb x y = true <-> (x < y)%Q.
Proof.
  unfold Qltb. rewrite negb_true_iff.
  split; intro H.
  - apply Qnot_le_lt. intro Hle. apply Qle_bool_iff in Hle. congruence.
  - destruct (Qle_bool y x) eqn:E; [|reflexivity].
    apply Qle_bool_iff in E. exfalso. apply (Qlt_not_le _ _ H E).
Qed.

Lemma Qltb_ge (x y : Q) : Qltb x y = false <-> (y <= x)%Q.
Proof.
  unfold Qltb. rewrite negb_false_iff. apply Qle_bool_iff.
Qed.

(** ** The over-exposure check *)

Section ExposureFacts.
Import Settings Numpy Exposure.
Local Open Scope Q_scope.

Variable s : AutoexposureSettings.

Lemma check_not_overexposed lp et snap :
  slice_is_overexposed snap s = false ->
  check_slice_for_overexposure lp et snap s = (lp, et, false).
Proof.
  intro H. unfold check_slice_for_overexposure. rewrite H. reflexivity.
Qed.

Lemma check_lowers_exposure lp et snap :
  slice_is_overexposed snap s = true ->
  min_exposure_time s <= et * relative_exposure_step s ->
  check_slice_for_overexposure lp et snap s
  = (lp, et * relative_exposure_step s, true).
Proof.
  intros H Hge. unfold check_slice_for_overexposure. rewrite H.
  apply Qltb_ge in Hge. cbv zeta. rewrite Hge. reflexivity.
Qed.

Lemma check_lowers_laser lp et snap :
  slice_is_overexposed snap s = true ->
  et * relative_exposure_step s < min_exposure_time s ->
  check_slice_for_overexposure lp et snap s
  = (lp * relative_exposure_step s, default_exposure_time s, true).
Proof.
  intros H Hlt. unfold check_slice_for_overexposure. rewrite H.
  apply Qltb_lt in Hlt. cbv zeta. rewrite Hlt. reflexivity.
Qed.

Lemma check_flag lp et snap :
  snd (check_slice_for_overexposure lp et snap s) = slice_is_overexposed snap s.
Proof.
  unfold check_slice_for_overexposure.
  destruct (slice_is_overexposed snap s) eqn:H; [|reflexivity].
  cbv zeta. destruct (Qltb _ _); reflexivity.
Qed.

Lemma slice_is_overexposed_iff snap :
  slice_is_overexposed snap s = true <->
  exists p, percentile (flatten snap) (999 # 10) = Some p /\ max_intensity s < p.
Proof.
  unfold slice_is_overexposed, exceeds.
  destruct (percentile (flatten snap) (999 # 10)) as [p|].
  - rewrite Qltb_lt. split.
    + intro H. exists p. split; [reflexivity | exact H].
    + intros [p' [E H]]. injection E as <-. exact H.
  - split; [discriminate | intros [p' [E _]]; discriminate].
Qed.

(** C2: the slice is declared over-exposed exactly when its 99.9th
    percentile exceeds [max_intensity]; an over-exposed slice has its
    exposure time multiplied by [relative_exposure_step], unless the
    product is below [min_exposure_time], in which case the exposure time
    is reset to [default_exposure_time] and the laser power is multiplied
    by [relative_exposure_step]; otherwise the inputs come back unchanged. *)
Theorem check_slice_for_overexposure_spec lp et snap :
  let r := check_slice_for_overexposure lp et snap s in
  (snd r = true <->
   exists p, percentile (flatten snap) (999 # 10) = Some p
             /\ max_intensity s < p)
  /\ (snd r = true ->
      et * relative_exposure_step s < min_exposure_time s ->
      r = (lp * relative_exposure_step s, default_exposure_time s, true))
  /\ (snd r = true ->
      ~ et * relative_exposure_step s < min_exposure_time s ->
      r = (lp, et * relative_exposure_step s, true))
  /\ (snd r = false -> r = (lp, et, false)).
Proof.
  cbv zeta. rewrite check_flag. repeat split.
  - apply slice_is_overexposed_iff.
  - apply slice_is_overexposed_iff.
  - intros H Hlt. now apply check_lowers_laser.
  - intros H Hge. apply check_lowers_exposure; [exact H|].
    now apply Qnot_lt_le.
  - intro H. now apply check_not_overexposed.
Qed.

End ExposureFacts.

(** A saturated frame at the pipeline's settings: the exposure time goes
    from 50 to 50 * 0.8. *)
Lemma check_slice_for_overexposure_spec_witness :
  Exposure.check_slice_for_overexposure 10 50 Exposure.bright_snap
    Settings.autoexposure_settings
  = (10, 50 * (8 # 10), true)%Q.
Proof.
  apply (proj1 (proj2 (proj2
    (check_slice_for_overexposure_spec Settings.autoexposure_settings
       10 50 Exposure.bright_snap)))).
  - vm_compute. reflexivity.
  - vm_compute. intro H. discriminate H.
Defined.

(** ** Repeated over-exposure *)

Section RepeatedChecks.
Import Settings Numpy Exposure.
Local Open Scope Q_scope.

Lemma scaled_succ x r n : scaled x r (S n) == scaled x r n * r.
Proof.
  revert x. induction n as [|n IH]; intro x.
  - simpl. reflexivity.
  - change (scaled x r (S (S n))) with (scaled (x * r) r (S n)).
    rewrite IH. simpl. reflexivity.
Qed.

Lemma scaled_nonneg x r n : 0 <= x -> 0 <= r -> 0 <= scaled x r n.
Proof.
  intros Hx Hr. induction n as [|n IH].
  - exact Hx.
  - rewrite scaled_succ. apply Qmult_le_0_compat; assumption.
Qed.

Lemma scaled_le x y r n : 0 <= r -> x <= y -> scaled x r n <= scaled y r n.
Proof.
  intros Hr Hxy. induction n as [|n IH].
  - exact Hxy.
  - rewrite !scaled_succ. apply Qmult_le_compat_r; assumption.
Qed.

Lemma scaled_step_eq x r r' n : r == r' -> scaled x r n == scaled x r' n.
Proof.
  intro E. induction n as [|n IH].
  - reflexivity.
  - rewrite !scaled_succ, IH, E. reflexivity.
Qed.

(** After [n] multiplications by [r] the value is below [x / (1 + n(1-r))]:
    Bernoulli's inequality, without division. *)
Lemma scaled_bernoulli x r n :
  0 <= x -> 0 <= r -> r <= 1 ->
  scaled x r n * (1 + inject_Z (Z.of_nat n) * (1 - r)) <= x.
Proof.
  intros Hx Hr0 Hr1. induction n as [|n IH].
  - simpl.
    setoid_replace (x * (1 + inject_Z 0 * (1 - r))) with x
      by (change (inject_Z 0) with 0; ring).
    apply Qle_refl.
  - rewrite scaled_succ.
    assert (Hs := scaled_nonneg x r n Hx Hr0).
    rewrite Nat2Z.inj_succ. unfold Z.succ. rewrite inject_Z_plus.
    set (k := inject_Z (Z.of_nat n)) in *.
    assert (Hk : 0 <= k).
    { unfold k. change 0 with (inject_Z 0). rewrite <- Zle_Qle. lia. }
    set (t := scaled x r n) in *.
    assert (H : t * r * (1 + (k + inject_Z 1) * (1 - r))
                <= t * (1 + k * (1 - r))).
    { change (inject_Z 1) with 1.
      setoid_replace (t * r * (1 + (k + 1) * (1 - r)))
        with (t * (r * (1 + (k + 1) * (1 - r)))) by ring.
      rewrite (Qmult_comm t (r * _)), (Qmult_comm t (1 + _)).
      apply Qmult_le_compat_r; [|exact Hs].
      assert (Hprod : 0 <= (k + 1) * ((1 - r) * (1 - r))).
      { apply Qmult_le_0_compat; [lra|].
        apply Qmult_le_0_compat; lra. }
      setoid_replace (1 + k * (1 - r))
        with (r * (1 + (k + 1) * (1 - r)) + (k + 1) * ((1 - r) * (1 - r)))
        by ring.
      lra. }
    lra.
Qed.

Lemma scaled_drops_below x r m :
  0 < x -> 0 < r -> r < 1 -> 0 < m ->
  exists N, (1 <= N)%nat /\ scaled x r N < m.
Proof.
  intros Hx Hr0 Hr1 Hm.
  set (e := 1 - r).
  assert (He : 0 < e) by (unfold e; lra).
  assert (Hme : 0 < m * e) by (apply Qmult_lt_0_compat; assumption).
  set (q := x / (m * e)).
  set (N := S (Z.to_nat (Qceiling q))).
  exists N. split; [unfold N; lia|].
  set (k := inject_Z (Z.of_nat N)).
  assert (Hq : q <= k).
  { apply Qle_trans with (inject_Z (Qceiling q)); [apply Qle_ceiling|].
    unfold k. rewrite <- Zle_Qle. unfold N. lia. }
  assert (Hk : 0 <= k).
  { unfold k. change 0 with (inject_Z 0). rewrite <- Zle_Qle. lia. }
  assert (Hx' : x <= k * (m * e)).
  { setoid_replace x with (q * (m * e)).
    - apply Qmult_le_compat_r; [exact Hq | lra].
    - unfold q. field. lra. }
  assert (Hb := scaled_bernoulli x r N (Qlt_le_weak _ _ Hx)
                  (Qlt_le_weak _ _ Hr0) (Qlt_le_weak _ _ Hr1)).
  fold k in Hb. fold e in Hb.
  assert (Hpos : 0 < 1 + k * e).
  { assert (0 <= k * e) by (apply Qmult_le_0_compat; lra). lra. }
  apply (proj1 (Qmult_lt_r _ _ (1 + k * e) Hpos)).
  apply Qle_lt_trans with x; [exact Hb|].
  apply Qle_lt_trans with (k * (m * e)); [exact Hx'|].
  setoid_replace (m * (1 + k * e)) with (m + k * (m * e)) by ring.
  lra.
Qed.

Variable s : AutoexposureSettings.

(** A run of checks from [(lp, et)] up to its first exit: the [k] slices
    before it are over-exposed and only lower the exposure time; slice
    [k] is not over-exposed, or it is and the exposure time would go
    below the minimum. *)
Lemma first_exit_within N :
  forall lp et snaps,
    (1 <= N)%nat ->
    scaled et (relative_exposure_step s) N < min_exposure_time s ->
    (N <= length snaps)%nat ->
    exists k,
      (k < N)%nat
      /\ settings_after s (firstn k snaps) (lp, et)
         = (lp, scaled et (relative_exposure_step s) k)
      /\ (forall j, (j < k)%nat ->
            slice_is_overexposed (nth j snaps []) s = true
            /\ min_exposure_time s
               <= scaled et (relative_exposure_step s) j
                  * relative_exposure_step s)
      /\ ((slice_is_overexposed (nth k snaps []) s = false
           /\ check_slice_for_overexposure
                lp (scaled et (relative_exposure_step s) k) (nth k snaps []) s
              = (lp, scaled et (relative_exposure_step s) k, false))
          \/ (slice_is_overexposed (nth k snaps []) s = true
              /\ scaled et (relative_exposure_step s) k
                 * relative_exposure_step s < min_exposure_time s
              /\ check_slice_for_overexposure
                   lp (scaled et (relative_exposure_step s) k)
                   (nth k snaps []) s
                 = (lp * relative_exposure_step s,
                    default_exposure_time s, true))).
Proof.
  induction N as [|n IH]; intros lp et snaps HN Hlow Hlen; [lia|].
  destruct snaps as [|snap rest]; [simpl in Hlen; lia|].
  destruct (slice_is_overexposed snap s) eqn:Hover.
  - destruct (Qlt_le_dec (et * relative_exposure_step s) (min_exposure_time s))
      as [Hlt|Hge].
    + exists 0%nat. split; [lia|]. split; [reflexivity|].
      split; [intros j Hj; lia|].
      right. split; [exact Hover|]. split; [exact Hlt|].
      now apply check_lowers_laser.
    + destruct n as [|n'].
      { simpl in Hlow. exfalso. apply (Qlt_not_le _ _ Hlow Hge). }
      destruct (IH lp (et * relative_exposure_step s) rest) as
        (k & Hk & Hafter & Hbefore & Hexit).
      * lia.
      * exact Hlow.
      * simpl in Hlen. lia.
      * exists (S k). split; [lia|]. split; [|split].
        -- cbn [firstn]. unfold settings_after. cbn [fold_left].
           unfold next_settings at 2. cbn [fst snd].
           rewrite (check_lowers_exposure s lp et snap Hover Hge).
           exact Hafter.
        -- intros [|j] Hj.
           ++ split; [exact Hover | exact Hge].
           ++ apply (Hbefore j). lia.
        -- exact Hexit.
  - exists 0%nat. split; [lia|]. split; [reflexivity|].
    split; [intros j Hj; lia|].
    left. split; [exact Hover|]. now apply check_not_overexposed.
Qed.

(** C7: from a positive exposure time, repeated checks settle within
    the number [N] of multiplications by [relative_exposure_step] that
    bring the exposure time below [min_exposure_time]; with a step of
    0.8, a minimum of 40 ms and at most 500 ms at the start, [N] is at
    most 12.  On any [N] slices there is a call [k < N] before which
    every slice was over-exposed and each call only multiplied the
    exposure time by the step, the laser power staying as it was; call
    [k] either meets a slice that is not over-exposed and changes
    nothing, or meets an over-exposed slice with the exposure time about
    to go below the minimum, and then lowers the laser power and resets
    the exposure time to the default.  When all the slices are
    over-exposed it is the second. *)
Theorem overexposure_settles_in_bounded_steps (et : Q) :
  0 < relative_exposure_step s -> relative_exposure_step s < 1 ->
  0 < min_exposure_time s -> 0 < et ->
  exists N,
    (1 <= N)%nat
    /\ scaled et (relative_exposure_step s) N < min_exposure_time s
    /\ (relative_exposure_step s == 8 # 10 -> min_exposure_time s == 40 ->
        et <= 500 -> (N <= 12)%nat)
    /\ forall lp snaps,
         (N <= length snaps)%nat ->
         exists k,
           (k < N)%nat
           /\ settings_after s (firstn k snaps) (lp, et)
              = (lp, scaled et (relative_exposure_step s) k)
           /\ (forall j, (j < k)%nat ->
                 slice_is_overexposed (nth j snaps []) s = true
                 /\ min_exposure_time s
                    <= scaled et (relative_exposure_step s) j
                       * relative_exposure_step s)
           /\ ((slice_is_overexposed (nth k snaps []) s = false
                /\ check_slice_for_overexposure
                     lp (scaled et (relative_exposure_step s) k)
                     (nth k snaps []) s
                   = (lp, scaled et (relative_exposure_step s) k, false))
               \/ (slice_is_overexposed (nth k snaps []) s = true
                   /\ scaled et (relative_exposure_step s) k
                      * relative_exposure_step s < min_exposure_time s
                   /\ check_slice_for_overexposure
                        lp (scaled et (relative_exposure_step s) k)
                        (nth k snaps []) s
                      = (lp * relative_exposure_step s,
                         default_exposure_time s, true)))
           /\ (Forall (fun snap => slice_is_overexposed snap s = true) snaps ->
               scaled et (relative_exposure_step s) k
               * relative_exposure_step s < min_exposure_time s
               /\ check_slice_for_overexposure
                    lp (scaled et (relative_exposure_step s) k)
                    (nth k snaps []) s
                  = (lp * relative_exposure_step s,
                     default_exposure_time s, true)).
Proof.
  intros Hr0 Hr1 Hm Het.
  assert (Hcases :
    exists N, (1 <= N)%nat
      /\ scaled et (relative_exposure_step s) N < min_exposure_time s
      /\ (relative_exposure_step s == 8 # 10 -> min_exposure_time s == 40 ->
          et <= 500 -> (N <= 12)%nat)).
  { destruct (Qeq_dec (relative_exposure_step s) (8 # 10)) as [Er|Er].
    - destruct (Qeq_dec (min_exposure_time s) 40) as [Em|Em].
      + destruct (Qlt_le_dec 500 et) as [Hbig|Hsmall].
        * destruct (scaled_drops_below et _ _ Het Hr0 Hr1 Hm) as (N & HN & Hlow).
          exists N. repeat split; try assumption.
          intros _ _ Hle. exfalso. apply (Qlt_not_le _ _ Hbig Hle).
        * exists 12%nat. split; [lia|]. split; [|intros; lia].
          rewrite Em, (scaled_step_eq et _ _ 12 Er).
          apply Qle_lt_trans with (scaled 500 (8 # 10) 12).
          -- apply scaled_le; [discriminate | exact Hsmall].
          -- vm_compute. reflexivity.
      + destruct (scaled_drops_below et _ _ Het Hr0 Hr1 Hm) as (N & HN & Hlow).
        exists N. repeat split; try assumption.
        intros _ E. contradiction.
    - destruct (scaled_drops_below et _ _ Het Hr0 Hr1 Hm) as (N & HN & Hlow).
      exists N. repeat split; try assumption.
      intros E. contradiction. }
  destruct Hcases as (N & HN & Hlow & Hbound).
  exists N. split; [exact HN|]. split; [exact Hlow|]. split; [exact Hbound|].
  intros lp snaps Hlen.
  destruct (first_exit_within N lp et snaps HN Hlow Hlen)
    as (k & Hk & Hafter & Hbefore & Hexit).
  exists k. split; [exact Hk|]. split; [exact Hafter|].
  split; [exact Hbefore|]. split; [exact Hexit|].
  intro Hall.
  destruct Hexit as [[Hdark _] | [_ Hlaser]]; [|exact Hlaser].
  exfalso.
  assert (Hin : In (nth k snaps []) snaps) by (apply nth_In; lia).
  rewrite Forall_forall in Hall. rewrite (Hall _ Hin) in Hdark.
  discriminate Hdark.
Qed.

End RepeatedChecks.

(** From 500 ms at the pipeline's settings. *)
Lemma overexposure_settles_in_bounded_steps_witness :
  let s := Settings.autoexposure_settings in
  exists N,
    (1 <= N)%nat
    /\ (Exposure.scaled 500 (8 # 10) N < 40)%Q
    /\ ((8 # 10 == 8 # 10)%Q -> (40 == 40)%Q -> (500 <= 500)%Q -> (N <= 12)%nat)
    /\ forall lp snaps,
         (N <= length snaps)%nat ->
         exists k,
           (k < N)%nat
           /\ Exposure.settings_after s (firstn k snaps) (lp, 500%Q)
              = (lp, Exposure.scaled 500 (8 # 10) k)
           /\ (forall j, (j < k)%nat ->
                 Exposure.slice_is_overexposed (nth j snaps []) s = true
                 /\ (40 <= Exposure.scaled 500 (8 # 10) j * (8 # 10))%Q)
           /\ ((Exposure.slice_is_overexposed (nth k snaps []) s = false
                /\ Exposure.check_slice_for_overexposure
                     lp (Exposure.scaled 500 (8 # 10) k) (nth k snaps []) s
                   = (lp, Exposure.scaled 500 (8 # 10) k, false))
               \/ (Exposure.slice_is_overexposed (nth k snaps []) s = true
                   /\ (Exposure.scaled 500 (8 # 10) k * (8 # 10) < 40)%Q
                   /\ Exposure.check_slice_for_overexposure
                        lp (Exposure.scaled 500 (8 # 10) k) (nth k snaps []) s
                      = ((lp * (8 # 10))%Q, 50%Q, true)))
           /\ (Forall
                 (fun snap => Exposure.slice_is_overexposed snap s = true)
                 snaps ->
               (Exposure.scaled 500 (8 # 10) k * (8 # 10) < 40)%Q
               /\ Exposure.check_slice_for_overexposure
                    lp (Exposure.scaled 500 (8 # 10) k) (nth k snaps []) s
                  = ((lp * (8 # 10))%Q, 50%Q, true)).
Proof.
  apply (overexposure_settles_in_bounded_steps
           Settings.autoexposure_settings 500);
    vm_compute; reflexivity.
Defined.

(** ** The laser power under the over-exposure check *)

Section LaserPower.
Import Settings Numpy Exposure.
Local Open Scope Q_scope.

(** C8, as stated, fails on a negative laser power: the over-exposed
    branch multiplies it by 0.8, which brings it up from -10 to -8. *)
Lemma laser_power_can_come_back_larger :
  ~ (fst (fst (check_slice_for_overexposure (-10) 40 bright_snap
                 autoexposure_settings)) <= -10).
Proof.
  vm_compute. intro H. apply H. reflexivity.
Qed.

(** C8, amended: for a laser power that is not negative and a step of at
    most 1, the laser power returned is at most the one given; the result
    does not depend on [min_laser_power]; and repeated over-exposed calls
    from the default power 10 and exposure time 50 bring the laser power
    strictly below [min_laser_power]. *)
Theorem laser_power_not_raised_and_not_floored
    (s : AutoexposureSettings) (lp et : Q) (snap : image) :
  0 <= lp -> relative_exposure_step s <= 1 ->
  fst (fst (check_slice_for_overexposure lp et snap s)) <= lp
  /\ (forall m,
        check_slice_for_overexposure lp et snap (set_min_laser_power m s)
        = check_slice_for_overexposure lp et snap s)
  /\ fst (settings_after autoexposure_settings (repeat bright_snap 22)
            (DEFAULT_LASER_POWER, DEFAULT_EXPOSURE_TIME))
     < min_laser_power autoexposure_settings.
Proof.
  intros Hlp Hr. split; [|split].
  - unfold check_slice_for_overexposure.
    destruct (slice_is_overexposed snap s); [|apply Qle_refl].
    cbv zeta.
    destruct (Qltb (et * relative_exposure_step s) (min_exposure_time s));
      [|apply Qle_refl].
    simpl fst.
    setoid_replace lp with (lp * 1) at 2 by ring.
    rewrite (Qmult_comm lp (relative_exposure_step s)), (Qmult_comm lp 1).
    apply Qmult_le_compat_r; assumption.
  - intro m. reflexivity.
  - vm_compute. reflexivity.
Qed.

Lemma laser_power_not_raised_and_not_floored_witness :
  fst (fst (check_slice_for_overexposure 10 40 bright_snap
              autoexposure_settings)) <= 10
  /\ (forall m,
        check_slice_for_overexposure 10 40 bright_snap
          (set_min_laser_power m autoexposure_settings)
        = check_slice_for_overexposure 10 40 bright_snap autoexposure_settings)
  /\ fst (settings_after autoexposure_settings (repeat bright_snap 22)
            (DEFAULT_LASER_POWER, DEFAULT_EXPOSURE_TIME))
     < min_laser_power autoexposure_settings.
Proof.
  apply (laser_power_not_raised_and_not_floored autoexposure_settings 10 40
           bright_snap).
  - vm_compute. intro H. discriminate H.
  - vm_compute. intro H. discriminate H.
Defined.

End LaserPower.

(** ** Stage motion *)

Section MoveZ.
Import Py Settings Operations.

Context {hw : Type}.
Variable parse : string -> option pyfloat.
Variable mm_core : MMCore hw.
Variable stage_label : string.

Lemma kind_is_valid_iff kind :
  kind_is_valid kind = true <->
  kind = Some "relative"%string \/ kind = Some "absolute"%string.
Proof.
  destruct kind as [k|]; simpl.
  - rewrite orb_true_iff, !String.eqb_eq. split.
    + intros [-> | ->]; [left | right]; reflexivity.
    + intros [E | E]; injection E as ->; [left | right]; reflexivity.
  - split; [discriminate | intros [E | E]; discriminate].
Qed.

(** Any [kind] other than 'relative' and 'absolute' is a ValueError,
    whatever the position. *)
Lemma move_z_invalid_kind position kind h :
  kind <> Some "relative"%string -> kind <> Some "absolute"%string ->
  move_z parse mm_core stage_label position kind h
  = Raise (mkExn ValueError "`kind` must be either 'relative' or 'absolute'").
Proof.
  intros H1 H2. unfold move_z.
  destruct (kind_is_valid kind) eqn:E; [|reflexivity].
  apply kind_is_valid_iff in E. destruct E; contradiction.
Qed.

(** A string that does not read as a float is reported as
    'cannot be coerced to float'. *)
Lemma move_z_unreadable_string str kind h :
  kind_is_valid kind = true -> parse str = None ->
  move_z parse mm_core stage_label (PyStr str) kind h
  = Raise (mkExn TypeError "`position` cannot be coerced to float").
Proof.
  intros Hk Hp. unfold move_z. rewrite Hk. simpl. rewrite Hp. reflexivity.
Qed.

(** A nan, given as a float or read from a string, is reported as
    'cannot be nan'. *)
Lemma move_z_nan position kind h :
  kind_is_valid kind = true -> py_float parse position = Ok Nan ->
  move_z parse mm_core stage_label position kind h
  = Raise (mkExn TypeError "`position` cannot be nan").
Proof.
  intros Hk Hp. unfold move_z. rewrite Hk, Hp. reflexivity.
Qed.

(** Otherwise the move is issued, the device is waited for, and the
    position that the stage reports is returned. *)
Lemma move_z_moves position kind h f h1 h2 actual :
  kind_is_valid kind = true ->
  py_float parse position = Ok f -> isnan f = false ->
  (if match kind with Some k => String.eqb k "absolute" | None => false end
   then setPosition mm_core stage_label f h
   else setRelativePosition mm_core stage_label f h) = Ok h1 ->
  waitForDevice mm_core stage_label h1 = Ok h2 ->
  getPosition mm_core stage_label h2 = Ok actual ->
  move_z parse mm_core stage_label position kind h = Ok (actual, h2).
Proof.
  intros Hk Hp Hnan Hmove Hwait Hget. unfold move_z.
  rewrite Hk, Hp, Hnan. simpl negb. cbv iota.
  apply kind_is_valid_iff in Hk.
  destruct Hk as [-> | ->]; simpl in Hmove |- *;
    rewrite Hmove; simpl; rewrite Hwait; simpl; rewrite Hget; reflexivity.
Qed.

(** C6 fails on a position that is not a number and not a string: with
    [position=None] (the default) the TypeError of the builtin [float]
    comes out as it is, not the message 'cannot be coerced to float'. *)
Theorem move_z_none_position_keeps_builtin_message h :
  move_z parse mm_core stage_label PyNone (Some "absolute"%string) h
  = Raise (mkExn TypeError builtin_float_message)
  /\ builtin_float_message <> "`position` cannot be coerced to float"%string.
Proof.
  split; [reflexivity | discriminate].
Qed.

End MoveZ.

(** ** The autoexposure loop *)

Section Autoexposure.
Import Py Settings Operations.

(** Whenever [autoexposure] returns, the value returned is the flag, and
    the flag is true. *)
Lemma autoexposure_flag_true {hw : Type} parse (mm_core : MMCore hw)
    stack_settings channel_settings autoexposure_settings fuel h
    flag channel_settings' h' :
  autoexposure parse mm_core stack_settings channel_settings
    autoexposure_settings fuel h = Some (Ok (flag, channel_settings', h')) ->
  flag = true.
Proof.
  unfold autoexposure.
  destruct (move_z _ _ _ _ _ _) as [[z h0]|e]; [|discriminate].
  destruct (autoexposure_loop _ _ _ _ _ _ _ _) as [[[cs h1]|e]|];
    try discriminate.
  intro H. injection H as <- _ _. reflexivity.
Qed.

(** C1 on a run that ends: over the development stack (from -10 to 16 in
    steps of 7) with dark frames, [autoexposure] returns the flag [true]
    and nothing else; the laser power and the exposure time are only to
    be read from the channel settings. *)
Theorem autoexposure_returns_only_the_flag :
  autoexposure parse_nan_only mock_core dev_stack_settings
    gfp_channel_settings autoexposure_settings 10 (mkMock 0 0 0 [])
  = Some (Ok (true, gfp_channel_settings, mkMock 18 0 0 [])).
Proof.
  vm_compute. reflexivity.
Qed.

End Autoexposure.

(** ** Well labels *)

Section WellLabels.
Import Py Utils.

Lemma well_id_round_trip_on_plate r c :
  (r < 8)%nat -> (c < 12)%nat ->
  well_id_to_position (position_to_well_id r c)
  = Ok (Z.of_nat r, Z.of_nat c).
Proof.
  intros Hr Hc.
  do 8 (destruct r as [|r];
        [do 12 (destruct c as [|c]; [reflexivity|]); lia|]).
  lia.
Qed.

(** C9: 'A1' is (0, 0) and 'H12' is (7, 11); on the 96 labels of a plate
    [well_id_to_position] gives the zero-based row and column, from which
    [position_to_well_id] gives the label back, so that two labels with
    the same position are the same label. *)
Theorem well_id_to_position_plate :
  well_id_to_position "A1" = Ok (0, 0)
  /\ well_id_to_position "H12" = Ok (7, 11)
  /\ (forall r c, (r < 8)%nat -> (c < 12)%nat ->
        exists row col,
          well_id_to_position (position_to_well_id r c) = Ok (row, col)
          /\ row = Z.of_nat r /\ col = Z.of_nat c
          /\ position_to_well_id (Z.to_nat row) (Z.to_nat col)
             = position_to_well_id r c)
  /\ (forall r c r' c',
        (r < 8)%nat -> (c < 12)%nat -> (r' < 8)%nat -> (c' < 12)%nat ->
        well_id_to_position (position_to_well_id r c)
        = well_id_to_position (position_to_well_id r' c') ->
        position_to_well_id r c = position_to_well_id r' c').
Proof.
  split; [reflexivity|]. split; [reflexivity|]. split.
  - intros r c Hr Hc. exists (Z.of_nat r), (Z.of_nat c).
    split; [now apply well_id_round_trip_on_plate|].
    split; [reflexivity|]. split; [reflexivity|].
    now rewrite !Nat2Z.id.
  - intros r c r' c' Hr Hc Hr' Hc' E.
    rewrite !well_id_round_trip_on_plate in E by assumption.
    injection E as Er Ec.
    apply Nat2Z.inj in Er, Ec. now subst.
Qed.

Lemma well_id_to_position_plate_witness :
  well_id_to_position (position_to_well_id 3 9)
  = well_id_to_position "D10"
  /\ position_to_well_id 3 9 = "D10"%string.
Proof.
  split; [reflexivity|].
  apply (proj2 (proj2 (proj2 well_id_to_position_plate)) 3 9 3 9)%nat;
    try lia.
  reflexivity.
Defined.

End WellLabels.

(** ** The confluency decision *)

Section ConfluencyDecision.
Import Py Numpy Confluency.
Local Open Scope Z_scope.

Lemma float_gt_fin q bound : float_gt (Fin q) bound = true <-> (bound < q)%Q.
Proof.
  exact (Qltb_lt bound q).
Qed.

Lemma confluency_decision_high n off ratio :
  55 < n -> confluency_decision n off ratio = (false, "high"%string).
Proof.
  intro H. unfold confluency_decision.
  replace (n >? 55) with true by (symmetry; apply Z.gtb_lt; lia).
  reflexivity.
Qed.

Lemma confluency_decision_low n off ratio :
  n < 20 -> confluency_decision n off ratio = (false, "low"%string).
Proof.
  intro H. unfold confluency_decision.
  replace (n >? 55) with false by (symmetry; rewrite Z.gtb_ltb; apply Z.ltb_ge; lia).
  replace (n <? 20) with true by (symmetry; apply Z.ltb_lt; lia).
  reflexivity.
Qed.

Lemma confluency_decision_in_range n off ratio :
  20 <= n <= 55 ->
  confluency_decision n off ratio
  = if float_gt off (3 # 10) || float_gt ratio 1
    then (false, "anisotropic"%string) else (true, "good"%string).
Proof.
  intro H. unfold confluency_decision.
  replace (n >? 55) with false by (symmetry; rewrite Z.gtb_ltb; apply Z.ltb_ge; lia).
  replace (n <? 20) with false by (symmetry; apply Z.ltb_ge; lia).
  reflexivity.
Qed.

Variable lib : ImageLib.

Lemma eval_ratio_of_below_two (ps : positions) :
  (length ps < 2)%nat -> eval_ratio_of lib ps = Raise linalg_error.
Proof.
  intro H. unfold eval_ratio_of, np_cov, covariance.
  rewrite !length_map.
  destruct (Nat.leb_spec (length ps) 1) as [_|Hgt]; [reflexivity | lia].
Qed.

Lemma eval_ratio_of_two_or_more (ps : positions) :
  (2 <= length ps)%nat ->
  eval_ratio_of lib ps = Ok (eigenvalue_ratio lib (np_cov ps)).
Proof.
  intro H. unfold eval_ratio_of, np_cov, covariance.
  rewrite !length_map.
  destruct (Nat.leb_spec (length ps) 1) as [Hle|_]; [lia | reflexivity].
Qed.

(** With two or more nuclei the features are computed and the first rule
    that matches decides: more than 55 nuclei is 'high', fewer than 20 is
    'low', an offset of the center of mass above 0.3 or an eigenvalue
    ratio above 1.0 is 'anisotropic', all three with the flag false;
    otherwise the label is 'good' and the flag true.  The flag is true
    exactly when the label is 'good'. *)
Lemma assess_confluency_decision_tree
    (snap : image) (log_dir : option string) (position_ind : option Z)
    (ps : positions) :
  nucleus_positions_of lib snap = Ok ps ->
  (2 <= length ps)%nat ->
  log_dir = None \/ position_ind <> None ->
  let count := Z.of_nat (length ps) in
  let offset := rel_com_offset_of lib ps 1024 in
  let ratio := eigenvalue_ratio lib (np_cov ps) in
  exists flag label,
    assess_confluency lib snap log_dir position_ind = Ok (flag, label)
    /\ (55 < count -> label = "high"%string /\ flag = false)
    /\ (count <= 55 -> count < 20 -> label = "low"%string /\ flag = false)
    /\ (20 <= count <= 55 ->
        float_gt offset (3 # 10) = true \/ float_gt ratio 1 = true ->
        label = "anisotropic"%string /\ flag = false)
    /\ (20 <= count <= 55 ->
        float_gt offset (3 # 10) = false -> float_gt ratio 1 = false ->
        label = "good"%string /\ flag = true)
    /\ (flag = true <-> label = "good"%string).
Proof.
  intros Hps Htwo Hlog count offset ratio.
  assert (Hratio := eval_ratio_of_two_or_more ps Htwo). fold ratio in Hratio.
  exists (fst (confluency_decision count offset ratio)),
         (snd (confluency_decision count offset ratio)).
  split.
  - unfold assess_confluency. unfold nucleus_positions_of in Hps.
    destruct (_generate_background_mask lib snap) as [m|e];
      [|discriminate]. simpl in Hps |- *. rewrite Hps. simpl.
    unfold _calculate_nucleus_position_features. rewrite Hratio. simpl.
    fold count. fold offset.
    destruct Hlog as [-> | Hind].
    + simpl. now destruct (confluency_decision count offset ratio).
    + destruct log_dir; simpl.
      * destruct position_ind; [|contradiction]. simpl.
        now destruct (confluency_decision count offset ratio).
      * now destruct (confluency_decision count offset ratio).
  - split; [|split; [|split; [|split]]].
    + intro H. now rewrite confluency_decision_high.
    + intros _ H. now rewrite confluency_decision_low.
    + intros H Hor. rewrite confluency_decision_in_range by exact H.
      apply orb_true_iff in Hor. rewrite Hor. now split.
    + intros H H1 H2. rewrite confluency_decision_in_range by exact H.
      rewrite H1, H2. now split.
    + unfold confluency_decision.
      destruct (count >? 55); [simpl; split; discriminate|].
      destruct (count <? 20); [simpl; split; discriminate|].
      destruct (float_gt offset (3 # 10) || float_gt ratio 1);
        simpl; split; (discriminate || reflexivity).
Qed.

(** C4: when no nucleus or a single one is found, [assess_confluency]
    does not reach its decision tree: the covariance of fewer than two
    positions is nan, [np.linalg.eig] refuses it, and the LinAlgError
    comes out of the call, whatever the logging arguments.  The rule for
    too few nuclei, which would label these positions 'low' with the flag
    false, is never applied to them. *)
Theorem assess_confluency_fails_below_two_nuclei
    (snap : image) (log_dir : option string) (position_ind : option Z)
    (ps : positions) :
  nucleus_positions_of lib snap = Ok ps ->
  (length ps < 2)%nat ->
  assess_confluency lib snap log_dir position_ind = Raise linalg_error
  /\ forall rel_com_offset eval_ratio,
       confluency_decision (Z.of_nat (length ps)) rel_com_offset eval_ratio
       = (false, "low"%string).
Proof.
  intros Hps Hfew. split.
  - unfold assess_confluency. unfold nucleus_positions_of in Hps.
    destruct (_generate_background_mask lib snap) as [m|e];
      [|discriminate]. simpl in Hps |- *. rewrite Hps. simpl.
    unfold _calculate_nucleus_position_features.
    rewrite (eval_ratio_of_below_two ps Hfew). reflexivity.
  - intros off ratio. apply confluency_decision_low. lia.
Qed.

End ConfluencyDecision.

(** Nineteen nuclei are too few. *)
Lemma assess_confluency_decision_tree_witness :
  exists flag label,
    Confluency.assess_confluency
      (Confluency.fixed_lib 19 (Py.Fin (1 # 10)) (Py.Fin (1 # 2)))
      [] None None = Py.Ok (flag, label)
    /\ label = "low"%string /\ flag = false.
Proof.
  destruct (assess_confluency_decision_tree
              (Confluency.fixed_lib 19 (Py.Fin (1 # 10)) (Py.Fin (1 # 2)))
              [] None None
              (map (fun i => (Z.of_nat i, Z.of_nat i)) (seq 0 19))
              eq_refl ltac:(simpl; lia) (or_introl eq_refl))
    as (flag & label & Hrun & _ & Hlow & _).
  exists flag, label. split; [exact Hrun|].
  apply Hlow; vm_compute; (reflexivity || (intro H; discriminate H)).
Defined.

(** A frame in which a single nucleus is found, at the center. *)
Lemma assess_confluency_fails_below_two_nuclei_witness :
  let lib :=
    Confluency.mkImageLib (fun _ => Py.Ok []) (fun _ _ => Py.Ok [(512, 512)])
      (fun _ _ => Py.Fin 0) (fun _ => Py.Fin 0) in
  Confluency.assess_confluency lib [] None None
  = Py.Raise Confluency.linalg_error
  /\ forall rel_com_offset eval_ratio,
       Confluency.confluency_decision 1 rel_com_offset eval_ratio
       = (false, "low"%string).
Proof.
  intro lib.
  apply (assess_confluency_fails_below_two_nuclei lib [] None None
           [(512, 512)]).
  - reflexivity.
  - simpl. lia.
Defined.

(** ** Contrast stretching *)

Section ToUint8.
Import Numpy Utils.

Lemma insert_sorted_length x l :
  length (insert_sorted x l) = S (length l).
Proof.
  induction l as [|y l IH]; simpl; [reflexivity|].
  destruct (x <=? y); simpl; [reflexivity | now rewrite IH].
Qed.

Lemma sort_length l : length (sort l) = length l.
Proof.
  induction l as [|x l IH]; simpl; [reflexivity|].
  now rewrite insert_sorted_length, IH.
Qed.

Lemma insert_sorted_Forall (P : Z -> Prop) x l :
  P x -> Forall P l -> Forall P (insert_sorted x l).
Proof.
  intros Hx Hl. induction Hl as [|y l Hy Hl IH]; simpl.
  - constructor; [exact Hx | constructor].
  - destruct (x <=? y).
    + constructor; [exact Hx|]. constructor; assumption.
    + constructor; assumption.
Qed.

Lemma sort_Forall (P : Z -> Prop) l : Forall P l -> Forall P (sort l).
Proof.
  intro H. induction H as [|x l Hx Hl IH]; simpl.
  - constructor.
  - now apply insert_sorted_Forall.
Qed.

Lemma nth_constant v l i :
  Forall (fun p => p = v) l -> (i < length l)%nat -> nth i l 0 = v.
Proof.
  intros H Hi.
  exact (proj1 (Forall_forall _ l) H _ (nth_In l 0 Hi)).
Qed.

(** Any percentile of constant data is the constant (up to the
    interpolation term, which is zero). *)
Lemma percentile_constant v data q :
  data <> [] -> Forall (fun p => p = v) data ->
  (0 <= q)%Q -> (q <= 100)%Q ->
  exists p, percentile data q = Some p /\ (p == inject_Z v)%Q.
Proof.
  intros Hne Hall Hq0 Hq100.
  destruct data as [|x l]; [contradiction|].
  unfold percentile.
  set (srt := sort (x :: l)).
  set (n := Z.of_nat (length srt)).
  set (index := (q / 100 * inject_Z (n - 1))%Q).
  assert (Hn : 1 <= n).
  { unfold n, srt. rewrite sort_length. simpl length. lia. }
  assert (Hm : (0 <= inject_Z (n - 1))%Q).
  { change 0%Q with (inject_Z 0). rewrite <- Zle_Qle. lia. }
  assert (Hi0 : (0 <= index)%Q).
  { unfold index. apply Qmult_le_0_compat; [|exact Hm].
    apply Qle_shift_div_l; [reflexivity | lra]. }
  assert (Hi1 : (index <= inject_Z (n - 1))%Q).
  { unfold index.
    setoid_replace (inject_Z (n - 1)) with (1 * inject_Z (n - 1))%Q at 2
      by ring.
    apply Qmult_le_compat_r; [|exact Hm].
    apply Qle_shift_div_r; [reflexivity | lra]. }
  assert (Hlo0 : 0 <= Qfloor index).
  { rewrite <- (Qfloor_Z 0). now apply Qfloor_resp_le. }
  assert (Hlo1 : Qfloor index <= n - 1).
  { rewrite <- (Qfloor_Z (n - 1)). now apply Qfloor_resp_le. }
  assert (Hsrt : Forall (fun p => p = v) srt) by now apply sort_Forall.
  eexists. split; [reflexivity|].
  rewrite !(nth_constant v srt) by (try exact Hsrt; fold n; lia).
  ring.
Qed.

Lemma shape_map_pixels f im : shape (map_pixels f im) = shape im.
Proof.
  unfold shape, map_pixels. rewrite map_map.
  apply map_ext. intro row. apply length_map.
Qed.

(** [to_uint8] keeps the shape of its argument. *)
Lemma to_uint8_shape im : shape (to_uint8 im) = shape im.
Proof.
  unfold to_uint8.
  destruct (percentile (flatten im) 1) as [minn|];
    destruct (percentile (flatten im) (100 - 1)) as [maxx|];
    try apply shape_map_pixels.
  destruct (Qeq_bool minn maxx); apply shape_map_pixels.
Qed.

(** X6: On an image whose pixels all have the same value the two percentiles
    coincide and the result is zero everywhere: the division by
    [maxx - minn] is not reached. *)
Lemma to_uint8_constant_image im v :
  Forall (fun p => p = v) (flatten im) ->
  to_uint8 im = map_pixels (fun _ => 0) im
  /\ Forall (fun p => p = 0) (flatten (to_uint8 im))
  /\ shape (to_uint8 im) = shape im.
Proof.
  intro Hall.
  assert (E : to_uint8 im = map_pixels (fun _ => 0) im).
  { unfold to_uint8.
    destruct (flatten im) as [|x l] eqn:Hflat; [reflexivity|].
    destruct (percentile_constant v (x :: l) 1) as (p1 & E1 & H1);
      [discriminate | exact Hall | discriminate | discriminate |].
    destruct (percentile_constant v (x :: l) (100 - 1)) as (p2 & E2 & H2);
      [discriminate | exact Hall | discriminate | discriminate |].
    rewrite E1, E2.
    replace (Qeq_bool p1 p2) with true; [reflexivity|].
    symmetry. apply Qeq_bool_iff. now rewrite H1, H2. }
  split; [exact E|]. split; [|apply to_uint8_shape].
  rewrite E. unfold flatten, map_pixels.
  clear. induction im as [|row im IH]; simpl; [constructor|].
  apply Forall_app. split; [|exact IH].
  apply Forall_forall. intros p Hp. apply in_map_iff in Hp.
  now destruct Hp as (_ & <- & _).
Qed.

(** C10 fails on an image whose first percentile is above zero: after
    [im = im - minn] the source clears the values below [minn] instead of
    the values below zero.  For the pixels 100, 150, 150, 300 the
    percentiles are 101.5 and 295.5; the pixels of value 150 should come
    out as 63 and come out as 0. *)
Theorem to_uint8_clears_values_under_twice_the_minimum :
  let im := [[100; 150]; [150; 300]] in
  option_map Qred (percentile (flatten im) 1) = Some (203 # 2)
  /\ option_map Qred (percentile (flatten im) (100 - 1)) = Some (591 # 2)
  /\ to_uint8 im = [[0; 0]; [0; 255]]
  /\ clip_rescale im = [[0; 63]; [63; 255]].
Proof.
  vm_compute. repeat split; reflexivity.
Qed.

End ToUint8.

(** ** Error containment in the classifier *)

Section Containment.
Import Py FOVClassifier.

Lemma hoare_bind {A B : Type} (P : classifier -> Prop) (m : M A)
    (k : A -> M B) (R : A -> classifier -> Prop)
    (Qok : B -> classifier -> Prop) (Qex : exn -> classifier -> Prop) :
  hoare P m R Qex ->
  (forall a, hoare (R a) (k a) Qok Qex) ->
  hoare P (mbind m k) Qok Qex.
Proof.
  intros Hm Hk self HP. unfold mbind.
  specialize (Hm self HP).
  destruct (m self) as [[a|e] self'].
  - apply Hk. exact Hm.
  - exact Hm.
Qed.

Lemma hoare_ret {A : Type} (P : classifier -> Prop) (a : A)
    (Qex : exn -> classifier -> Prop) :
  hoare P (ret a) (fun _ => P) Qex.
Proof.
  intros self HP. exact HP.
Qed.

Lemma quiet_app t1 t2 : quiet t1 -> quiet t2 -> quiet (t1 ++ t2).
Proof.
  intros H1 H2. apply Forall_app. split; assumption.
Qed.

Lemma quiet_not_raised t name e : quiet t -> ~ In (name, Some e) t.
Proof.
  intros Hq Hin.
  apply (proj1 (Forall_forall _ t) Hq) in Hin. discriminate Hin.
Qed.

(** In a trace that is quiet up to its last call, the call that raised is
    the last one. *)
Lemma raised_is_last before name e name' e' :
  quiet before ->
  In (name', Some e') (before ++ [(name, Some e)]) ->
  name' = name /\ e' = e.
Proof.
  intros Hq Hin. apply in_app_or in Hin. destruct Hin as [Hin | Hin].
  - exfalso. exact (quiet_not_raised _ _ _ Hq Hin).
  - destruct Hin as [E | []]. injection E as -> ->. now split.
Qed.

Variable base : list (string * option exn).
Variable dir : option string.
Variable position_ind : option Z.

Local Abbreviation inv := (contained base dir position_ind).

(** A wrapped call in prediction mode never raises and keeps the
    invariant, whatever the method does. *)
Lemma catch_errors_contained {A B : Type} name
    (method : classifier -> A -> result B) args :
  hoare inv (catch_errors name method args) (fun _ => inv) (fun _ _ => False).
Proof.
  intros self Hinv.
  assert (Hinv' := Hinv).
  destruct Hinv' as (Hmode & Hdir & Hpos & Hflag & trace & Hcalls & Hcase).
  unfold catch_errors. rewrite Hmode.
  destruct (error_has_occured self) eqn:Herr; [exact Hinv|].
  destruct (decision_has_been_made self) eqn:Hmade; [exact Hinv|].
  simpl orb. cbv iota.
  destruct (method self args) as [b|error].
  - unfold contained. simpl. rewrite Herr, Hmade.
    repeat split; try assumption; try discriminate.
    exists (trace ++ [(name, None)]). rewrite Hcalls, app_assoc.
    split; [reflexivity|].
    apply quiet_app; [exact Hcase|]. constructor; [reflexivity | constructor].
  - unfold make_decision, record_call. simpl. rewrite Herr, Hmade. simpl.
    unfold contained. simpl.
    repeat split; try assumption.
    + intros _. eexists. reflexivity.
    + exists (trace ++ [(name, Some error)]). rewrite Hcalls, app_assoc.
      split; [reflexivity|].
      exists trace, name, error. repeat split. exact Hcase.
Qed.

Lemma make_decision_contained decision reason error_info :
  hoare inv (make_decision decision reason error_info)
    (fun _ self =>
       inv self
       /\ (error_has_occured self = true \/ decision_has_been_made self = true))
    (fun _ _ => False).
Proof.
  intros self Hinv.
  assert (Hinv' := Hinv).
  destruct Hinv' as (Hmode & Hdir & Hpos & Hflag & trace & Hcalls & Hcase).
  unfold make_decision.
  destruct (error_has_occured self) eqn:Herr.
  { simpl. split; [exact Hinv | now left]. }
  destruct (decision_has_been_made self) eqn:Hmade.
  { simpl. split; [exact Hinv | now right]. }
  simpl. split; [|now right].
  unfold contained. simpl. try rewrite Herr.
  repeat split; try assumption.
  - intros _. eexists. reflexivity.
  - exists trace. split; assumption.
Qed.

Lemma make_decision_contained' decision reason error_info :
  hoare inv (make_decision decision reason error_info)
    (fun _ => inv) (fun _ _ => False).
Proof.
  intros self Hinv.
  assert (H := make_decision_contained decision reason error_info self Hinv).
  destruct (make_decision decision reason error_info self) as [[[]|e] self'].
  - exact (proj1 H).
  - exact H.
Qed.

Lemma set_log_contained f :
  (forall l,
     log_position_ind (f l) = log_position_ind l
     /\ log_decision (f l) = log_decision l
     /\ log_reason (f l) = log_reason l
     /\ log_error_info (f l) = log_error_info l) ->
  hoare inv (set_log f) (fun _ => inv) (fun _ _ => False).
Proof.
  intros Hf self (Hmode & Hdir & Hpos & Hflag & trace & Hcalls & Hcase).
  unfold set_log, with_log, contained. simpl.
  destruct (Hf (log_info self)) as (E1 & E2 & E3 & E4).
  rewrite E1, E2, E3, E4.
  repeat split; try assumption.
  exists trace. split; assumption.
Qed.

Lemma hoare_conseq {A : Type} (P : classifier -> Prop) (m : M A)
    (Qok : A -> classifier -> Prop) (Qex Qex' : exn -> classifier -> Prop) :
  (forall e self, Qex e self -> Qex' e self) ->
  hoare P m Qok Qex -> hoare P m Qok Qex'.
Proof.
  intros Himp H self HP. specialize (H self HP).
  destruct (m self) as [[a|e] self']; [exact H | now apply Himp].
Qed.

Lemma hoare_no_raise {A : Type} (P : classifier -> Prop) (m : M A)
    (Qok : A -> classifier -> Prop) (Qex : exn -> classifier -> Prop) :
  hoare P m Qok (fun _ _ => False) -> hoare P m Qok Qex.
Proof.
  apply hoare_conseq. intros e self [].
Qed.

(** [classify_raw_fov] in prediction mode: the invariant holds at the
    end, the value returned is the decision, and the only exception is
    the one of the logging step. *)
Lemma classify_raw_fov_contained st image :
  hoare
    (fun self =>
       mode self = Prediction /\ calls self = base /\ log_dir self = dir)
    (classify_raw_fov st image position_ind)
    (fun flag self => inv self /\ decision_flag self = Some flag)
    (fun e self =>
       inv self /\ e = missing_position_ind
       /\ dir <> None /\ position_ind = None).
Proof.
  unfold classify_raw_fov.
  eapply hoare_bind with (R := fun _ => inv).
  { intros self (Hmode & Hcalls & Hdir). unfold contained. simpl.
    repeat split; try assumption; try discriminate.
    exists []. rewrite app_nil_r. split; [exact Hcalls | constructor]. }
  intros _.
  eapply hoare_bind with (R := fun _ => inv).
  { apply hoare_no_raise, catch_errors_contained. }
  intros validation_result.
  eapply hoare_bind with (R := fun _ => inv).
  { apply hoare_no_raise.
    destruct validation_result as [[[|] message]|].
    - apply set_log_contained. intro l. simpl. repeat split.
    - apply make_decision_contained'.
    - apply hoare_ret. }
  intros _.
  eapply hoare_bind with (R := fun _ => inv).
  { apply hoare_no_raise, catch_errors_contained. }
  intros nuclei_in_fov.
  eapply hoare_bind with (R := fun _ => inv).
  { apply hoare_no_raise. destruct (py_not nuclei_in_fov).
    - apply make_decision_contained'.
    - apply hoare_ret. }
  intros _.
  eapply hoare_bind with (R := fun _ => inv).
  { apply hoare_no_raise, catch_errors_contained. }
  intros mask.
  eapply hoare_bind with (R := fun _ => inv).
  { apply hoare_no_raise, catch_errors_contained. }
  intros positions.
  eapply hoare_bind with (R := fun _ => inv).
  { apply hoare_no_raise, set_log_contained. intro l. simpl. repeat split. }
  intros _.
  eapply hoare_bind with (R := fun _ => inv).
  { apply hoare_no_raise, catch_errors_contained. }
  intros fov_is_candidate.
  eapply hoare_bind with (R := fun _ => inv).
  { apply hoare_no_raise. destruct (py_not fov_is_candidate).
    - apply make_decision_contained'.
    - apply hoare_ret. }
  intros _.
  eapply hoare_bind with (R := fun _ => inv).
  { apply hoare_no_raise, catch_errors_contained. }
  intros features.
  eapply hoare_bind with (R := fun _ => inv).
  { apply hoare_no_raise, set_log_contained. intro l. simpl. repeat split. }
  intros _.
  eapply hoare_bind with (R := fun _ => inv).
  { apply hoare_no_raise, catch_errors_contained. }
  intros model_prediction.
  eapply hoare_bind with
    (R := fun _ self =>
            inv self
            /\ (error_has_occured self = true
                \/ decision_has_been_made self = true)).
  { apply hoare_no_raise, make_decision_contained. }
  intros _.
  eapply hoare_bind with
    (R := fun _ self =>
            inv self
            /\ (error_has_occured self = true
                \/ decision_has_been_made self = true)).
  { intros self [Hinv Hdec]. unfold log_classification_info.
    assert (Hinv' := Hinv).
    destruct Hinv' as (_ & Hdir & Hpos & _).
    destruct (log_dir self) as [d|] eqn:Hd; [|now split].
    destruct (log_position_ind (log_info self)) eqn:Hp; [now split|].
    split; [exact Hinv|]. split; [reflexivity|].
    split; [rewrite <- Hdir; discriminate | now rewrite <- Hpos]. }
  intros _ self [Hinv Hdec].
  assert (Hinv' := Hinv).
  destruct Hinv' as (_ & _ & _ & Hflag & trace & _ & Hcase).
  assert (Hmade : decision_has_been_made self = true).
  { destruct Hdec as [Herr | Hmade]; [|exact Hmade].
    rewrite Herr in Hcase.
    now destruct Hcase as (before & name & e & _ & _ & Hmade & _). }
  destruct (Hflag Hmade) as [d Hd]. rewrite Hd. now split.
Qed.

Lemma catch_errors_running {A B : Type} name
    (method : classifier -> A -> result B) args :
  hoare (running base) (catch_errors name method args)
    (fun _ => running base) (stopped_by base).
Proof.
  intros self (Hmode & trace & Hcalls & Hquiet).
  unfold catch_errors. rewrite Hmode.
  destruct (method self args) as [b|e].
  - split; [exact Hmode|]. exists (trace ++ [(name, None)]).
    simpl. rewrite Hcalls, app_assoc. split; [reflexivity|].
    apply quiet_app; [exact Hquiet|]. constructor; [reflexivity | constructor].
  - exists trace, name. simpl. rewrite Hcalls. split; [|exact Hquiet].
    now rewrite app_assoc.
Qed.

Lemma make_decision_running decision reason error_info :
  hoare (running base) (make_decision decision reason error_info)
    (fun _ => running base) (stopped_by base).
Proof.
  intros self Hrun. unfold make_decision.
  destruct (error_has_occured self || decision_has_been_made self);
    [exact Hrun|].
  destruct Hrun as (Hmode & trace & Hcalls & Hquiet).
  split; [exact Hmode|]. exists trace. now split.
Qed.

Lemma set_log_running f :
  hoare (running base) (set_log f) (fun _ => running base) (stopped_by base).
Proof.
  intros self (Hmode & trace & Hcalls & Hquiet).
  split; [exact Hmode|]. exists trace. now split.
Qed.

(** [classify_raw_fov] in training mode: an exception of a wrapped method
    comes out of [classify_raw_fov]. *)
Lemma classify_raw_fov_running st image :
  hoare (fun self => mode self = Training /\ calls self = base)
    (classify_raw_fov st image position_ind)
    (fun _ => running base)
    (fun e self => stopped_by base e self \/ running base self).
Proof.
  assert (Hweak : forall e self,
            stopped_by base e self ->
            stopped_by base e self \/ running base self) by (intros; now left).
  unfold classify_raw_fov.
  eapply hoare_bind with (R := fun _ => running base).
  { intros self (Hmode & Hcalls). split; [exact Hmode|].
    exists []. simpl. rewrite app_nil_r. split; [exact Hcalls | constructor]. }
  intros _.
  eapply hoare_bind with (R := fun _ => running base).
  { apply (hoare_conseq _ _ _ _ _ Hweak), catch_errors_running. }
  intros validation_result.
  eapply hoare_bind with (R := fun _ => running base).
  { apply (hoare_conseq _ _ _ _ _ Hweak).
    destruct validation_result as [[[|] message]|].
    - apply set_log_running.
    - apply make_decision_running.
    - apply hoare_ret. }
  intros _.
  eapply hoare_bind with (R := fun _ => running base).
  { apply (hoare_conseq _ _ _ _ _ Hweak), catch_errors_running. }
  intros nuclei_in_fov.
  eapply hoare_bind with (R := fun _ => running base).
  { apply (hoare_conseq _ _ _ _ _ Hweak). destruct (py_not nuclei_in_fov).
    - apply make_decision_running.
    - apply hoare_ret. }
  intros _.
  eapply hoare_bind with (R := fun _ => running base).
  { apply (hoare_conseq _ _ _ _ _ Hweak), catch_errors_running. }
  intros mask.
  eapply hoare_bind with (R := fun _ => running base).
  { apply (hoare_conseq _ _ _ _ _ Hweak), catch_errors_running. }
  intros positions.
  eapply hoare_bind with (R := fun _ => running base).
  { apply (hoare_conseq _ _ _ _ _ Hweak), set_log_running. }
  intros _.
  eapply hoare_bind with (R := fun _ => running base).
  { apply (hoare_conseq _ _ _ _ _ Hweak), catch_errors_running. }
  intros fov_is_candidate.
  eapply hoare_bind with (R := fun _ => running base).
  { apply (hoare_conseq _ _ _ _ _ Hweak). destruct (py_not fov_is_candidate).
    - apply make_decision_running.
    - apply hoare_ret. }
  intros _.
  eapply hoare_bind with (R := fun _ => running base).
  { apply (hoare_conseq _ _ _ _ _ Hweak), catch_errors_running. }
  intros features.
  eapply hoare_bind with (R := fun _ => running base).
  { apply (hoare_conseq _ _ _ _ _ Hweak), set_log_running. }
  intros _.
  eapply hoare_bind with (R := fun _ => running base).
  { apply (hoare_conseq _ _ _ _ _ Hweak), catch_errors_running. }
  intros model_prediction.
  eapply hoare_bind with (R := fun _ => running base).
  { apply (hoare_conseq _ _ _ _ _ Hweak), make_decision_running. }
  intros _.
  eapply hoare_bind with (R := fun _ => running base).
  { intros self Hrun. unfold log_classification_info.
    destruct (log_dir self); [|exact Hrun].
    destruct (log_position_ind (log_info self)); [exact Hrun | now right]. }
  intros _ self Hrun.
  destruct (decision_flag self); [exact Hrun | now right].
Qed.

End Containment.

Section ClassifierClaims.
Import Py FOVClassifier.

(** C3: in a call of [classify_raw_fov], a wrapped method that raises is
    the last wrapped method run.  In prediction mode the exception is
    caught: the classifier records the method's name and the message, the
    decision is 'not good' with the reason naming the method, no exception
    of a wrapped method comes out, and from then on every wrapped call is
    skipped and gives [None].  In training mode the exception comes out of
    [classify_raw_fov]. *)
Theorem wrapped_errors_contained_or_propagated
    (st : Stages) (image : raw_fov) (position_ind : option Z)
    (self : classifier) :
  let r := fst (classify_raw_fov st image position_ind self) in
  let self' := snd (classify_raw_fov st image position_ind self) in
  exists trace,
    calls self' = calls self ++ trace
    /\ forall name e,
         In (name, Some e) trace ->
         (exists before, trace = before ++ [(name, Some e)] /\ quiet before)
         /\ (mode self = Prediction ->
             error_has_occured self' = true
             /\ decision_flag self' = Some (Some false)
             /\ log_decision (log_info self') = Some false
             /\ log_reason (log_info self') = Some (error_reason name)
             /\ log_error_info (log_info self') = Some (name, exn_message e)
             /\ (r = Ok (Some false)
                 \/ (r = Raise missing_position_ind
                     /\ log_dir self <> None /\ position_ind = None))
             /\ (forall (A B : Type) name'
                        (method' : classifier -> A -> result B) args',
                   catch_errors name' method' args' self' = (Ok None, self')))
         /\ (mode self = Training -> r = Raise e).
Proof.
  cbv zeta.
  destruct (mode self) eqn:Hmode.
  - (* training *)
    assert (H := classify_raw_fov_running (calls self) position_ind st image
                   self (conj Hmode eq_refl)).
    destruct (classify_raw_fov st image position_ind self) as [r self'].
    simpl fst. simpl snd.
    assert (Hcases : (exists e, r = Raise e /\ stopped_by (calls self) e self')
                     \/ running (calls self) self').
    { destruct r as [a|e]; [now right|].
      destruct H as [H|H]; [left; now exists e | now right]. }
    clear H. destruct Hcases as [(e0 & -> & before & name0 & Hcalls & Hq) | Hrun].
    + exists (before ++ [(name0, Some e0)]). split; [exact Hcalls|].
      intros name e Hin.
      destruct (raised_is_last _ _ _ _ _ Hq Hin) as [-> ->].
      split; [now exists before|]. split; [discriminate | reflexivity].
    + destruct Hrun as (_ & trace & Hcalls & Hq).
      exists trace. split; [exact Hcalls|].
      intros name e Hin. exfalso. exact (quiet_not_raised _ _ _ Hq Hin).
  - (* prediction *)
    assert (H := classify_raw_fov_contained (calls self) (log_dir self)
                   position_ind st image self
                   (conj Hmode (conj eq_refl eq_refl))).
    destruct (classify_raw_fov st image position_ind self) as [r self'].
    simpl fst. simpl snd.
    assert (Hinv : contained (calls self) (log_dir self) position_ind self'
                   /\ ((exists flag, r = Ok flag
                                     /\ decision_flag self' = Some flag)
                       \/ (r = Raise missing_position_ind
                           /\ log_dir self <> None /\ position_ind = None))).
    { destruct r as [flag|e].
      - destruct H as [Hinv Hflag]. split; [exact Hinv|]. left. now exists flag.
      - destruct H as (Hinv & -> & Hdir & Hpos). split; [exact Hinv|].
        now right. }
    clear H. destruct Hinv as [Hinv Hres].
    destruct Hinv as (Hmode' & _ & _ & _ & trace & Hcalls & Hcase).
    exists trace. split; [exact Hcalls|].
    intros name e Hin.
    destruct (error_has_occured self') eqn:Herr.
    + destruct Hcase as (before & name0 & e0 & -> & Hq & Hmade & Hflag
                         & Hdec & Hreason & Hinfo).
      destruct (raised_is_last _ _ _ _ _ Hq Hin) as [-> ->].
      split; [now exists before|]. split; [|discriminate].
      intros _. repeat split; try assumption.
      * destruct Hres as [(flag & -> & Hflag') | Hres]; [left | now right].
        rewrite Hflag in Hflag'. now injection Hflag' as <-.
      * intros A B name' method' args'. unfold catch_errors.
        now rewrite Hmode', Herr.
    + exfalso. exact (quiet_not_raised _ _ _ Hcase Hin).
Qed.

Lemma is_fov_candidate_body_spec self ps :
  is_fov_candidate_body self (Some ps)
  = Ok (negb ((length ps <? 10)%nat || (100 <? length ps)%nat)).
Proof.
  unfold is_fov_candidate_body. rewrite Z.gtb_ltb.
  destruct (Nat.ltb_spec (length ps) 10), (Nat.ltb_spec 100 (length ps)),
    (Z.ltb_spec (Z.of_nat (length ps)) 10),
    (Z.ltb_spec 100 (Z.of_nat (length ps))); simpl; try reflexivity; lia.
Qed.

(** C5 fails in training mode, where the wrapper lets every method run:
    with five nuclei the frame is rejected as 'not a candidate', and the
    features are calculated and the model is asked all the same. *)
Lemma candidacy_gate_is_open_in_training_mode :
  let self' :=
    snd (classify_raw_fov (stages_with 5 (Ok [])) good_frame None
           (new_classifier Training None)) in
  log_reason (log_info self') = Some "FOV is not a candidate"%string
  /\ In "calculate_features"%string (called self')
  /\ In "predict"%string (called self').
Proof.
  cbv. repeat split; auto 10.
Qed.

(** C5, amended: fewer than 10 or more than 100 positions are not a
    candidate, exactly 10 and exactly 100 are; and in prediction mode,
    when [is_fov_candidate] is reached (the frame is valid, it has nuclei,
    the mask and the positions are found), such a position set ends
    [classify_raw_fov] with the decision 'not good' and the reason
    'FOV is not a candidate', [calculate_features] and [predict] not
    being run. *)
Theorem candidacy_gate_in_prediction_mode
    (st : Stages) (pixels : list Z) (position_ind : option Z)
    (self : classifier) (m : mask) (ps : positions) :
  let image := Ndarray "uint16" [1024; 1024] pixels in
  mode self = Prediction ->
  nuclei_above_threshold st image = Ok true ->
  background_mask_of st image = Ok m ->
  nucleus_positions_of st m = Ok ps ->
  (length ps < 10 \/ 100 < length ps)%nat ->
  let r := fst (classify_raw_fov st image position_ind self) in
  let self' := snd (classify_raw_fov st image position_ind self) in
  is_fov_candidate_body self (Some ps) = Ok false
  /\ (forall ps' : positions,
        (length ps' = 10 \/ length ps' = 100)%nat ->
        is_fov_candidate_body self (Some ps') = Ok true)
  /\ decision_flag self' = Some (Some false)
  /\ log_decision (log_info self') = Some false
  /\ log_reason (log_info self') = Some "FOV is not a candidate"%string
  /\ calls self'
     = calls self
       ++ [("validate_raw_fov"%string, None);
           ("are_nuclei_in_fov"%string, None);
           ("generate_background_mask"%string, None);
           ("find_nucleus_positions"%string, None);
           ("is_fov_candidate"%string, None)]
  /\ ~ In "calculate_features"%string (map fst (skipn (length (calls self)) (calls self')))
  /\ ~ In "predict"%string (map fst (skipn (length (calls self)) (calls self')))
  /\ (log_dir self = None \/ position_ind <> None -> r = Ok (Some false)).
Proof.
  intros image Hmode Hnuclei Hmask Hpos Hlen.
  assert (Hcand : is_fov_candidate_body self (Some ps) = Ok false).
  { rewrite is_fov_candidate_body_spec.
    destruct (Nat.ltb_spec (length ps) 10), (Nat.ltb_spec 100 (length ps));
      simpl; try reflexivity; lia. }
  assert (Hrun :
    classify_raw_fov st image position_ind self
    = (match log_dir self, position_ind with
       | Some _, None => Raise missing_position_ind
       | _, _ => Ok (Some false)
       end,
       mkClassifier Prediction (log_dir self) false true (Some (Some false))
         (mkLogInfo position_ind (Some image) (Some ps) None None
            (Some false) (Some "FOV is not a candidate"%string))
         (calls self
          ++ [("validate_raw_fov"%string, None);
              ("are_nuclei_in_fov"%string, None);
              ("generate_background_mask"%string, None);
              ("find_nucleus_positions"%string, None);
              ("is_fov_candidate"%string, None)]))).
  { unfold is_fov_candidate_body in Hcand.
    unfold classify_raw_fov, mbind, validate_raw_fov, are_nuclei_in_fov,
      generate_background_mask, find_nucleus_positions, is_fov_candidate,
      calculate_features, predict, catch_errors, are_nuclei_in_fov_body,
      generate_background_mask_body, find_nucleus_positions_body,
      is_fov_candidate_body, set_log, make_decision, record_call, with_log,
      log_classification_info.
    cbn -[Z.ltb Z.gtb Z.of_nat length app]. rewrite Hmode.
    cbn -[Z.ltb Z.gtb Z.of_nat length app]. fold image. rewrite Hnuclei.
    cbn -[Z.ltb Z.gtb Z.of_nat length app]. rewrite Hmask.
    cbn -[Z.ltb Z.gtb Z.of_nat length app]. rewrite Hpos.
    cbn -[Z.ltb Z.gtb Z.of_nat length app].
    destruct ((Z.of_nat (length ps) <? 10) || (Z.of_nat (length ps) >? 100));
      [|discriminate Hcand].
    cbn -[Z.ltb Z.gtb Z.of_nat length app].
    rewrite <- !app_assoc. cbn [app].
    destruct (log_dir self); [|reflexivity].
    destruct position_ind; reflexivity. }
  cbv zeta. rewrite Hrun.
  cbn [fst snd calls decision_flag log_info log_decision log_reason].
  split; [exact Hcand|]. split.
  { intros ps' Hlen'. rewrite is_fov_candidate_body_spec.
    destruct Hlen' as [-> | ->]; reflexivity. }
  repeat split; try reflexivity.
  - rewrite skipn_app, Nat.sub_diag, skipn_all. simpl.
    intros [H|[H|[H|[H|[H|[]]]]]]; discriminate H.
  - rewrite skipn_app, Nat.sub_diag, skipn_all. simpl.
    intros [H|[H|[H|[H|[H|[]]]]]]; discriminate H.
  - intros [Hdir | Hind].
    + now rewrite Hdir.
    + destruct (log_dir self); [|reflexivity].
      destruct position_ind; [reflexivity | contradiction].
Qed.

End ClassifierClaims.

(** Fifty nuclei and a feature calculation that raises. *)
Lemma wrapped_errors_contained_or_propagated_witness :
  let self' :=
    snd (FOVClassifier.classify_raw_fov
           (FOVClassifier.stages_with 50
              (Py.Raise (Py.mkExn Py.OtherError "boom")))
           FOVClassifier.good_frame None
           (FOVClassifier.new_classifier FOVClassifier.Prediction None)) in
  FOVClassifier.decision_flag self' = Some (Some false)
  /\ FOVClassifier.log_reason (FOVClassifier.log_info self')
     = Some (FOVClassifier.error_reason "calculate_features").
Proof.
  destruct (wrapped_errors_contained_or_propagated
              (FOVClassifier.stages_with 50
                 (Py.Raise (Py.mkExn Py.OtherError "boom")))
              FOVClassifier.good_frame None
              (FOVClassifier.new_classifier FOVClassifier.Prediction None))
    as (trace & Hcalls & H).
  vm_compute in Hcalls. subst trace.
  destruct (H "calculate_features"%string (Py.mkExn Py.OtherError "boom"))
    as (_ & Hpred & _).
  { do 5 right. left. reflexivity. }
  destruct (Hpred eq_refl) as (_ & Hflag & _ & Hreason & _).
  split; assumption.
Defined.

(** Five nuclei in a well-formed frame. *)
Lemma candidacy_gate_in_prediction_mode_witness :
  let self' :=
    snd (FOVClassifier.classify_raw_fov
           (FOVClassifier.stages_with 5 (Py.Ok []))
           FOVClassifier.good_frame None
           (FOVClassifier.new_classifier FOVClassifier.Prediction None)) in
  FOVClassifier.decision_flag self' = Some (Some false)
  /\ FOVClassifier.log_reason (FOVClassifier.log_info self')
     = Some "FOV is not a candidate"%string.
Proof.
  assert (Hlen : (length (map (fun i => (Z.of_nat i, Z.of_nat i)) (seq 0 5))
                  < 10)%nat) by (simpl; lia).
  destruct (candidacy_gate_in_prediction_mode
              (FOVClassifier.stages_with 5 (Py.Ok [])) [] None
              (FOVClassifier.new_classifier FOVClassifier.Prediction None)
              [] (map (fun i => (Z.of_nat i, Z.of_nat i)) (seq 0 5))
              eq_refl eq_refl eq_refl eq_refl (or_introl Hlen))
    as (_ & _ & Hflag & _ & Hreason & _).
  split; assumption.
Defined.

(* ===================================================================== *)
(** * Further properties of the modelled code *)
(* ===================================================================== *)

(** ** Stage motion: what is and is not validated *)

Section MoveZValidation.
Import Py Settings Operations.

Context {hw : Type}.
Variable parse : string -> option pyfloat.
Variable mm_core : MMCore hw.
Variable stage_label : string.

(** X1: An infinite position passes the validation of [move_z], which only
    tests for nan: the infinity is sent to the stage, and the call
    returns what the stage then reports. *)
Lemma move_z_sends_infinity negative h h1 h2 actual :
  setPosition mm_core stage_label (Inf negative) h = Ok h1 ->
  waitForDevice mm_core stage_label h1 = Ok h2 ->
  getPosition mm_core stage_label h2 = Ok actual ->
  move_z parse mm_core stage_label (PyFloat (Inf negative))
    (Some "absolute"%string) h = Ok (actual, h2).
Proof.
  intros H1 H2 H3. unfold move_z. simpl.
  rewrite H1. simpl. rewrite H2. simpl. rewrite H3. reflexivity.
Qed.

(** A failure of the stage (of the move, of the wait or of the read-out)
    comes out of [move_z] unchanged. *)
Lemma move_z_propagates_stage_errors p h e :
  setPosition mm_core stage_label (Fin p) h = Raise e
  \/ (exists h1,
        setPosition mm_core stage_label (Fin p) h = Ok h1
        /\ (waitForDevice mm_core stage_label h1 = Raise e
            \/ exists h2,
                 waitForDevice mm_core stage_label h1 = Ok h2
                 /\ getPosition mm_core stage_label h2 = Raise e)) ->
  move_z parse mm_core stage_label (PyFloat (Fin p))
    (Some "absolute"%string) h = Raise e.
Proof.
  unfold move_z. simpl.
  intros [H | (h1 & H1 & [H | (h2 & H2 & H3)])].
  - now rewrite H.
  - rewrite H1. simpl. now rewrite H.
  - rewrite H1. simpl. rewrite H2. simpl. now rewrite H3.
Qed.

End MoveZValidation.

Lemma move_z_invalid_kind_witness :
  Operations.move_z Operations.parse_nan_only Operations.mock_core "PiezoZ"
    (Operations.PyInt 5) (Some "sideways"%string)
    (Operations.mkMock 0 0 0 [])
  = Py.Raise (Py.mkExn Py.ValueError
                "`kind` must be either 'relative' or 'absolute'").
Proof.
  apply (move_z_invalid_kind Operations.parse_nan_only Operations.mock_core
           "PiezoZ" (Operations.PyInt 5) (Some "sideways"%string)
           (Operations.mkMock 0 0 0 []));
    intro H; discriminate H.
Defined.

Lemma move_z_unreadable_string_witness :
  Operations.move_z Operations.parse_nan_only Operations.mock_core "PiezoZ"
    (Operations.PyStr "abc") (Some "absolute"%string)
    (Operations.mkMock 0 0 0 [])
  = Py.Raise (Py.mkExn Py.TypeError "`position` cannot be coerced to float").
Proof.
  apply (move_z_unreadable_string Operations.parse_nan_only
           Operations.mock_core "PiezoZ" "abc" (Some "absolute"%string)
           (Operations.mkMock 0 0 0 [])); reflexivity.
Defined.

Lemma move_z_nan_witness :
  Operations.move_z Operations.parse_nan_only Operations.mock_core "PiezoZ"
    (Operations.PyStr "nan") (Some "relative"%string)
    (Operations.mkMock 0 0 0 [])
  = Py.Raise (Py.mkExn Py.TypeError "`position` cannot be nan").
Proof.
  apply (move_z_nan Operations.parse_nan_only Operations.mock_core "PiezoZ"
           (Operations.PyStr "nan") (Some "relative"%string)
           (Operations.mkMock 0 0 0 [])); reflexivity.
Defined.

Lemma move_z_moves_witness :
  Operations.move_z Operations.parse_nan_only Operations.mock_core "PiezoZ"
    (Operations.PyInt 5) (Some "absolute"%string)
    (Operations.mkMock 0 0 0 [])
  = Py.Ok (inject_Z 5, Operations.mkMock (inject_Z 5) 0 0 []).
Proof.
  apply (move_z_moves Operations.parse_nan_only Operations.mock_core "PiezoZ"
           (Operations.PyInt 5) (Some "absolute"%string)
           (Operations.mkMock 0 0 0 []) (Py.Fin (inject_Z 5))
           (Operations.mkMock (inject_Z 5) 0 0 [])
           (Operations.mkMock (inject_Z 5) 0 0 []) (inject_Z 5));
    reflexivity.
Defined.

Lemma move_z_propagates_stage_errors_witness :
  let broken : Operations.MMCore unit :=
    Operations.mkMMCore unit
      (fun _ _ _ => Py.Raise (Py.mkExn Py.OtherError "stage not found"))
      (fun _ _ h => Py.Ok h) (fun _ h => Py.Ok h) (fun _ _ => Py.Ok 0%Q)
      (fun _ _ _ h => Py.Ok h) (fun _ h => Py.Ok h) (fun h => Py.Ok h)
      (fun h => Py.Ok ([], h)) in
  Operations.move_z Operations.parse_nan_only broken "PiezoZ"
    (Operations.PyFloat (Py.Fin 3)) (Some "absolute"%string) tt
  = Py.Raise (Py.mkExn Py.OtherError "stage not found").
Proof.
  intro broken.
  apply (move_z_propagates_stage_errors Operations.parse_nan_only broken
           "PiezoZ" 3%Q tt (Py.mkExn Py.OtherError "stage not found")).
  left. reflexivity.
Defined.

Lemma move_z_sends_infinity_witness :
  Operations.move_z Operations.parse_nan_only Operations.mock_core "PiezoZ"
    (Operations.PyFloat (Py.Inf false)) (Some "absolute"%string)
    (Operations.mkMock 7 0 0 [])
  = Py.Ok (0%Q, Operations.mkMock 0 0 0 []).
Proof.
  apply (move_z_sends_infinity Operations.parse_nan_only Operations.mock_core
           "PiezoZ" false (Operations.mkMock 7 0 0 [])
           (Operations.mkMock 0 0 0 []) (Operations.mkMock 0 0 0 []) 0%Q);
    reflexivity.
Defined.

(** ** The classifier as a sequence of steps *)

Section StagedClassification.
Import Py FOVClassifier Staged.

Lemma classify_raw_fov_staged_run
    (st : Stages) (image : raw_fov) (position_ind : option Z)
    (self : classifier) :
  mode self = Prediction ->
  let o := staged_outcome st self image in
  let r := fst (classify_raw_fov st image position_ind self) in
  let self' := snd (classify_raw_fov st image position_ind self) in
  decision_flag self' = Some (decision_of o)
  /\ log_decision (log_info self') = decision_of o
  /\ log_reason (log_info self') = reason_of o
  /\ log_error_info (log_info self') = error_info_of o
  /\ r = match log_dir self, position_ind with
         | Some _, None => Raise missing_position_ind
         | _, _ => Ok (decision_of o)
         end.
Proof.
  intros Hmode. cbv zeta.
  unfold staged_outcome, classify_raw_fov, mbind, validate_raw_fov,
    are_nuclei_in_fov, generate_background_mask, find_nucleus_positions,
    is_fov_candidate, calculate_features, predict, catch_errors,
    are_nuclei_in_fov_body, generate_background_mask_body,
    find_nucleus_positions_body, calculate_features_body, predict_body,
    set_log, make_decision, record_call, with_log, with_flags,
    log_classification_info, ret.
  cbn [mode error_has_occured decision_has_been_made orb fst snd
       log_info decision_flag log_dir calls].
  rewrite Hmode.
  cbn [mode error_has_occured decision_has_been_made orb fst snd
       log_info decision_flag log_dir calls].
  change (validate_raw_fov_body _ image)
    with (validate_raw_fov_body self image).
  destruct (validate_raw_fov_body self image) as [[[|] message]|e]; cbn;
    [| destruct (log_dir self), position_ind; repeat split; reflexivity
     | destruct (log_dir self), position_ind; repeat split; reflexivity ].
  destruct (nuclei_above_threshold st image) as [[|]|e]; cbn;
    [| destruct (log_dir self), position_ind; repeat split; reflexivity
     | destruct (log_dir self), position_ind; repeat split; reflexivity ].
  destruct (background_mask_of st image) as [m|e]; cbn;
    [| destruct (log_dir self), position_ind; repeat split; reflexivity ].
  destruct (nucleus_positions_of st m) as [ps|e]; cbn;
    [| destruct (log_dir self), position_ind; repeat split; reflexivity ].
  unfold is_fov_candidate_body.
  destruct ((Z.of_nat (length ps) <? 10) || (Z.of_nat (length ps) >? 100));
    cbn;
    [ destruct (log_dir self), position_ind; repeat split; reflexivity |].
  destruct (features_of st ps) as [f|e]; cbn;
    [| destruct (log_dir self), position_ind; repeat split; reflexivity ].
  destruct (model_predict st f) as [b|e]; cbn;
    destruct (log_dir self), position_ind; repeat split; reflexivity.
Qed.

(** X24: In prediction mode [classify_raw_fov] decides as the method bodies
    applied one after the other would: the first 'no' rejects with its
    reason, the first error rejects with the name of the method, otherwise
    the model decides.  The value returned is the decision, unless a log
    directory is set and no position index is given, in which case the
    logging step raises after the decision is recorded. *)
Theorem classify_raw_fov_is_staged
    (st : Stages) (image : raw_fov) (position_ind : option Z)
    (self : classifier) :
  mode self = Prediction ->
  let o := staged_outcome st self image in
  let r := fst (classify_raw_fov st image position_ind self) in
  let self' := snd (classify_raw_fov st image position_ind self) in
  decision_flag self' = Some (decision_of o)
  /\ log_decision (log_info self') = decision_of o
  /\ log_reason (log_info self') = reason_of o
  /\ log_error_info (log_info self') = error_info_of o
  /\ r = match log_dir self, position_ind with
         | Some _, None => Raise missing_position_ind
         | _, _ => Ok (decision_of o)
         end.
Proof.
  exact (classify_raw_fov_staged_run st image position_ind self).
Qed.

(** X25: What an earlier call has left in the classifier (the two flags, the
    decision, the log entries, an error) plays no part in the next call:
    two classifiers in prediction mode with the same log directory return
    the same value and record the same decision, reason and error for the
    same frame. *)
Theorem classify_raw_fov_forgets_earlier_calls
    (st : Stages) (image : raw_fov) (position_ind : option Z)
    (self1 self2 : classifier) :
  mode self1 = Prediction -> mode self2 = Prediction ->
  log_dir self1 = log_dir self2 ->
  let run1 := classify_raw_fov st image position_ind self1 in
  let run2 := classify_raw_fov st image position_ind self2 in
  fst run1 = fst run2
  /\ decision_flag (snd run1) = decision_flag (snd run2)
  /\ log_decision (log_info (snd run1)) = log_decision (log_info (snd run2))
  /\ log_reason (log_info (snd run1)) = log_reason (log_info (snd run2))
  /\ log_error_info (log_info (snd run1))
     = log_error_info (log_info (snd run2)).
Proof.
  intros H1 H2 Hdir. cbv zeta.
  destruct (classify_raw_fov_staged_run st image position_ind self1 H1)
    as (A1 & B1 & C1 & D1 & E1).
  destruct (classify_raw_fov_staged_run st image position_ind self2 H2)
    as (A2 & B2 & C2 & D2 & E2).
  change (staged_outcome st self2 image)
    with (staged_outcome st self1 image) in *.
  rewrite A1, A2, B1, B2, C1, C2, D1, D2, E1, E2, Hdir.
  repeat split; reflexivity.
Qed.

End StagedClassification.

(** Fifty nuclei, features, and a model that says yes. *)
Lemma classify_raw_fov_is_staged_witness :
  FOVClassifier.decision_flag
    (snd (FOVClassifier.classify_raw_fov
            (FOVClassifier.stages_with 50 (Py.Ok []))
            FOVClassifier.good_frame (Some 3)
            (FOVClassifier.new_classifier FOVClassifier.Prediction
               (Some "logs"%string))))
  = Some (Some true).
Proof.
  exact (proj1 (classify_raw_fov_is_staged
                  (FOVClassifier.stages_with 50 (Py.Ok []))
                  FOVClassifier.good_frame (Some 3)
                  (FOVClassifier.new_classifier FOVClassifier.Prediction
                     (Some "logs"%string)) eq_refl)).
Defined.

(** A classifier left in the error state by a feature calculation that
    raised, and a fresh one. *)
Lemma classify_raw_fov_forgets_earlier_calls_witness :
  let st := FOVClassifier.stages_with 50 (Py.Ok []) in
  let used :=
    snd (FOVClassifier.classify_raw_fov
           (FOVClassifier.stages_with 50
              (Py.Raise (Py.mkExn Py.OtherError "boom")))
           FOVClassifier.good_frame None
           (FOVClassifier.new_classifier FOVClassifier.Prediction None)) in
  fst (FOVClassifier.classify_raw_fov st FOVClassifier.good_frame None used)
  = fst (FOVClassifier.classify_raw_fov st FOVClassifier.good_frame None
           (FOVClassifier.new_classifier FOVClassifier.Prediction None)).
Proof.
  intros st used.
  exact (proj1 (classify_raw_fov_forgets_earlier_calls st
                  FOVClassifier.good_frame None used
                  (FOVClassifier.new_classifier FOVClassifier.Prediction None)
                  eq_refl eq_refl eq_refl)).
Defined.

(** ** What the autoexposure loop keeps *)

Section AutoexposureInvariants.
Import Py Settings Numpy Exposure Operations.
Local Open Scope Q_scope.

Context {hw : Type}.
Variable parse : string -> option pyfloat.
Variable mm_core : MMCore hw.
Variable stack_settings : StackSettings.
Variable s : AutoexposureSettings.
Variable initial : ChannelSettings.

Hypothesis step_nonneg : 0 <= relative_exposure_step s.
Hypothesis step_le_1 : relative_exposure_step s <= 1.
Hypothesis min_nonneg : 0 <= min_exposure_time s.
Hypothesis default_above_min : min_exposure_time s <= default_exposure_time s.

(** The channel settings that the loop can reach from [initial]. *)
Let kept (cs : ChannelSettings) : Prop :=
  laser_line cs = laser_line initial
  /\ laser_name cs = laser_name initial
  /\ 0 <= laser_power cs /\ laser_power cs <= laser_power initial
  /\ min_exposure_time s <= exposure_time cs
  /\ (exposure_time cs <= exposure_time initial
      \/ exposure_time cs <= default_exposure_time s).

Lemma autoexposure_loop_keeps fuel :
  forall z cs h cs' h',
    kept cs ->
    autoexposure_loop parse mm_core stack_settings s fuel z cs h
    = Some (Ok (cs', h')) ->
    kept cs'.
Proof.
  induction fuel as [|fuel IH]; intros z cs h cs' h' Hkept Hrun;
    simpl in Hrun;
    destruct (Qle_bool z (relative_top stack_settings));
    try discriminate;
    try (injection Hrun as <- _; exact Hkept).
  destruct (waitForSystem mm_core h) as [h1|e]; [|discriminate].
  destruct (snap mm_core h1) as [[snap_data h2]|e]; [|discriminate].
  destruct Hkept as (Hline & Hname & Hlp0 & Hlp & Hmin & Het).
  unfold check_slice_for_overexposure in Hrun.
  destruct (slice_is_overexposed snap_data s).
  - cbv zeta in Hrun.
    destruct (Qltb (exposure_time cs * relative_exposure_step s)
                (min_exposure_time s)) eqn:Hfloor;
      cbn [laser_line laser_name laser_power exposure_time] in Hrun;
      (destruct (setProperty mm_core _ _ _ h2) as [h3|e];
         [|discriminate]); cbn [bind] in Hrun;
      (destruct (setExposure mm_core _ h3) as [h4|e];
         [|discriminate]); cbn [bind] in Hrun;
      (destruct (move_z _ _ _ _ _ h4) as [[z' h5]|e]; [|discriminate]);
      apply (IH _ _ _ _ _) in Hrun; try exact Hrun;
      unfold kept; cbn [laser_line laser_name laser_power exposure_time].
    + (* the laser is turned down, the exposure time reset *)
      repeat split; try assumption.
      * apply Qmult_le_0_compat; assumption.
      * apply Qle_trans with (laser_power cs * 1); [|lra].
        rewrite (Qmult_comm (laser_power cs) _), (Qmult_comm (laser_power cs) 1).
        apply Qmult_le_compat_r; assumption.
      * right. apply Qle_refl.
    + (* the exposure time is lowered *)
      apply Qltb_ge in Hfloor.
      assert (Hle : exposure_time cs * relative_exposure_step s
                    <= exposure_time cs).
      { apply Qle_trans with (exposure_time cs * 1); [|lra].
        rewrite (Qmult_comm (exposure_time cs) _),
          (Qmult_comm (exposure_time cs) 1).
        apply Qmult_le_compat_r; [assumption | lra]. }
      repeat split; try assumption.
      destruct Het as [Het | Het]; [left | right]; lra.
  - cbn [bind] in Hrun.
    destruct (move_z _ _ _ _ _ h2) as [[z' h3]|e]; [|discriminate].
    apply (IH _ _ _ _ _) in Hrun; [exact Hrun|].
    unfold kept. repeat split; assumption.
Qed.

(** X2: Whenever [autoexposure] returns, the channel it leaves has the laser
    property of the start, a laser power between 0 and the one of the
    start, an exposure time of at least [min_exposure_time], and an
    exposure time that is at most the one of the start or at most
    [default_exposure_time]: the loop never raises the laser power, and
    raises the exposure time only by resetting it to the default. *)
Theorem autoexposure_keeps_settings_in_range fuel h flag final h' :
  0 <= laser_power initial ->
  min_exposure_time s <= exposure_time initial ->
  autoexposure parse mm_core stack_settings initial s fuel h
  = Some (Ok (flag, final, h')) ->
  laser_line final = laser_line initial
  /\ laser_name final = laser_name initial
  /\ 0 <= laser_power final /\ laser_power final <= laser_power initial
  /\ min_exposure_time s <= exposure_time final
  /\ (exposure_time final <= exposure_time initial
      \/ exposure_time final <= default_exposure_time s).
Proof.
  intros Hlp Het Hrun. unfold autoexposure in Hrun.
  destruct (move_z _ _ _ _ _ h) as [[z h0]|e]; [|discriminate].
  destruct (autoexposure_loop _ _ _ _ _ _ _ _) as [[[cs h1]|e]|] eqn:Hloop;
    try discriminate.
  injection Hrun as _ <- _.
  apply (autoexposure_loop_keeps fuel z initial h0 cs h1); [|exact Hloop].
  unfold kept. repeat split; try assumption; try apply Qle_refl.
  left. apply Qle_refl.
Qed.

End AutoexposureInvariants.

(** Two saturated frames, then dark ones: the exposure time goes from 50
    to 40, then back to 50 with the laser power at 8. *)
Lemma autoexposure_keeps_settings_in_range_witness :
  exists final h',
    Operations.autoexposure Operations.parse_nan_only Operations.mock_core
      Settings.dev_stack_settings Settings.gfp_channel_settings
      Settings.autoexposure_settings 12
      (Operations.mkMock 0 0 0
         [Exposure.bright_snap; Exposure.bright_snap; Exposure.dark_snap])
    = Some (Py.Ok (true, final, h'))
    /\ (Settings.laser_power final <= 10)%Q
    /\ (40 <= Settings.exposure_time final)%Q.
Proof.
  eexists. eexists. split; [vm_compute; reflexivity|].
  assert (Hin := autoexposure_keeps_settings_in_range
    Operations.parse_nan_only Operations.mock_core
    Settings.dev_stack_settings Settings.autoexposure_settings
    Settings.gfp_channel_settings).
  specialize (Hin ltac:(discriminate) ltac:(discriminate)
                  ltac:(discriminate) ltac:(discriminate) 12%nat
                  (Operations.mkMock 0 0 0
                     [Exposure.bright_snap; Exposure.bright_snap;
                      Exposure.dark_snap])
                  true _ _ ltac:(discriminate) ltac:(discriminate)
                  ltac:(vm_compute; reflexivity)).
  destruct Hin as (_ & _ & _ & Hlp & Het & _).
  split; [exact Hlp | exact Het].
Defined.

Lemma autoexposure_flag_true_witness :
  match
    Operations.autoexposure Operations.parse_nan_only Operations.mock_core
      Settings.dev_stack_settings Settings.gfp_channel_settings
      Settings.autoexposure_settings 10 (Operations.mkMock 0 0 0 [])
  with
  | Some (Py.Ok (flag, _, _)) => flag = true
  | _ => False
  end.
Proof.
  destruct (Operations.autoexposure Operations.parse_nan_only
              Operations.mock_core Settings.dev_stack_settings
              Settings.gfp_channel_settings Settings.autoexposure_settings 10
              (Operations.mkMock 0 0 0 []))
    as [[[[flag cs] h]|e]|] eqn:Hrun.
  - exact (autoexposure_flag_true _ _ _ _ _ _ _ _ _ _ Hrun).
  - vm_compute in Hrun. discriminate Hrun.
  - vm_compute in Hrun. discriminate Hrun.
Defined.

(** ** When the autoexposure loop ends *)

Section AutoexposureTermination.
Import Py Settings Numpy Exposure Operations Bench.
Local Open Scope Q_scope.

Variable parse : string -> option pyfloat.
Variable stack_settings : StackSettings.
Variable s : AutoexposureSettings.
Variable frame : image.

Lemma steady_move_absolute p z :
  move_z parse (steady_core frame) (stage_label stack_settings)
    (PyFloat (Fin p)) (Some "absolute"%string) z = Ok (p, p).
Proof. reflexivity. Qed.

(** One turn of the loop on a frame that is not over-exposed. *)
Lemma steady_loop_dark fuel z cs h :
  slice_is_overexposed frame s = false ->
  autoexposure_loop parse (steady_core frame) stack_settings s (S fuel) z cs h
  = if Qle_bool z (relative_top stack_settings)
    then autoexposure_loop parse (steady_core frame) stack_settings s fuel
           (z + step_size stack_settings) cs (z + step_size stack_settings)
    else Some (Ok (cs, h)).
Proof.
  intro Hdark. simpl.
  destruct (Qle_bool z (relative_top stack_settings)); [|reflexivity].
  rewrite (check_not_overexposed s _ _ _ Hdark). reflexivity.
Qed.

(** One turn of the loop on an over-exposed frame: the sweep starts again
    from the absolute position [relative_bottom]. *)
Lemma steady_loop_bright fuel z cs h :
  slice_is_overexposed frame s = true ->
  Qle_bool z (relative_top stack_settings) = true ->
  exists cs',
    autoexposure_loop parse (steady_core frame) stack_settings s (S fuel) z cs h
    = autoexposure_loop parse (steady_core frame) stack_settings s fuel
        (relative_bottom stack_settings) cs' (relative_bottom stack_settings).
Proof.
  intros Hbright Hz. simpl. rewrite Hz.
  unfold check_slice_for_overexposure. rewrite Hbright. cbv zeta.
  destruct (Qltb _ _); eexists; reflexivity.
Qed.

(** X3: With a stage that goes where it is sent, a camera whose frames are
    all over-exposed and a stack whose bottom is not above its top,
    [autoexposure] never returns: whatever the number of turns allowed,
    the loop is still running, each turn lowering the exposure time or the
    laser power and going back to the bottom. *)
Theorem autoexposure_never_returns_when_always_overexposed
    (cs : ChannelSettings) (z0 : Q) (fuel : nat) :
  slice_is_overexposed frame s = true ->
  relative_bottom stack_settings <= relative_top stack_settings ->
  z0 + relative_bottom stack_settings <= relative_top stack_settings ->
  autoexposure parse (steady_core frame) stack_settings cs s fuel z0 = None.
Proof.
  intros Hbright Hstack Hstart.
  assert (Hloop : forall fuel z cs h,
            z <= relative_top stack_settings ->
            autoexposure_loop parse (steady_core frame) stack_settings s
              fuel z cs h = None).
  { clear fuel cs Hstart. induction fuel as [|fuel IH]; intros z cs h Hz.
    - simpl. apply Qle_bool_iff in Hz. now rewrite Hz.
    - apply Qle_bool_iff in Hz.
      destruct (steady_loop_bright fuel z cs h Hbright Hz) as [cs' ->].
      now apply IH. }
  unfold autoexposure. simpl. now rewrite Hloop.
Qed.

(** X4: With the same stage, frames that are never over-exposed and a step
    that is not positive, [autoexposure] never returns either: the stage
    never gets above the top of the stack. *)
Theorem autoexposure_never_returns_without_upward_step
    (cs : ChannelSettings) (z0 : Q) (fuel : nat) :
  slice_is_overexposed frame s = false ->
  step_size stack_settings <= 0 ->
  z0 + relative_bottom stack_settings <= relative_top stack_settings ->
  autoexposure parse (steady_core frame) stack_settings cs s fuel z0 = None.
Proof.
  intros Hdark Hstep Hstart.
  assert (Hloop : forall fuel z h,
            z <= relative_top stack_settings ->
            autoexposure_loop parse (steady_core frame) stack_settings s
              fuel z cs h = None).
  { clear fuel Hstart. induction fuel as [|fuel IH]; intros z h Hz.
    - simpl. apply Qle_bool_iff in Hz. now rewrite Hz.
    - rewrite steady_loop_dark by exact Hdark.
      assert (Hz' := Hz). apply Qle_bool_iff in Hz'. rewrite Hz'.
      apply IH. lra. }
  unfold autoexposure. simpl. now rewrite Hloop.
Qed.



End AutoexposureTermination.

Lemma autoexposure_never_returns_when_always_overexposed_witness :
  Operations.autoexposure Operations.parse_nan_only
    (Bench.steady_core Exposure.bright_snap) Settings.dev_stack_settings
    Settings.gfp_channel_settings Settings.autoexposure_settings 1000 0%Q
  = None.
Proof.
  apply (autoexposure_never_returns_when_always_overexposed
           Operations.parse_nan_only Settings.dev_stack_settings
           Settings.autoexposure_settings Exposure.bright_snap
           Settings.gfp_channel_settings 0%Q 1000%nat).
  - vm_compute. reflexivity.
  - vm_compute. intro H. discriminate H.
  - vm_compute. intro H. discriminate H.
Defined.

Lemma autoexposure_never_returns_without_upward_step_witness :
  Operations.autoexposure Operations.parse_nan_only
    (Bench.steady_core Exposure.dark_snap)
    (Settings.mkStackSettings "PiezoZ" 16 (-10) 0)
    Settings.gfp_channel_settings Settings.autoexposure_settings 1000 0%Q
  = None.
Proof.
  apply (autoexposure_never_returns_without_upward_step
           Operations.parse_nan_only
           (Settings.mkStackSettings "PiezoZ" 16 (-10) 0)
           Settings.autoexposure_settings Exposure.dark_snap
           Settings.gfp_channel_settings 0%Q 1000%nat).
  - vm_compute. reflexivity.
  - vm_compute. intro H. discriminate H.
  - vm_compute. intro H. discriminate H.
Defined.


(** ** Well and site labels *)

Section LabelFacts.
Import Py Utils SiteLabels.
Local Open Scope Z_scope.

Lemma is_digit_value c :
  is_digit c = true -> 0 <= Z.of_nat (nat_of_ascii c) - 48 <= 9.
Proof.
  unfold is_digit. rewrite andb_true_iff, !Nat.leb_le. lia.
Qed.

Lemma is_row_letter_index c :
  is_row_letter c = true -> 0 <= row_index c <= 7.
Proof.
  unfold is_row_letter, row_index. rewrite andb_true_iff, !Nat.leb_le. lia.
Qed.

Lemma digit_char_is_digit d :
  (d < 10)%nat ->
  is_digit (digit_char d) = true
  /\ Z.of_nat (nat_of_ascii (digit_char d)) - 48 = Z.of_nat d.
Proof.
  intro Hd. unfold is_digit, digit_char.
  rewrite nat_ascii_embedding by lia.
  rewrite andb_true_iff, !Nat.leb_le. lia.
Qed.

Lemma int_of_digits_app a s1 s2 :
  int_of_digits a (s1 ++ s2) = int_of_digits (int_of_digits a s1) s2.
Proof.
  revert a. induction s1 as [|c s1 IH]; intro a; simpl; [reflexivity|].
  apply IH.
Qed.

Lemma int_of_digits_nonneg s :
  forall a, 0 <= a -> all_digits s = true -> 0 <= int_of_digits a s.
Proof.
  induction s as [|c s IH]; intros a Ha Hs;
    cbn [int_of_digits all_digits] in *; [exact Ha|].
  apply andb_true_iff in Hs. destruct Hs as [Hc Hs].
  apply IH; [|exact Hs]. apply is_digit_value in Hc. lia.
Qed.

Lemma all_digits_app s1 s2 :
  all_digits (s1 ++ s2) = all_digits s1 && all_digits s2.
Proof.
  induction s1 as [|c s1 IH]; simpl; [reflexivity|].
  now rewrite IH, andb_assoc.
Qed.

Lemma decimal_digits_spec fuel :
  forall n, (n < fuel)%nat ->
    int_of_digits 0 (decimal_digits fuel n) = Z.of_nat n
    /\ all_digits (decimal_digits fuel n) = true
    /\ decimal_digits fuel n <> ""%string.
Proof.
  induction fuel as [|fuel IH]; intros n Hn; [lia|].
  cbn [decimal_digits]. destruct (Nat.ltb_spec n 10) as [Hsmall | Hbig].
  - destruct (digit_char_is_digit n Hsmall) as [Hd Hv].
    cbn [int_of_digits all_digits]. rewrite Hd, Hv.
    split; [lia|]. split; [reflexivity | discriminate].
  - assert (Hdiv : (n / 10 < fuel)%nat).
    { apply Nat.Div0.div_lt_upper_bound. lia. }
    destruct (IH (n / 10)%nat Hdiv) as (Hval & Hall & Hne).
    assert (Hmod : (n mod 10 < 10)%nat) by (apply Nat.mod_upper_bound; lia).
    destruct (digit_char_is_digit (n mod 10) Hmod) as [Hd Hv].
    rewrite int_of_digits_app, Hval, all_digits_app, Hall.
    cbn [int_of_digits all_digits andb]. rewrite Hd, Hv.
    split; [|split].
    + assert (E := Nat.div_mod_eq n 10). lia.
    + reflexivity.
    + destruct (decimal_digits fuel (n / 10)); [contradiction | discriminate].
Qed.

(** [int(str(n)) == n]: the digits written for a number read back as
    that number. *)
Lemma int_of_str_of_nat n : int_of_digits 0 (str_of_nat n) = Z.of_nat n.
Proof.
  apply decimal_digits_spec. lia.
Qed.

Lemma take_digits_all s :
  all_digits s = true -> take_digits s = (s, ""%string).
Proof.
  induction s as [|c s IH]; simpl; [reflexivity|].
  rewrite andb_true_iff. intros [Hc Hs]. now rewrite Hc, IH.
Qed.

Lemma take_digits_digits s :
  all_digits (fst (take_digits s)) = true.
Proof.
  induction s as [|c s IH]; simpl; [reflexivity|].
  destruct (is_digit c) eqn:Hc; [|reflexivity].
  destruct (take_digits s) as [digits rest]. simpl in *. now rewrite Hc.
Qed.

Lemma match_site_digits well_id t :
  all_digits t = true -> t <> ""%string ->
  match_site well_id ("-Site_" ++ t) = [(well_id, t)].
Proof.
  intros Hall Hne. unfold match_site. simpl.
  rewrite take_digits_all by exact Hall.
  destruct t; [contradiction | reflexivity].
Qed.

Lemma parse_site_label_on_plate r c t :
  (r < 8)%nat -> (c < 12)%nat ->
  all_digits t = true -> t <> ""%string ->
  parse_hcs_site_label (position_to_well_id r c ++ "-Site_" ++ t)
  = Ok (position_to_well_id r c, int_of_digits 0 t).
Proof.
  intros Hr Hc Hall Hne.
  assert (Hsite := fun w => match_site_digits w t Hall Hne).
  do 8 (destruct r as [|r];
        [do 12 (destruct c as [|c];
                [unfold parse_hcs_site_label, findall_site_label,
                   position_to_well_id, column_digits;
                 cbn -[match_site];
                 change (String "-" (String "S" (String "i" (String "t"
                           (String "e" (String "_" t))))))
                   with ("-Site_" ++ t)%string;
                 rewrite ?Hsite; reflexivity|]); lia|]).
  lia.
Qed.

(** X11: Round trip of the site labels: the label written for site [n] of a
    well of the plate parses back to the well id and to [n]. *)
Theorem parse_hcs_site_label_round_trip r c n :
  (r < 8)%nat -> (c < 12)%nat ->
  parse_hcs_site_label (site_label (position_to_well_id r c) n)
  = Ok (position_to_well_id r c, Z.of_nat n).
Proof.
  intros Hr Hc. unfold site_label, str_of_nat.
  destruct (decimal_digits_spec (S n) n (Nat.lt_succ_diag_r n))
    as (Hval & Hall & Hne).
  rewrite parse_site_label_on_plate by assumption.
  now rewrite Hval.
Qed.

End LabelFacts.

Section LabelRanges.
Import Py Utils SiteLabels.
Local Open Scope Z_scope.

(** The groups that the pattern of [well_id_to_position] can capture: a
    row letter with one digit or with two. *)
Lemma findall_well_id_cases s :
  findall_well_id s = []
  \/ exists r digits,
       findall_well_id s = [(r, digits)]
       /\ is_row_letter r = true
       /\ ((exists d, digits = String d "" /\ is_digit d = true)
           \/ exists d1 d2,
                digits = String d1 (String d2 "")
                /\ is_digit d1 = true /\ is_digit d2 = true).
Proof.
  unfold findall_well_id.
  destruct s as [|r rest]; [now left|].
  destruct (is_row_letter r) eqn:Hr; [|now left].
  destruct rest as [|d1 [|d2 tail]]; [now left | |].
  - destruct (is_digit d1) eqn:H1; [|now left].
    right. exists r, (String d1 ""). repeat split; try assumption.
    left. now exists d1.
  - destruct (is_digit d1) eqn:H1; [|now left]. cbn [andb].
    destruct (is_digit d2) eqn:H2; cbn [andb].
    + destruct (at_end tail).
      * right. exists r, (String d1 (String d2 "")).
        repeat split; try assumption. right. now exists d1, d2.
      * destruct (at_end (String d2 tail)); [|now left].
        right. exists r, (String d1 ""). repeat split; try assumption.
        left. now exists d1.
    + destruct (at_end (String d2 tail)); [|now left].
      right. exists r, (String d1 ""). repeat split; try assumption.
      left. now exists d1.
Qed.

(** X8: Whatever label [well_id_to_position] accepts, the row it returns is
    from 0 to 7 and the column from -1 to 98: the column is -1 for the
    column number 0, which the pattern lets through. *)
Theorem well_id_to_position_range s row col :
  well_id_to_position s = Ok (row, col) ->
  0 <= row <= 7 /\ -1 <= col <= 98.
Proof.
  unfold well_id_to_position.
  destruct (findall_well_id_cases s) as [-> | (r & digits & -> & Hr & Hd)];
    [discriminate|].
  intro H. injection H as <- <-.
  split; [now apply is_row_letter_index|].
  destruct Hd as [(d & -> & H1) | (d1 & d2 & -> & H1 & H2)];
    cbn [int_of_digits].
  - apply is_digit_value in H1. lia.
  - apply is_digit_value in H1. apply is_digit_value in H2. lia.
Qed.

(** X9: [well_id_to_position] returns a position exactly for the labels
    made of a row letter from A to H followed by one or two digits,
    possibly with one newline at the end, which [$] lets through; on
    every other label it raises. *)
Theorem well_id_to_position_accepts s :
  (exists p, well_id_to_position s = Ok p) <->
  exists r d1,
    is_row_letter r = true /\ is_digit d1 = true
    /\ (s = String r (String d1 "")
        \/ s = String r (String d1 (String "010" ""))
        \/ exists d2,
             is_digit d2 = true
             /\ (s = String r (String d1 (String d2 ""))
                 \/ s = String r (String d1 (String d2 (String "010" ""))))).
Proof.
  split.
  - intros [p Hp]. unfold well_id_to_position, findall_well_id in Hp.
    destruct s as [|r rest]; [discriminate|].
    destruct (is_row_letter r) eqn:Hr; [|discriminate].
    destruct rest as [|d1 [|d2 tail]]; [discriminate | |].
    + destruct (is_digit d1) eqn:H1; [|discriminate].
      exists r, d1. repeat split; try assumption. now left.
    + destruct (is_digit d1) eqn:H1; [|discriminate]. simpl in Hp.
      exists r, d1. split; [exact Hr|]. split; [exact H1|].
      destruct (is_digit d2) eqn:H2; simpl in Hp.
      * right. right. exists d2. split; [exact H2|].
        destruct tail as [|nl [|x tail']].
        -- now left.
        -- simpl in Hp.
           destruct (Nat.eqb_spec (nat_of_ascii nl) 10) as [E|E];
             [|discriminate].
           right. replace nl with "010"%char; [reflexivity|].
           rewrite <- (ascii_nat_embedding nl), E. reflexivity.
        -- simpl in Hp. discriminate.
      * right. left.
        destruct tail as [|x tail']; simpl in Hp; [|discriminate].
        destruct (Nat.eqb_spec (nat_of_ascii d2) 10) as [E|E];
          [|discriminate].
        replace d2 with "010"%char; [reflexivity|].
        rewrite <- (ascii_nat_embedding d2), E. reflexivity.
  - intros (r & d1 & Hr & H1 & Hs).
    unfold well_id_to_position, findall_well_id.
    destruct Hs as [-> | [-> | (d2 & H2 & [-> | ->])]];
      rewrite Hr, ?H1, ?H2; simpl; eexists; reflexivity.
Qed.

Lemma well_id_one_digit r d :
  is_row_letter r = true -> is_digit d = true ->
  well_id_to_position (String r (String d ""))
  = Ok (row_index r, Z.of_nat (nat_of_ascii d) - 48 - 1).
Proof.
  intros Hr Hd. unfold well_id_to_position, findall_well_id.
  rewrite Hr, Hd. reflexivity.
Qed.

Lemma well_id_two_digits r d1 d2 :
  is_row_letter r = true -> is_digit d1 = true -> is_digit d2 = true ->
  well_id_to_position (String r (String d1 (String d2 "")))
  = Ok (row_index r,
        10 * (Z.of_nat (nat_of_ascii d1) - 48)
        + (Z.of_nat (nat_of_ascii d2) - 48) - 1).
Proof.
  intros Hr H1 H2. unfold well_id_to_position, findall_well_id.
  rewrite Hr, H1, H2. simpl andb. cbv iota.
  cbn [int_of_digits]. reflexivity.
Qed.

(** X10: The mapping is not one-to-one on the labels it accepts: a leading
    zero and a newline at the end are both ignored, so that 'A01' and
    'A1' followed by a newline are the well 'A1'. *)
Theorem well_id_to_position_ignores_zero_and_newline r d :
  is_row_letter r = true -> is_digit d = true ->
  well_id_to_position (String r (String "0" (String d "")))
  = well_id_to_position (String r (String d ""))
  /\ well_id_to_position (String r (String d (String "010" "")))
     = well_id_to_position (String r (String d "")).
Proof.
  intros Hr Hd. split.
  - rewrite well_id_two_digits, well_id_one_digit by (assumption || reflexivity).
    reflexivity.
  - rewrite well_id_one_digit by assumption.
    unfold well_id_to_position, findall_well_id. rewrite Hr, Hd. reflexivity.
Qed.

Lemma match_site_cases w after :
  match_site w after = []
  \/ exists digits,
       match_site w after = [(w, digits)] /\ all_digits digits = true.
Proof.
  unfold match_site.
  destruct (strip_prefix "-Site_" after) as [tail|]; [|now left].
  assert (Hd := take_digits_digits tail).
  destruct (take_digits tail) as [digits rest]. simpl in Hd.
  destruct digits as [|c digits]; [now left|].
  destruct (at_end rest); [|now left].
  right. now exists (String c digits).
Qed.

(** X12: A label that [parse_hcs_site_label] accepts gives a well id that
    [well_id_to_position] accepts too, with a row from 0 to 7 and a
    column from -1 to 98, and a site number that is not negative. *)
Theorem parse_hcs_site_label_gives_valid_well_id label well_id site_num :
  parse_hcs_site_label label = Ok (well_id, site_num) ->
  0 <= site_num
  /\ exists row col,
       well_id_to_position well_id = Ok (row, col)
       /\ 0 <= row <= 7 /\ -1 <= col <= 98.
Proof.
  unfold parse_hcs_site_label, findall_site_label.
  destruct label as [|r [|d1 rest]]; try discriminate.
  destruct (is_row_letter r) eqn:Hr; [|discriminate].
  destruct (is_digit d1) eqn:H1; [|discriminate].
  cbn [andb].
  assert (Hone : forall after,
            match match_site (String r (String d1 "")) after with
            | [] => Raise (mkExn IndexError "list index out of range")
            | (w, n) :: _ => Ok (w, int_of_digits 0 n)
            end = Ok (well_id, site_num) ->
            0 <= site_num
            /\ exists row col,
                 well_id_to_position well_id = Ok (row, col)
                 /\ 0 <= row <= 7 /\ -1 <= col <= 98).
  { intros after H.
    destruct (match_site_cases (String r (String d1 "")) after)
      as [E | (digits & E & Hall)]; rewrite E in H; [discriminate|].
    injection H as <- <-.
    split; [now apply int_of_digits_nonneg|].
    eexists. eexists. split; [now apply well_id_one_digit|].
    split; [now apply is_row_letter_index|].
    apply is_digit_value in H1. lia. }
  destruct rest as [|d2 rest']; [apply Hone|].
  destruct (is_digit d2) eqn:H2; [|apply Hone].
  destruct (match_site_cases (String r (String d1 (String d2 ""))) rest')
    as [E | (digits & E & Hall)]; rewrite E; [apply Hone|].
  intro H. injection H as <- <-.
  split; [now apply int_of_digits_nonneg|].
  eexists. eexists. split; [now apply well_id_two_digits|].
  split; [now apply is_row_letter_index|].
  apply is_digit_value in H1. apply is_digit_value in H2. lia.
Qed.

End LabelRanges.

(** ** The least-squares interpolator *)

Section LeastSquaresFacts.
Import Py LeastSquares.
Local Open Scope Q_scope.

Variables p0 p1 p2 : Q.
Variables x y : list Q.

(** The only exception of the interpolator. *)
Let out_of_bounds : exn := mkExn IndexError "index is out of bounds".

Let plane (row_ind col_ind : nat) : Q :=
  nth col_ind x 0 * p0 + nth row_ind y 0 * p1 + p2.

Lemma item_in_bounds (l : list Q) i :
  (i < length l)%nat -> item l i = Ok (nth i l 0).
Proof.
  intro H. unfold item. now rewrite (nth_error_nth' l 0 H).
Qed.

Lemma item_out_of_bounds (l : list Q) i :
  (length l <= i)%nat -> item l i = Raise out_of_bounds.
Proof.
  intro H. unfold item.
  now rewrite (proj2 (nth_error_None l i) H).
Qed.

Lemma fill_row_in_bounds row_ind cols :
  (row_ind < length y)%nat ->
  Forall (fun c => (c < length x)%nat) cols ->
  fill_row p0 p1 p2 x y row_ind cols = Ok (map (plane row_ind) cols).
Proof.
  intros Hrow Hcols. induction Hcols as [|c cols Hc Hcols IH];
    [reflexivity|].
  simpl. rewrite (item_in_bounds x c Hc), (item_in_bounds y row_ind Hrow).
  simpl. rewrite IH. reflexivity.
Qed.

Lemma fill_row_raises row_ind cols :
  cols <> [] ->
  (length y <= row_ind)%nat \/ Exists (fun c => (length x <= c)%nat) cols ->
  fill_row p0 p1 p2 x y row_ind cols = Raise out_of_bounds.
Proof.
  intros Hne Hbad. induction cols as [|c cols IH]; [contradiction|].
  simpl.
  destruct (Nat.lt_ge_cases c (length x)) as [Hc | Hc];
    [|now rewrite (item_out_of_bounds x c Hc)].
  rewrite (item_in_bounds x c Hc). simpl.
  destruct (Nat.lt_ge_cases row_ind (length y)) as [Hr | Hr];
    [|now rewrite (item_out_of_bounds y row_ind Hr)].
  rewrite (item_in_bounds y row_ind Hr). simpl.
  rewrite IH; [reflexivity | |].
  - destruct Hbad as [Hbad | Hbad]; [lia|].
    inversion Hbad as [? ? Hhead | ? ? Htail]; subst; [lia|].
    intros ->. inversion Htail.
  - destruct Hbad as [Hbad | Hbad]; [lia|].
    inversion Hbad as [? ? Hhead | ? ? Htail]; subst; [lia|].
    now right.
Qed.

Lemma fill_row_ok_or_out_of_bounds row_ind cols :
  (exists r, fill_row p0 p1 p2 x y row_ind cols = Ok r)
  \/ fill_row p0 p1 p2 x y row_ind cols = Raise out_of_bounds.
Proof.
  induction cols as [|c cols IH]; [left; now exists []|].
  simpl. unfold item.
  destruct (nth_error x c); [|now right]. simpl.
  destruct (nth_error y row_ind); [|now right]. simpl.
  destruct IH as [[r ->] | ->]; [left; eexists; reflexivity | now right].
Qed.

Lemma fill_rows_in_bounds rows cols :
  Forall (fun r => (r < length y)%nat) rows ->
  Forall (fun c => (c < length x)%nat) cols ->
  fill_rows p0 p1 p2 x y rows cols
  = Ok (map (fun r => map (plane r) cols) rows).
Proof.
  intros Hrows Hcols. induction Hrows as [|r rows Hr Hrows IH];
    [reflexivity|].
  simpl. rewrite (fill_row_in_bounds r cols Hr Hcols). simpl.
  rewrite IH. reflexivity.
Qed.

Lemma fill_rows_raises rows cols :
  Exists (fun r => fill_row p0 p1 p2 x y r cols = Raise out_of_bounds) rows ->
  fill_rows p0 p1 p2 x y rows cols = Raise out_of_bounds.
Proof.
  intro H. induction H as [r rows Hr | r rows Hrows IH]; simpl.
  - now rewrite Hr.
  - destruct (fill_row_ok_or_out_of_bounds r cols) as [[row ->] | ->];
      [|reflexivity].
    simpl. now rewrite IH.
Qed.

Lemma seq_below n : Forall (fun i => (i < n)%nat) (seq 0 n).
Proof.
  apply Forall_forall. intros i Hi. apply in_seq in Hi. lia.
Qed.

Lemma nth_map_seq {A : Type} (f : nat -> A) n i d :
  (i < n)%nat -> nth i (map f (seq 0 n)) d = f i.
Proof.
  intro Hi.
  rewrite (nth_indep _ d (f 0%nat)) by now rewrite length_map, length_seq.
  rewrite map_nth, seq_nth by exact Hi. reflexivity.
Qed.

(** X13: For [x] and [y] of the same length the interpolator returns a square
    array, as many rows as [x] is long and each row as long, whose entry
    in row [i] and column [j] is the fitted plane at [x[j]] and [y[i]]. *)
Theorem least_squares_interpolator_on_equal_lengths :
  length x = length y ->
  exists Z,
    interpolator (p0, p1, p2) x y = Ok Z
    /\ length Z = length x
    /\ (forall i, (i < length x)%nat -> length (nth i Z []) = length x)
    /\ forall i j,
         (i < length x)%nat -> (j < length x)%nat ->
         nth j (nth i Z []) 0
         = nth j x 0 * p0 + nth i y 0 * p1 + p2.
Proof.
  intro Hlen. unfold interpolator.
  rewrite fill_rows_in_bounds.
  - eexists. split; [reflexivity|]. split; [|split].
    + now rewrite length_map, length_seq.
    + intros i Hi. rewrite nth_map_seq by exact Hi.
      now rewrite length_map, length_seq.
    + intros i j Hi Hj.
      rewrite nth_map_seq by exact Hi.
      rewrite nth_map_seq by lia. reflexivity.
  - rewrite Hlen. apply seq_below.
  - rewrite <- Hlen. apply seq_below.
Qed.

(** X14: For [x] and [y] of different lengths, neither of them empty, the
    interpolator raises an IndexError: the rows are counted along [x] and
    read from [y], the columns counted along [y] and read from [x]. *)
Theorem least_squares_interpolator_on_unequal_lengths :
  (0 < length x)%nat -> (0 < length y)%nat -> length x <> length y ->
  interpolator (p0, p1, p2) x y = Raise out_of_bounds.
Proof.
  intros Hx Hy Hne. unfold interpolator.
  assert (Hcols : seq 0 (length y) <> []).
  { destruct (length y); [lia | discriminate]. }
  apply fill_rows_raises. apply Exists_exists.
  destruct (Nat.lt_ge_cases (length x) (length y)) as [Hlt | Hge].
  - exists 0%nat. split; [apply in_seq; lia|].
    apply fill_row_raises; [exact Hcols|]. right.
    apply Exists_exists. exists (length x). split; [apply in_seq; lia | lia].
  - exists (length y). split; [apply in_seq; lia|].
    apply fill_row_raises; [exact Hcols|]. left. lia.
Qed.

End LeastSquaresFacts.

Lemma least_squares_interpolator_on_equal_lengths_witness :
  exists Z,
    LeastSquares.interpolator (2, 3, 5)%Q [1; 4]%Q [0; 1]%Q = Py.Ok Z
    /\ length Z = 2%nat
    /\ (forall i, (i < 2)%nat -> length (nth i Z []) = 2%nat)
    /\ forall i j,
         (i < 2)%nat -> (j < 2)%nat ->
         nth j (nth i Z []) 0%Q
         = (nth j [1; 4] 0 * 2 + nth i [0; 1] 0 * 3 + 5)%Q.
Proof.
  apply (least_squares_interpolator_on_equal_lengths 2 3 5 [1; 4]%Q [0; 1]%Q).
  reflexivity.
Defined.

Lemma least_squares_interpolator_on_unequal_lengths_witness :
  LeastSquares.interpolator (2, 3, 5)%Q [1; 4]%Q [0; 1; 2]%Q
  = Py.Raise (Py.mkExn Py.IndexError "index is out of bounds").
Proof.
  apply (least_squares_interpolator_on_unequal_lengths 2 3 5
           [1; 4]%Q [0; 1; 2]%Q); simpl; (lia || discriminate).
Defined.

(** ** The visitation manager *)

Section VisitationFacts.
Import Visitation.

Lemma pop_rev {A : Type} (l : list A) :
  pop (rev l) = match l with
                | [] => None
                | x :: l' => Some (x, rev l')
                end.
Proof.
  unfold pop. rewrite rev_involutive. now destruct l.
Qed.

Lemma last_ind_spec well_id ps :
  forall start,
    ps <> [] ->
    let ind := last_ind well_id ps start in
    (start <= ind < start + length ps)%nat
    /\ (forall j,
          (start <= j < ind)%nat ->
          String.prefix well_id (LABEL (nth (j - start) ps (mkPosition "")))
          = false)
    /\ (String.prefix well_id (LABEL (nth (ind - start) ps (mkPosition "")))
        = true
        \/ ind = (start + length ps - 1)%nat).
Proof.
  induction ps as [|p rest IH]; intros start Hne; [contradiction|].
  cbn [last_ind].
  destruct (String.prefix well_id (LABEL p)) eqn:Hp.
  - cbv zeta. split; [simpl; lia|]. split; [intros j Hj; lia|].
    left. now rewrite Nat.sub_diag.
  - destruct rest as [|q rest'].
    + cbv zeta. split; [simpl; lia|]. split; [intros j Hj; lia|].
      right. simpl. lia.
    + destruct (IH (S start) ltac:(discriminate)) as (Hrange & Hbefore & Hat).
      cbv zeta. set (ind := last_ind well_id (q :: rest') (S start)) in *.
      split; [simpl length in *; lia|]. split.
      * intros j Hj. destruct (Nat.eq_dec j start) as [-> | Hj'].
        -- now rewrite Nat.sub_diag.
        -- replace (j - start)%nat with (S (j - S start)) by lia.
           apply Hbefore. lia.
      * replace (ind - start)%nat with (S (ind - S start)) by lia.
        destruct Hat as [Hat | Hat]; [now left | right].
        simpl length in *. lia.
Qed.

(** X15: [well_id_to_position_ind] on a list that is not empty never fails: it
    returns an index of the list before which no label starts with the
    well id, and which is the first label that does, or, when no label
    does, the last index of the list. *)
Theorem well_id_to_position_ind_first_or_last self well_id :
  position_list self <> [] ->
  exists ind,
    well_id_to_position_ind self well_id = Done ind
    /\ (ind < length (position_list self))%nat
    /\ (forall j, (j < ind)%nat ->
          String.prefix well_id
            (LABEL (nth j (position_list self) (mkPosition ""))) = false)
    /\ (String.prefix well_id
          (LABEL (nth ind (position_list self) (mkPosition ""))) = true
        \/ ind = (length (position_list self) - 1)%nat).
Proof.
  intro Hne. unfold well_id_to_position_ind.
  destruct (last_ind_spec well_id (position_list self) 0 Hne)
    as (Hrange & Hbefore & Hat).
  destruct (position_list self) as [|p rest] eqn:Hpl; [contradiction|].
  eexists. split; [reflexivity|].
  rewrite Nat.sub_0_r in Hat. split; [lia|]. split.
  - intros j Hj. specialize (Hbefore j ltac:(lia)).
    now rewrite Nat.sub_0_r in Hbefore.
  - destruct Hat as [Hat | Hat]; [now left | right]. lia.
Qed.

(** On an empty position list the loop variable is never bound. *)
Lemma well_id_to_position_ind_empty self well_id :
  position_list self = [] ->
  well_id_to_position_ind self well_id = Thrown (UnboundLocal "ind").
Proof.
  intro H. unfold well_id_to_position_ind. now rewrite H.
Qed.

Lemma prefix_app w1 w2 t :
  String.prefix w1 w2 = true -> String.prefix w1 (w2 ++ t) = true.
Proof.
  revert w2. induction w1 as [|a w1 IH]; intros w2 H.
  - now destruct (w2 ++ t)%string.
  - destruct w2 as [|b w2]; [discriminate|].
    simpl in *. destruct (ascii_dec a b); [|discriminate].
    now apply IH.
Qed.

(** X16: The test is [startswith]: a well id that begins another well id is
    found at the sites of the other well.  With the sites of 'A10' listed
    before those of 'A1', the well 'A1' is looked for at a site of
    'A10'. *)
Theorem well_id_to_position_ind_takes_longer_well_id
    self well_id other n rest :
  String.prefix well_id other = true ->
  position_list self = mkPosition (SiteLabels.site_label other n) :: rest ->
  well_id_to_position_ind self well_id = Done 0%nat.
Proof.
  intros Hprefix Hpl. unfold well_id_to_position_ind. rewrite Hpl.
  cbn [last_ind LABEL]. unfold SiteLabels.site_label.
  now rewrite (prefix_app _ _ _ Hprefix).
Qed.

Lemma visit_in_order_from {hw : Type} (b : Bridge hw) ws pl k :
  forall rest cur m h,
    pl <> [] ->
    (forall ind h, fst (go_to_position b ind h) = Done tt) ->
    (k <= length rest)%nat ->
    exists h',
      visit b k (mkManager ws pl (rev rest) cur m) h
      = (Done tt,
         (mkManager ws pl (rev (skipn k rest))
            (match k with
             | O => cur
             | S j => nth_error rest j
             end) m, h')).
Proof.
  induction k as [|k IH]; intros rest cur m h Hpl Hgo Hk.
  - exists h. reflexivity.
  - destruct rest as [|w rest]; [simpl in Hk; lia|].
    cbn [visit]. unfold go_to_next_well.
    cbn [unvisited_well_ids]. rewrite pop_rev.
    unfold well_id_to_position_ind. cbn [position_list].
    destruct pl as [|p pl']; [contradiction|].
    cbn [well_ids_to_visit measured_focusdrive_positions].
    set (ind := last_ind w (p :: pl') 0).
    assert (Hfst := Hgo ind h).
    destruct (go_to_position b ind h) as [r h1]. simpl in Hfst. subst r.
    destruct (IH rest (Some w) m h1 ltac:(discriminate) Hgo
                ltac:(simpl in Hk; lia)) as [h' Hrun].
    exists h'. rewrite Hrun. cbn [skipn].
    destruct k as [|j]; reflexivity.
Qed.

(** X17: The wells are visited in the order of [well_ids_to_visit]: when the
    stage never fails and the position list is not empty, [k] calls of
    [go_to_next_well] on a new manager all succeed, the current well is
    the [k]-th of the list, the wells after it remain to be visited, and
    the list given to the manager is untouched. *)
Theorem go_to_next_well_visits_in_order {hw : Type} (b : Bridge hw)
    ws pl k h :
  pl <> [] ->
  (forall ind h, fst (go_to_position b ind h) = Done tt) ->
  (k <= length ws)%nat ->
  exists h',
    visit b k (init ws pl) h
    = (Done tt,
       (mkManager ws pl (rev (skipn k ws))
          (match k with
           | O => None
           | S j => nth_error ws j
           end) [], h')).
Proof.
  intros Hpl Hgo Hk. unfold init.
  exact (visit_in_order_from b ws pl k ws None [] h Hpl Hgo Hk).
Qed.

(** X18: Once every well has been visited, one more call of
    [go_to_next_well] fails on the empty list, before anything is asked
    of the stage. *)
Theorem go_to_next_well_after_the_last_well {hw : Type} (b : Bridge hw)
    ws pl h :
  pl <> [] ->
  (forall ind h, fst (go_to_position b ind h) = Done tt) ->
  exists self' h',
    visit b (length ws) (init ws pl) h = (Done tt, (self', h'))
    /\ go_to_next_well b self' h' = (Thrown PopFromEmptyList, (self', h')).
Proof.
  intros Hpl Hgo. unfold init.
  destruct (visit_in_order_from b ws pl (length ws) ws None [] h Hpl Hgo
              (le_n _)) as [h' Hrun].
  eexists. exists h'. split; [exact Hrun|].
  unfold go_to_next_well. cbn [unvisited_well_ids].
  now rewrite skipn_all.
Qed.

(** X19: A well is taken off the list before the stage is moved: however the
    move ends, also when it fails twice, the well is the current one and
    is not visited again. *)
Theorem go_to_next_well_consumes_the_well {hw : Type} (b : Bridge hw)
    self h well_id rest :
  pop (unvisited_well_ids self) = Some (well_id, rest) ->
  let self' := fst (snd (go_to_next_well b self h)) in
  unvisited_well_ids self' = rest
  /\ current_well_id self' = Some well_id
  /\ well_ids_to_visit self' = well_ids_to_visit self.
Proof.
  intro Hpop. unfold go_to_next_well. rewrite Hpop.
  destruct (well_id_to_position_ind _ well_id) as [ind|e];
    [|now repeat split].
  destruct (go_to_position b ind h) as [[u|e] h1]; [now repeat split|].
  destruct e; try now repeat split.
  destruct (go_to_position b ind h1) as [r h2]. now repeat split.
Qed.

(** X20: The move is tried again once, and only after a Java error: with a
    stage that fails [failures] times before it moves, [go_to_next_well]
    succeeds exactly when [failures] is at most 1, and otherwise uses up
    two of the failures. *)
Theorem go_to_next_well_retries_once self failures reached well_id rest :
  pop (unvisited_well_ids self) = Some (well_id, rest) ->
  position_list self <> [] ->
  let run := go_to_next_well flaky_bridge self (failures, reached) in
  ((failures <= 1)%nat -> fst run = Done tt /\ fst (snd (snd run)) = 0%nat)
  /\ ((2 <= failures)%nat ->
      fst run = Thrown (Py4JJavaError "remote call failed")
      /\ snd (snd run) = ((failures - 2)%nat, reached)).
Proof.
  intros Hpop Hpl. unfold go_to_next_well. rewrite Hpop.
  unfold well_id_to_position_ind. cbn [position_list].
  destruct (position_list self) as [|p pl]; [contradiction|].
  destruct failures as [|[|n]]; simpl; split; intro H; try lia;
    try (split; reflexivity).
  split; [reflexivity|]. now rewrite Nat.sub_0_r.
Qed.

Lemma dict_get_set k v d :
  dict_get k (dict_set k v d) = Some v
  /\ forall k', k' <> k -> dict_get k' (dict_set k v d) = dict_get k' d.
Proof.
  induction d as [|[k0 v0] d [IH1 IH2]]; simpl.
  - rewrite String.eqb_refl. split; [reflexivity|].
    intros k' Hk'. apply String.eqb_neq in Hk'.
    now rewrite String.eqb_sym, Hk'.
  - destruct (String.eqb_spec k0 k) as [-> | Hk0]; simpl.
    + rewrite String.eqb_refl. split; [reflexivity|].
      intros k' Hk'. apply String.eqb_neq in Hk'.
      now rewrite String.eqb_sym, Hk'.
    + apply String.eqb_neq in Hk0. rewrite Hk0. split; [exact IH1|].
      intros k' Hk'. destruct (String.eqb k0 k'); [reflexivity|].
      now apply IH2.
Qed.

(** [call_afc] before any call of [go_to_next_well] fails on the missing
    attribute [current_well_id], before anything is asked of the
    hardware. *)
Lemma call_afc_before_first_well {hw : Type} (b : Bridge hw) ws pl h :
  call_afc b (init ws pl) h
  = (Thrown (MissingAttribute "current_well_id"), (init ws pl, h)).
Proof. reflexivity. Qed.

(** X21: [call_afc] records, for the current well, the position read after
    the autofocus, not the one read before; the entries of the other
    wells are kept, and an earlier entry of the same well is replaced. *)
Theorem call_afc_records_position_after {hw : Type} (b : Bridge hw)
    self h well_id pos_before h1 h2 pos_after h3 :
  current_well_id self = Some well_id ->
  getPosition b h = (Done pos_before, h1) ->
  fullFocus b h1 = (Done tt, h2) ->
  getPosition b h2 = (Done pos_after, h3) ->
  exists self',
    call_afc b self h = (Done tt, (self', h3))
    /\ dict_get well_id (measured_focusdrive_positions self') = Some pos_after
    /\ (forall k, k <> well_id ->
          dict_get k (measured_focusdrive_positions self')
          = dict_get k (measured_focusdrive_positions self))
    /\ unvisited_well_ids self' = unvisited_well_ids self.
Proof.
  intros Hcur Hbefore Hfocus Hafter. unfold call_afc.
  rewrite Hcur, Hbefore, Hfocus, Hafter.
  eexists. split; [reflexivity|]. cbn [measured_focusdrive_positions].
  destruct (dict_get_set well_id pos_after
              (measured_focusdrive_positions self)) as [Hget Hother].
  repeat split; assumption || reflexivity.
Qed.

(** A failure of the autofocus comes out of [call_afc] (it is not caught
    as in [operations.autofocus]) and nothing is recorded. *)
Theorem call_afc_propagates_focus_failure {hw : Type} (b : Bridge hw)
    self h well_id pos_before h1 e h2 :
  current_well_id self = Some well_id ->
  getPosition b h = (Done pos_before, h1) ->
  fullFocus b h1 = (Thrown e, h2) ->
  call_afc b self h = (Thrown e, (self, h2)).
Proof.
  intros Hcur Hbefore Hfocus. unfold call_afc.
  now rewrite Hcur, Hbefore, Hfocus.
Qed.

End VisitationFacts.

(** ** Saving and loading the training data *)

Section TrainingStore.
Import Py FOVClassifier Training.

Context {table text : Type}.
Variable codec : Codec table text.

Lemma append_cancel (s a b : string) :
  (s ++ a)%string = (s ++ b)%string -> a = b.
Proof.
  induction s as [|c s IH]; simpl; intro H; [exact H|].
  injection H as H. now apply IH.
Qed.

Lemma path_join_prefix directory :
  exists pre, forall name, path_join directory name = (pre ++ name)%string.
Proof.
  unfold path_join. destruct directory as [|c directory].
  - now exists ""%string.
  - destruct (ends_with_slash (String c directory)).
    + now exists (String c directory).
    + exists (String c directory ++ "/")%string. intro name.
      simpl. f_equal.
      induction directory as [|c' directory IH]; simpl; [reflexivity|].
      now rewrite IH.
Qed.

Lemma filepaths_differ (self : store table) :
  training_data_filepath self <> validation_results_filepath self.
Proof.
  unfold training_data_filepath, validation_results_filepath.
  destruct (path_join_prefix (cache_dir self)) as [pre Hpre].
  rewrite !Hpre. intro H. apply append_cancel in H. discriminate H.
Qed.

(** What [save] leaves on the disk when it succeeds. *)
Lemma save_writes overwrite (self : store table) (d : disk text) data v :
  Training.mode self = Training ->
  current_validation_results self = Some (Some v) ->
  training_data self = Some data ->
  isfile d (training_data_filepath self) && negb overwrite = false ->
  save codec overwrite self d
  = (Ok tt,
     write (write d (training_data_filepath self) (to_csv codec data))
       (validation_results_filepath self) (json_dump codec v)).
Proof.
  intros Hmode Hres Hdata Hfree. unfold save.
  now rewrite Hmode, Hres, Hfree, Hdata.
Qed.

(** X27: Saving twice: after a first [save] that succeeded, a second [save]
    without [overwrite] is refused with a ValueError and leaves the disk
    as it is; with [overwrite] it succeeds. *)
Theorem save_refuses_to_overwrite (self : store table) (d : disk text) :
  fst (save codec false self d) = Ok tt ->
  let d1 := snd (save codec false self d) in
  save codec false self d1
  = (Raise (mkExn ValueError
              ("Training data already saved to " ++ cache_dir self)), d1)
  /\ fst (save codec true self d1) = Ok tt.
Proof.
  unfold save.
  destruct (Training.mode self); [|discriminate].
  destruct (current_validation_results self) as [[v|]|]; try discriminate.
  destruct (isfile d (training_data_filepath self) && negb false);
    [discriminate|].
  destruct (training_data self) as [data|]; [|discriminate].
  intros _. cbn [snd fst].
  assert (Hthere :
    isfile
      (write (write d (training_data_filepath self) (to_csv codec data))
         (validation_results_filepath self) (json_dump codec v))
      (training_data_filepath self) = true).
  { unfold isfile, write.
    destruct (String.eqb _ (validation_results_filepath self));
      [reflexivity|].
    now rewrite String.eqb_refl. }
  rewrite Hthere. split; reflexivity.
Qed.

(** X28: Round trip: what a classifier in training mode has saved, a
    classifier with the same cache directory, in either mode, loads back,
    provided the two file formats read back what they write.  The load
    leaves the current validation results empty. *)
Theorem load_reads_what_save_wrote
    (self other : store table) (d : disk text) overwrite data v :
  (forall t, read_csv codec (to_csv codec t) = Ok t) ->
  (forall r, json_load codec (json_dump codec r) = Ok r) ->
  training_data self = Some data ->
  current_validation_results self = Some (Some v) ->
  cache_dir other = cache_dir self ->
  fst (save codec overwrite self d) = Ok tt ->
  let d1 := snd (save codec overwrite self d) in
  load codec other d1
  = (Ok tt,
     mkStore (Training.mode other) (cache_dir other) (Some data) (Some None)
       (Some v)).
Proof.
  intros Hcsv Hjson Hdata Hres Hdir Hsaved. cbv zeta.
  unfold save in *.
  destruct (Training.mode self); [|discriminate].
  rewrite Hres in *.
  destruct (isfile d (training_data_filepath self) && negb overwrite);
    [discriminate|].
  rewrite Hdata in *. cbn [snd].
  unfold load, training_data_filepath, validation_results_filepath.
  cbn [cache_dir Training.mode training_data current_validation_results
       cached_validation_results].
  rewrite Hdir.
  fold (training_data_filepath self). fold (validation_results_filepath self).
  unfold write at 1.
  destruct (String.eqb_spec (training_data_filepath self)
              (validation_results_filepath self)) as [E|_];
    [exfalso; exact (filepaths_differ self E)|].
  unfold write at 1. rewrite String.eqb_refl, Hcsv.
  unfold write at 1. rewrite String.eqb_refl, Hjson.
  reflexivity.
Qed.

(** X29: After a [load], a [save] is refused until the classifier is trained
    again: the load has emptied the current validation results, whatever
    they were and whatever [overwrite] says. *)
Theorem save_after_load_is_refused
    (self : store table) (d d' : disk text) overwrite :
  Training.mode self = Training ->
  fst (load codec self d) = Ok tt ->
  save codec overwrite (snd (load codec self d)) d'
  = (Raise (mkExn ValueError
       "Cannot save training data without current validation results"), d').
Proof.
  intros Hmode. unfold load.
  cbn [cache_dir Training.mode training_data current_validation_results
       cached_validation_results].
  destruct (d _) as [csv|]; [|discriminate].
  destruct (read_csv codec csv) as [data|e]; [|discriminate].
  cbn [cache_dir Training.mode training_data current_validation_results
       cached_validation_results].
  destruct (d _) as [json|]; [|discriminate].
  destruct (json_load codec json) as [content|e]; [|discriminate].
  intros _. cbn [snd]. unfold save.
  cbn [cache_dir Training.mode training_data current_validation_results
       cached_validation_results].
  now rewrite Hmode.
Qed.

(** X30: A classifier that has neither been trained nor loaded cannot be
    saved: in prediction mode [save] raises its ValueError, in training
    mode it fails on the attribute [current_validation_results], which
    [__init__] does not create.  The disk is never touched. *)
Theorem save_of_new_classifier_fails
    (directory : string) (mode_name : option string) (self : store table)
    (d : disk text) overwrite :
  init directory mode_name = Ok self ->
  exists e,
    save codec overwrite self d = (Raise e, d)
    /\ (Training.mode self = Prediction -> exn_kind e = ValueError)
    /\ (Training.mode self = Training -> exn_kind e = AttributeError).
Proof.
  unfold init.
  destruct mode_name as [name|]; [|discriminate].
  destruct (String.eqb_spec name "training") as [-> | Hn1].
  - intro H. injection H as <-. eexists. split; [reflexivity|].
    split; [discriminate | reflexivity].
  - destruct (String.eqb_spec name "prediction") as [-> | Hn2].
    + intro H. injection H as <-. eexists. split; [reflexivity|].
      split; [reflexivity | discriminate].
    + intro H. exfalso.
      destruct name as [|c1 name]; [discriminate|].
      revert H Hn1 Hn2.
      repeat (match goal with
              | |- context [match ?x with _ => _ end] =>
                  destruct x; try discriminate
              end);
        intros; congruence.
Qed.

End TrainingStore.

(** ** Decisions and validation in the classifier *)

Section DecisionFacts.
Import Py FOVClassifier.

(** X26: The first decision is final: once [make_decision] has been called,
    a later call changes nothing, whatever it is called with. *)
Theorem make_decision_first_wins
    decision reason error_info decision' reason' error_info' self :
  let decided := snd (make_decision decision reason error_info self) in
  make_decision decision' reason' error_info' decided = (Ok tt, decided).
Proof.
  cbv zeta. unfold make_decision.
  destruct self as [m dir err made flag info trace].
  cbn [error_has_occured decision_has_been_made].
  destruct err, made; cbn; reflexivity.
Qed.

(** [validate_raw_fov] never raises, accepts exactly the frames that
    are arrays of type uint16 with the shape (1024, 1024), and gives a
    message exactly when it refuses. *)
Theorem validate_raw_fov_accepts_full_frames self image :
  exists flag message,
    validate_raw_fov_body self image = Ok (flag, message)
    /\ (flag = true <->
        exists pixels, image = Ndarray "uint16" [1024; 1024]%Z pixels)
    /\ (flag = true <-> message = None).
Proof.
  unfold validate_raw_fov_body.
  destruct image as [|dtype shape pixels].
  - eexists. eexists. split; [reflexivity|]. split; split;
      try discriminate. intros [px H]. discriminate H.
  - destruct (String.eqb_spec dtype "uint16") as [-> | Hd]; cbn [negb].
    + destruct shape as [|rows [|cols [|x shape]]];
        try (eexists; eexists; split; [reflexivity|]; split; split;
             try discriminate; intros [px H]; discriminate H).
      unfold image_size.
      destruct (Z.eqb_spec rows 1024) as [-> | Hr];
        destruct (Z.eqb_spec cols 1024) as [-> | Hc]; cbn [negb orb];
        eexists; eexists; (split; [reflexivity|]); split; split;
        try discriminate; try reflexivity;
        try (intros [px H]; injection H as H1 H2; congruence).
      intros _. now exists pixels.
    + eexists. eexists. split; [reflexivity|]. split; split;
        try discriminate. intros [px H]. injection H as H _ _. congruence.
Qed.

End DecisionFacts.

(** ** Logging in the confluency assessment *)

Section ConfluencyLogging.
Import Py Numpy Confluency.

(** With a log directory and no position index, [assess_confluency]
    fails with a TypeError once the nuclei are found and their features
    computed: the file name of the snap cannot be formatted. *)
Theorem assess_confluency_needs_position_ind_to_log
    (lib : ImageLib) (snap : image) (directory : string)
    (ps : positions) (ratio : pyfloat) :
  nucleus_positions_of lib snap = Ok ps ->
  eval_ratio_of lib ps = Ok ratio ->
  assess_confluency lib snap (Some directory) None
  = Raise (mkExn TypeError "%d format: a number is required, not NoneType").
Proof.
  intros Hps Hratio. unfold assess_confluency.
  unfold nucleus_positions_of in Hps.
  destruct (_generate_background_mask lib snap) as [m|e]; [|discriminate].
  simpl in Hps |- *. rewrite Hps. simpl.
  unfold _calculate_nucleus_position_features. rewrite Hratio. reflexivity.
Qed.

(** A failure of the image processing comes out of [assess_confluency]
    as it is: nothing is caught, unlike in the classifier. *)
Theorem assess_confluency_propagates_errors
    (lib : ImageLib) (snap : image) log_dir position_ind e :
  nucleus_positions_of lib snap = Raise e
  \/ (exists ps, nucleus_positions_of lib snap = Ok ps
                 /\ eval_ratio_of lib ps = Raise e) ->
  assess_confluency lib snap log_dir position_ind = Raise e.
Proof.
  unfold assess_confluency, nucleus_positions_of.
  intros [H | (ps & H & Hratio)];
    destruct (_generate_background_mask lib snap) as [m|e0];
    simpl in H |- *.
  - now rewrite H.
  - now injection H as ->.
  - rewrite H. simpl. unfold _calculate_nucleus_position_features.
    now rewrite Hratio.
  - discriminate H.
Qed.

End ConfluencyLogging.

(** ** Interpolation of the FocusDrive positions *)

Section InterpolationFacts.
Import Py Interpolation.
Local Open Scope nat_scope.

Lemma updated_refl lo f positions : updated lo lo f positions positions.
Proof.
  split; [reflexivity|]. intro i.
  destruct (Nat.leb_spec lo i), (Nat.ltb_spec i lo); simpl;
    try reflexivity; lia.
Qed.

Lemma updated_compose lo mid hi f l0 l1 l2 :
  (lo <= mid)%nat -> (mid <= hi)%nat ->
  updated lo mid f l0 l1 -> updated mid hi f l1 l2 ->
  updated lo hi f l0 l2.
Proof.
  intros H1 H2 [Hlen1 Hnth1] [Hlen2 Hnth2]. split; [congruence|].
  intro i. rewrite Hnth2, Hnth1.
  destruct (Nat.leb_spec lo i), (Nat.ltb_spec i mid),
    (Nat.leb_spec mid i), (Nat.ltb_spec i hi); simpl;
    try reflexivity; lia.
Qed.

Lemma updated_ext lo hi f g l0 l1 :
  (forall i, (lo <= i < hi)%nat -> f i = g i) ->
  updated lo hi f l0 l1 -> updated lo hi g l0 l1.
Proof.
  intros Hfg [Hlen Hnth]. split; [exact Hlen|].
  intro i. rewrite Hnth.
  destruct (Nat.leb_spec lo i), (Nat.ltb_spec i hi); simpl;
    try reflexivity.
  now rewrite Hfg by lia.
Qed.

Lemma append_device_in_bounds cfg :
  forall positions ind,
    (ind < length positions)%nat ->
    exists positions',
      append_device positions ind cfg = Ok positions'
      /\ updated ind (S ind) (fun _ => cfg) positions positions'.
Proof.
  induction positions as [|p rest IH]; intros ind Hind; [simpl in Hind; lia|].
  destruct ind as [|ind].
  - eexists. split; [reflexivity|]. split; [reflexivity|].
    intros [|i]; simpl; [reflexivity|].
    now destruct (i <? 0)%nat eqn:E.
  - destruct (IH ind ltac:(simpl in Hind; lia)) as (rest' & Hrun & Hlen & Hnth).
    simpl. rewrite Hrun. simpl. eexists. split; [reflexivity|].
    split; [simpl; congruence|].
    intros [|i]; [reflexivity|].
    simpl nth_error. rewrite Hnth.
    change (S ind <=? S i)%nat with (ind <=? i)%nat.
    change (S i <? S (S ind))%nat with (i <? S ind)%nat.
    reflexivity.
Qed.

Lemma append_device_out_of_bounds cfg :
  forall positions ind,
    (length positions <= ind)%nat ->
    append_device positions ind cfg = Raise index_error.
Proof.
  induction positions as [|p rest IH]; intros ind Hind; [reflexivity|].
  destruct ind as [|ind]; [simpl in Hind; lia|].
  simpl. rewrite IH by (simpl in Hind; lia). reflexivity.
Qed.

(** A loop whose turn [k] updates the positions from [bound k] to
    [bound (S k) - 1] updates them all. *)
Lemma for_each_updated
    (body : nat -> list position -> result (list position))
    (bound : nat -> nat) (f : nat -> device) n :
  forall a positions,
    (forall k, (a <= k < a + n)%nat -> (bound k <= bound (S k))%nat) ->
    (forall k l,
       (a <= k < a + n)%nat -> (bound (S k) <= length l)%nat ->
       exists l',
         body k l = Ok l' /\ updated (bound k) (bound (S k)) f l l') ->
    (bound (a + n) <= length positions)%nat ->
    exists positions',
      for_each (seq a n) body positions = Ok positions'
      /\ updated (bound a) (bound (a + n)) f positions positions'.
Proof.
  induction n as [|n IH]; intros a positions Hmono Hbody Hlen.
  - exists positions. split; [reflexivity|].
    rewrite Nat.add_0_r. apply updated_refl.
  - assert (Hchain : forall k, (a <= k <= a + S n)%nat ->
                       (bound a <= bound k)%nat
                       /\ (bound k <= bound (a + S n))%nat).
    { assert (Hup : forall d, (d <= S n)%nat ->
                      (bound a <= bound (a + d))%nat).
      { induction d as [|d IHd]; intro Hd; [now rewrite Nat.add_0_r|].
        rewrite Nat.add_succ_r.
        specialize (Hmono (a + d)%nat ltac:(lia)). lia. }
      assert (Hdown : forall d, (d <= S n)%nat ->
                        (bound (a + S n - d) <= bound (a + S n))%nat).
      { induction d as [|d IHd]; intro Hd; [now rewrite Nat.sub_0_r|].
        specialize (Hmono (a + S n - S d)%nat ltac:(lia)).
        replace (S (a + S n - S d)) with (a + S n - d)%nat in Hmono by lia.
        specialize (IHd ltac:(lia)). lia. }
      intros k Hk. split.
      - replace k with (a + (k - a))%nat by lia. apply Hup. lia.
      - replace k with (a + S n - (a + S n - k))%nat by lia.
        apply Hdown. lia. }
    destruct (Hbody a positions ltac:(lia)) as (l1 & Hrun1 & Hupd1).
    { destruct (Hchain (S a) ltac:(lia)). lia. }
    destruct (IH (S a) l1) as (l2 & Hrun2 & Hupd2).
    + intros k Hk. apply Hmono. lia.
    + intros k l Hk Hl. apply Hbody; [lia | exact Hl].
    + destruct Hupd1 as [Hlen1 _]. rewrite Hlen1.
      replace (S a + n)%nat with (a + S n)%nat by lia. exact Hlen.
    + exists l2. cbn [seq for_each]. rewrite Hrun1. cbn [bind].
      split; [exact Hrun2|].
      replace (a + S n)%nat with (S a + n)%nat by lia.
      apply (updated_compose _ (bound (S a)) _ _ _ l1);
        try assumption.
      * apply Hmono. lia.
      * replace (S a + n)%nat with (a + S n)%nat by lia.
        destruct (Hchain (S a) ltac:(lia)). lia.
Qed.

Variable interpolator : nat -> nat -> Q.
Variables num_rows num_cols num_positions_per_well : nat.

Lemma config_at_in_well row_ind col_ind i :
  (col_ind < num_cols)%nat ->
  (num_positions_per_well * (row_ind * num_cols + col_ind) <= i
   < num_positions_per_well * (row_ind * num_cols + col_ind)
     + num_positions_per_well)%nat ->
  config_at interpolator num_cols num_positions_per_well i
  = focusdrive_config
      (interpolator row_ind (physical_col_ind num_cols row_ind col_ind)).
Proof.
  intros Hcol Hi. unfold config_at. cbv zeta.
  assert (Hwell : (i / num_positions_per_well
                   = row_ind * num_cols + col_ind)%nat).
  { symmetry.
    apply (Nat.div_unique i num_positions_per_well _
             (i - num_positions_per_well * (row_ind * num_cols + col_ind)));
      lia. }
  rewrite Hwell.
  assert (Hrow : ((row_ind * num_cols + col_ind) / num_cols = row_ind)%nat).
  { symmetry. apply (Nat.div_unique _ num_cols row_ind col_ind); lia. }
  assert (Hc : ((row_ind * num_cols + col_ind) mod num_cols = col_ind)%nat).
  { symmetry. apply (Nat.mod_unique _ num_cols row_ind col_ind); lia. }
  now rewrite Hrow, Hc.
Qed.

(** X22: With enough positions in the list, every position of the region gets
    exactly one FocusDrive entry, the one interpolated for its well; in
    the rows of even index the wells are taken from the last column to
    the first.  The positions after the region and the entries already
    there are left as they are. *)
Theorem interpolation_gives_each_position_its_well_entry positions :
  (num_rows * num_cols * num_positions_per_well <= length positions)%nat ->
  exists positions',
    interpolate_focusdrive_positions_from_corners interpolator
      num_rows num_cols num_positions_per_well positions = Ok positions'
    /\ length positions' = length positions
    /\ forall i,
         nth_error positions' i
         = if (i <? num_rows * num_cols * num_positions_per_well)%nat
           then option_map
                  (with_device
                     (config_at interpolator num_cols
                        num_positions_per_well i))
                  (nth_error positions i)
           else nth_error positions i.
Proof.
  intro Hlen. unfold interpolate_focusdrive_positions_from_corners.
  set (f := config_at interpolator num_cols num_positions_per_well).
  destruct (for_each_updated
              (fun row_ind =>
                 for_each (seq 0 num_cols) (fun col_ind =>
                   for_each (seq 0 num_positions_per_well)
                     (fun pos_ind positions =>
                        append_device positions
                          (num_positions_per_well
                           * (row_ind * num_cols + col_ind) + pos_ind)
                          (focusdrive_config
                             (interpolator row_ind
                                (physical_col_ind num_cols row_ind
                                   col_ind))))))
              (fun row_ind =>
                 (num_positions_per_well * (row_ind * num_cols))%nat)
              f num_rows 0%nat positions)
    as (positions' & Hrun & Hlen' & Hnth).
  - intros k _. nia.
  - intros row_ind l _ Hl.
    destruct (for_each_updated
                (fun col_ind =>
                   for_each (seq 0 num_positions_per_well)
                     (fun pos_ind positions =>
                        append_device positions
                          (num_positions_per_well
                           * (row_ind * num_cols + col_ind) + pos_ind)
                          (focusdrive_config
                             (interpolator row_ind
                                (physical_col_ind num_cols row_ind
                                   col_ind)))))
                (fun col_ind =>
                   (num_positions_per_well
                    * (row_ind * num_cols + col_ind))%nat)
                f num_cols 0%nat l)
      as (l' & Hrun & Hupd).
    + intros k _. nia.
    + intros col_ind l0 Hcol Hl0.
      destruct (for_each_updated
                  (fun pos_ind positions =>
                     append_device positions
                       (num_positions_per_well
                        * (row_ind * num_cols + col_ind) + pos_ind)
                       (focusdrive_config
                          (interpolator row_ind
                             (physical_col_ind num_cols row_ind col_ind))))
                  (fun pos_ind =>
                     (num_positions_per_well
                      * (row_ind * num_cols + col_ind) + pos_ind)%nat)
                  f num_positions_per_well 0%nat l0)
        as (l0' & Hrun0 & Hupd0).
      * intros k _. lia.
      * intros pos_ind l1 Hpos Hl1.
        destruct (append_device_in_bounds
                    (focusdrive_config
                       (interpolator row_ind
                          (physical_col_ind num_cols row_ind col_ind)))
                    l1
                    (num_positions_per_well
                     * (row_ind * num_cols + col_ind) + pos_ind)%nat
                    ltac:(lia)) as (l1' & Hrun1 & Hupd1).
        exists l1'. split; [exact Hrun1|].
        replace (num_positions_per_well * (row_ind * num_cols + col_ind)
                 + S pos_ind)%nat
          with (S (num_positions_per_well * (row_ind * num_cols + col_ind)
                   + pos_ind)) by lia.
        eapply updated_ext; [|exact Hupd1].
        intros i Hi. cbv beta. unfold f. symmetry.
        apply config_at_in_well; lia.
      * replace (num_positions_per_well * (row_ind * num_cols + S col_ind))%nat
          with (num_positions_per_well * (row_ind * num_cols + col_ind)
                + num_positions_per_well)%nat in Hl0 by nia.
        simpl. exact Hl0.
      * exists l0'. split; [exact Hrun0|].
        rewrite Nat.add_0_r in Hupd0.
        replace (num_positions_per_well * (row_ind * num_cols + S col_ind))%nat
          with (num_positions_per_well * (row_ind * num_cols + col_ind)
                + (0 + num_positions_per_well))%nat by nia.
        exact Hupd0.
    + replace (num_positions_per_well * (S row_ind * num_cols))%nat
        with (num_positions_per_well
              * (row_ind * num_cols + (0 + num_cols)))%nat in Hl by nia.
      exact Hl.
    + exists l'. split; [exact Hrun|].
      rewrite Nat.add_0_r in Hupd.
      replace (num_positions_per_well * (S row_ind * num_cols))%nat
        with (num_positions_per_well
              * (row_ind * num_cols + (0 + num_cols)))%nat by nia.
      exact Hupd.
  - simpl. nia.
  - exists positions'. split; [exact Hrun|]. split; [exact Hlen'|].
    intro i. rewrite Hnth. simpl Nat.add.
    replace (num_positions_per_well * (0 * num_cols))%nat with 0%nat by lia.
    replace (num_positions_per_well * (num_rows * num_cols))%nat
      with (num_rows * num_cols * num_positions_per_well)%nat by nia.
    reflexivity.
Qed.

Lemma append_device_ok cfg :
  forall positions ind positions',
    append_device positions ind cfg = Ok positions' ->
    length positions' = length positions /\ ind < length positions.
Proof.
  induction positions as [|p rest IH]; intros ind positions' H;
    [discriminate|].
  destruct ind as [|ind]; simpl in H.
  - injection H as <-. simpl. lia.
  - destruct (append_device rest ind cfg) as [rest'|e] eqn:E;
      [|discriminate].
    simpl in H. injection H as <-.
    destruct (IH ind rest' E). simpl. lia.
Qed.

Lemma append_device_raise cfg positions ind e :
  append_device positions ind cfg = Raise e -> e = index_error.
Proof.
  revert ind. induction positions as [|p rest IH]; intros ind H.
  - simpl in H. now injection H as <-.
  - destruct ind as [|ind]; simpl in H; [discriminate|].
    destruct (append_device rest ind cfg) as [rest'|e0] eqn:E;
      simpl in H; [discriminate|].
    injection H as <-. exact (IH ind E).
Qed.

Lemma for_each_snoc range k body positions :
  for_each (range ++ [k]) body positions
  = bind (for_each range body positions) (body k).
Proof.
  revert positions. induction range as [|i range IH]; intro positions; simpl.
  - now destruct (body k positions).
  - destruct (body i positions) as [l|e]; [apply IH | reflexivity].
Qed.

Lemma for_each_length range body :
  (forall k l l', body k l = Ok l' -> length l' = length l) ->
  forall positions positions',
    for_each range body positions = Ok positions' ->
    length positions' = length positions.
Proof.
  intro Hbody. induction range as [|i range IH];
    intros positions positions' H; simpl in H.
  - now injection H as <-.
  - destruct (body i positions) as [l|e] eqn:E; [|discriminate].
    simpl in H. rewrite (IH _ _ H). exact (Hbody _ _ _ E).
Qed.

Lemma for_each_raise range body :
  (forall k l e, body k l = Raise e -> e = index_error) ->
  forall positions e,
    for_each range body positions = Raise e -> e = index_error.
Proof.
  intro Hbody. induction range as [|i range IH];
    intros positions e H; simpl in H; [discriminate|].
  destruct (body i positions) as [l|e0] eqn:E; simpl in H.
  - exact (IH _ _ H).
  - injection H as <-. exact (Hbody _ _ _ E).
Qed.

Lemma for_each_last_ok n body positions positions' :
  for_each (seq 0 (S n)) body positions = Ok positions' ->
  exists l, for_each (seq 0 n) body positions = Ok l
            /\ body n l = Ok positions'.
Proof.
  rewrite seq_S, for_each_snoc. simpl.
  destruct (for_each (seq 0 n) body positions) as [l|e]; [|discriminate].
  intro H. now exists l.
Qed.

(** X23: With fewer positions in the list than the region has, the loops end
    in an IndexError (and the list is not written). *)
Theorem interpolation_needs_all_positions positions :
  length positions < num_rows * num_cols * num_positions_per_well ->
  interpolate_focusdrive_positions_from_corners interpolator
    num_rows num_cols num_positions_per_well positions
  = Raise index_error.
Proof.
  intro Hshort. unfold interpolate_focusdrive_positions_from_corners.
  set (inner := fun row_ind col_ind =>
         for_each (seq 0 num_positions_per_well)
           (fun pos_ind positions =>
              append_device positions
                (num_positions_per_well * (row_ind * num_cols + col_ind)
                 + pos_ind)
                (focusdrive_config
                   (interpolator row_ind
                      (physical_col_ind num_cols row_ind col_ind))))).
  set (middle := fun row_ind => for_each (seq 0 num_cols) (inner row_ind)).
  assert (Hinner_len : forall r c l l',
            inner r c l = Ok l' -> length l' = length l).
  { intros r c. apply for_each_length.
    intros k l l' H. now apply append_device_ok in H. }
  assert (Hmiddle_len : forall r l l',
            middle r l = Ok l' -> length l' = length l).
  { intros r. apply for_each_length. intros c. apply Hinner_len. }
  assert (Hinner_raise : forall r c l e,
            inner r c l = Raise e -> e = index_error).
  { intros r c. apply for_each_raise.
    intros k l e H. now apply append_device_raise in H. }
  assert (Hmiddle_raise : forall r l e,
            middle r l = Raise e -> e = index_error).
  { intros r. apply for_each_raise. intros c. apply Hinner_raise. }
  change (for_each (seq 0 num_rows) middle positions = Raise index_error).
  destruct (for_each (seq 0 num_rows) middle positions) as [l'|e] eqn:Hrun.
  - exfalso.
    destruct num_rows as [|R]; [simpl in Hshort; lia|].
    destruct num_cols as [|C] eqn:HC; [lia|].
    destruct num_positions_per_well as [|P] eqn:HP; [lia|].
    apply for_each_last_ok in Hrun. destruct Hrun as (l1 & Hrun1 & Hrow).
    assert (Hlen1 : length l1 = length positions).
    { revert Hrun1. apply for_each_length. exact Hmiddle_len. }
    unfold middle in Hrow. apply for_each_last_ok in Hrow.
    destruct Hrow as (l2 & Hrun2 & Hcol).
    assert (Hlen2 : length l2 = length l1).
    { revert Hrun2. apply for_each_length. intros c. apply Hinner_len. }
    unfold inner in Hcol. apply for_each_last_ok in Hcol.
    destruct Hcol as (l3 & Hrun3 & Hpos).
    assert (Hlen3 : length l3 = length l2).
    { revert Hrun3. apply for_each_length.
      intros k l l0 H. now apply append_device_ok in H. }
    apply append_device_ok in Hpos. destruct Hpos as [_ Hpos]. nia.
  - f_equal. revert Hrun. apply for_each_raise. exact Hmiddle_raise.
Qed.

End InterpolationFacts.

(** ** Images that [to_uint8] turns black *)

Section ToUint8Blackout.
Import Numpy Utils.
Local Open Scope Q_scope.

Lemma stretch_pixel_below minn maxx v :
  inject_Z v - minn < minn -> stretch_pixel minn maxx v = 0%Z.
Proof.
  intro H. unfold stretch_pixel. apply Qltb_lt in H. rewrite H.
  destruct (maxx - minn) as [n d]. destruct n; reflexivity.
Qed.

Lemma map_pixels_ext_in (f g : Z -> Z) (im : image) :
  Forall (fun v => f v = g v) (flatten im) ->
  map_pixels f im = map_pixels g im.
Proof.
  unfold map_pixels, flatten. induction im as [|row im IH]; intro H;
    [reflexivity|].
  simpl in H. apply Forall_app in H. destruct H as [Hrow Him].
  simpl. f_equal; [|now apply IH].
  apply map_ext_in. intros v Hv.
  exact (proj1 (Forall_forall _ row) Hrow v Hv).
Qed.

(** X7: An image all of whose pixels are below twice its first percentile
    comes out of [to_uint8] entirely black, whatever its contrast: the
    values that the source clears are those below the percentile after
    the percentile has been subtracted. *)
Theorem to_uint8_blacks_out_images_above_their_offset (im : image) minn :
  percentile (flatten im) 1 = Some minn ->
  Forall (fun v => inject_Z v < 2 * minn) (flatten im) ->
  to_uint8 im = map_pixels (fun _ => 0%Z) im.
Proof.
  intros Hminn Hall. unfold to_uint8. rewrite Hminn.
  destruct (percentile (flatten im) (100 - 1)) as [maxx|]; [|reflexivity].
  destruct (Qeq_bool minn maxx); [reflexivity|].
  apply map_pixels_ext_in.
  apply Forall_forall. intros v Hv.
  apply stretch_pixel_below.
  assert (H := proj1 (Forall_forall _ _) Hall v Hv). cbv beta in H. lra.
Qed.

End ToUint8Blackout.

(** Pixels from 1000 to 1500: the first percentile is 1003. *)
Lemma to_uint8_blacks_out_images_above_their_offset_witness :
  Utils.to_uint8 [[1000; 1200]; [1100; 1500]]%Z = [[0; 0]; [0; 0]]%Z.
Proof.
  apply (to_uint8_blacks_out_images_above_their_offset
           [[1000; 1200]; [1100; 1500]]%Z (100300 # 100)).
  - vm_compute. reflexivity.
  - repeat constructor.
Defined.

Lemma to_uint8_constant_image_witness :
  Utils.to_uint8 [[7; 7; 7]; [7; 7; 7]]%Z = [[0; 0; 0]; [0; 0; 0]]%Z.
Proof.
  apply (proj1 (to_uint8_constant_image [[7; 7; 7]; [7; 7; 7]]%Z 7%Z
                  ltac:(repeat constructor))).
Defined.

(** ** Concrete instances *)

Lemma parse_hcs_site_label_round_trip_witness :
  SiteLabels.parse_hcs_site_label "G11-Site_203"
  = Py.Ok ("G11"%string, 203%Z).
Proof.
  apply (parse_hcs_site_label_round_trip 6 10 203); lia.
Defined.

Lemma well_id_to_position_range_witness :
  (0 <= 0 <= 7)%Z /\ (-1 <= -1 <= 98)%Z.
Proof.
  apply (well_id_to_position_range "A0" 0%Z (-1)%Z). reflexivity.
Defined.

Lemma well_id_to_position_ignores_zero_and_newline_witness :
  Utils.well_id_to_position "C07" = Utils.well_id_to_position "C7"
  /\ Utils.well_id_to_position (String "C" (String "7" (String "010" "")))
     = Utils.well_id_to_position "C7".
Proof.
  apply (well_id_to_position_ignores_zero_and_newline "C" "7"); reflexivity.
Defined.

Lemma parse_hcs_site_label_gives_valid_well_id_witness :
  (0 <= 12)%Z
  /\ exists row col,
       Utils.well_id_to_position "B00" = Py.Ok (row, col)
       /\ (0 <= row <= 7)%Z /\ (-1 <= col <= 98)%Z.
Proof.
  apply (parse_hcs_site_label_gives_valid_well_id "B00-Site_12" "B00" 12%Z).
  reflexivity.
Defined.

Lemma well_id_to_position_ind_first_or_last_witness :
  let self :=
    Visitation.init ["A1"; "H9"]%string
      [Visitation.mkPosition "A1-Site_0"; Visitation.mkPosition "A1-Site_1";
       Visitation.mkPosition "A2-Site_0"] in
  exists ind,
    Visitation.well_id_to_position_ind self "H9" = Visitation.Done ind
    /\ (ind < 3)%nat
    /\ (forall j, (j < ind)%nat ->
          String.prefix "H9"
            (Visitation.LABEL
               (nth j (Visitation.position_list self)
                  (Visitation.mkPosition ""))) = false)
    /\ (String.prefix "H9"
          (Visitation.LABEL
             (nth ind (Visitation.position_list self)
                (Visitation.mkPosition ""))) = true
        \/ ind = 2%nat).
Proof.
  intro self.
  apply (well_id_to_position_ind_first_or_last self "H9"). discriminate.
Defined.

Lemma well_id_to_position_ind_takes_longer_well_id_witness :
  Visitation.well_id_to_position_ind
    (Visitation.init ["A1"]%string
       [Visitation.mkPosition "A10-Site_0"; Visitation.mkPosition "A1-Site_0"])
    "A1"
  = Visitation.Done 0%nat.
Proof.
  apply (well_id_to_position_ind_takes_longer_well_id
           (Visitation.init ["A1"]%string
              [Visitation.mkPosition "A10-Site_0";
               Visitation.mkPosition "A1-Site_0"])
           "A1" "A10" 0 [Visitation.mkPosition "A1-Site_0"]);
    reflexivity.
Defined.

Lemma go_to_next_well_visits_in_order_witness :
  exists h',
    Visitation.visit Visitation.steady_bridge 2
      (Visitation.init ["B2"; "B3"; "C3"]%string
         [Visitation.mkPosition "B2-Site_0"; Visitation.mkPosition "B3-Site_0";
          Visitation.mkPosition "C3-Site_0"]) 0%Q
    = (Visitation.Done tt,
       (Visitation.mkManager ["B2"; "B3"; "C3"]%string
          [Visitation.mkPosition "B2-Site_0"; Visitation.mkPosition "B3-Site_0";
           Visitation.mkPosition "C3-Site_0"]
          ["C3"%string] (Some "B3"%string) [], h')).
Proof.
  apply (go_to_next_well_visits_in_order Visitation.steady_bridge
           ["B2"; "B3"; "C3"]%string
           [Visitation.mkPosition "B2-Site_0"; Visitation.mkPosition "B3-Site_0";
            Visitation.mkPosition "C3-Site_0"] 2 0%Q).
  - discriminate.
  - reflexivity.
  - simpl. lia.
Defined.

Lemma go_to_next_well_after_the_last_well_witness :
  exists self' h',
    Visitation.visit Visitation.steady_bridge 2
      (Visitation.init ["B2"; "B3"]%string
         [Visitation.mkPosition "B2-Site_0"; Visitation.mkPosition "B3-Site_0"])
      0%Q
    = (Visitation.Done tt, (self', h'))
    /\ Visitation.go_to_next_well Visitation.steady_bridge self' h'
       = (Visitation.Thrown Visitation.PopFromEmptyList, (self', h')).
Proof.
  apply (go_to_next_well_after_the_last_well Visitation.steady_bridge
           ["B2"; "B3"]%string
           [Visitation.mkPosition "B2-Site_0";
            Visitation.mkPosition "B3-Site_0"] 0%Q).
  - discriminate.
  - reflexivity.
Defined.

(** A stage that fails three times: the well 'B2' is lost. *)
Lemma go_to_next_well_consumes_the_well_witness :
  let self :=
    Visitation.init ["B2"; "B3"]%string
      [Visitation.mkPosition "B2-Site_0"; Visitation.mkPosition "B3-Site_0"] in
  let self' :=
    fst (snd (Visitation.go_to_next_well Visitation.flaky_bridge self
                (3%nat, None))) in
  Visitation.unvisited_well_ids self' = ["B3"%string]
  /\ Visitation.current_well_id self' = Some "B2"%string
  /\ Visitation.well_ids_to_visit self' = ["B2"; "B3"]%string.
Proof.
  intros self.
  apply (go_to_next_well_consumes_the_well Visitation.flaky_bridge self
           (3%nat, None) "B2" ["B3"%string]).
  reflexivity.
Defined.

Lemma go_to_next_well_retries_once_witness :
  let self :=
    Visitation.init ["B2"]%string [Visitation.mkPosition "B2-Site_0"] in
  fst (Visitation.go_to_next_well Visitation.flaky_bridge self (1%nat, None))
  = Visitation.Done tt.
Proof.
  intro self.
  apply (proj1 (go_to_next_well_retries_once self 1 None "B2" []
                  eq_refl ltac:(discriminate))).
  lia.
Defined.

Lemma call_afc_records_position_after_witness :
  let self :=
    Visitation.mkManager ["B2"]%string [Visitation.mkPosition "B2-Site_0"]
      [] (Some "B2"%string) [("B2"%string, 7000%Q)] in
  exists self',
    Visitation.call_afc Visitation.steady_bridge self 7600%Q
    = (Visitation.Done tt, (self', (7600 + 25)%Q))
    /\ Visitation.dict_get "B2"
         (Visitation.measured_focusdrive_positions self')
       = Some (7600 + 25)%Q
    /\ (forall k, k <> "B2"%string ->
          Visitation.dict_get k
            (Visitation.measured_focusdrive_positions self')
          = Visitation.dict_get k
              (Visitation.measured_focusdrive_positions self))
    /\ Visitation.unvisited_well_ids self'
       = Visitation.unvisited_well_ids self.
Proof.
  intro self.
  apply (call_afc_records_position_after Visitation.steady_bridge self
           7600%Q "B2" 7600%Q 7600%Q (7600 + 25)%Q (7600 + 25)%Q (7600 + 25)%Q);
    reflexivity.
Defined.

Lemma call_afc_propagates_focus_failure_witness :
  let self :=
    Visitation.mkManager ["B2"]%string [Visitation.mkPosition "B2-Site_0"]
      [] (Some "B2"%string) [] in
  Visitation.call_afc Visitation.unfocused_bridge self 7600%Q
  = (Visitation.Thrown (Visitation.BridgeError "AFC out of range"),
     (self, 7600%Q)).
Proof.
  intro self.
  apply (call_afc_propagates_focus_failure Visitation.unfocused_bridge self
           7600%Q "B2" 7600%Q 7600%Q
           (Visitation.BridgeError "AFC out of range") 7600%Q);
    reflexivity.
Defined.

Lemma save_refuses_to_overwrite_witness :
  let self :=
    Training.mkStore FOVClassifier.Training "cache"
      (Some [["filename"; "confluency"]; ["a.tif"; "good"]]%string)
      (Some (Some [("test_accuracy", "0.91")]%string)) None in
  let d1 :=
    snd (Training.save Training.plain_codec false self Training.empty_disk) in
  Training.save Training.plain_codec false self d1
  = (Py.Raise (Py.mkExn Py.ValueError "Training data already saved to cache"),
     d1)
  /\ fst (Training.save Training.plain_codec true self d1) = Py.Ok tt.
Proof.
  intro self.
  apply (save_refuses_to_overwrite Training.plain_codec self
           Training.empty_disk).
  reflexivity.
Defined.

Lemma load_reads_what_save_wrote_witness :
  let data := [["filename"; "confluency"]; ["a.tif"; "good"]]%string in
  let v := [("test_accuracy", "0.91")]%string in
  let self :=
    Training.mkStore FOVClassifier.Training "cache" (Some data)
      (Some (Some v)) None in
  let other :=
    Training.mkStore (table := list (list string))
      FOVClassifier.Prediction "cache" None None None in
  Training.load Training.plain_codec other
    (snd (Training.save Training.plain_codec false self Training.empty_disk))
  = (Py.Ok tt,
     Training.mkStore FOVClassifier.Prediction "cache" (Some data)
       (Some None) (Some v)).
Proof.
  intros data v self other.
  apply (load_reads_what_save_wrote Training.plain_codec self other
           Training.empty_disk false data v); reflexivity.
Defined.

Lemma save_after_load_is_refused_witness :
  let data := [["filename"; "confluency"]; ["a.tif"; "good"]]%string in
  let v := [("test_accuracy", "0.91")]%string in
  let self :=
    Training.mkStore FOVClassifier.Training "cache" (Some data)
      (Some (Some v)) None in
  let d1 :=
    snd (Training.save Training.plain_codec false self Training.empty_disk) in
  Training.save Training.plain_codec true
    (snd (Training.load Training.plain_codec self d1)) d1
  = (Py.Raise (Py.mkExn Py.ValueError
       "Cannot save training data without current validation results"), d1).
Proof.
  intros data v self d1.
  apply (save_after_load_is_refused Training.plain_codec self d1 d1 true);
    reflexivity.
Defined.

Lemma save_of_new_classifier_fails_witness :
  exists e,
    Training.save Training.plain_codec true
      (Training.mkStore FOVClassifier.Training "cache" None None None)
      Training.empty_disk
    = (Py.Raise e, Training.empty_disk)
    /\ (FOVClassifier.Training = FOVClassifier.Prediction ->
        Py.exn_kind e = Py.ValueError)
    /\ (FOVClassifier.Training = FOVClassifier.Training ->
        Py.exn_kind e = Py.AttributeError).
Proof.
  apply (save_of_new_classifier_fails Training.plain_codec "cache"
           (Some "training"%string)
           (Training.mkStore FOVClassifier.Training "cache" None None None)
           Training.empty_disk true).
  reflexivity.
Defined.

Lemma assess_confluency_needs_position_ind_to_log_witness :
  Confluency.assess_confluency
    (Confluency.fixed_lib 30 (Py.Fin (1 # 10)) (Py.Fin (1 # 2)))
    [] (Some "logs"%string) None
  = Py.Raise (Py.mkExn Py.TypeError
                "%d format: a number is required, not NoneType").
Proof.
  apply (assess_confluency_needs_position_ind_to_log
           (Confluency.fixed_lib 30 (Py.Fin (1 # 10)) (Py.Fin (1 # 2)))
           [] "logs"
           (map (fun i => (Z.of_nat i, Z.of_nat i)) (seq 0 30))
           (Py.Fin (1 # 2))); reflexivity.
Defined.

Lemma assess_confluency_propagates_errors_witness :
  let lib :=
    Confluency.mkImageLib (fun _ => Py.Ok []) (fun _ _ => Py.Ok [])
      (fun _ _ => Py.Nan) (fun _ => Py.Nan) in
  Confluency.assess_confluency lib [] None None
  = Py.Raise Confluency.linalg_error.
Proof.
  intro lib.
  apply (assess_confluency_propagates_errors lib [] None None
           Confluency.linalg_error).
  right. exists []. split; reflexivity.
Defined.

(** A region of two rows and three columns with two positions to a well,
    and one position more in the list. *)
Lemma interpolation_gives_each_position_its_well_entry_witness :
  let interpolator := fun row col => inject_Z (Z.of_nat (10 * row + col)) in
  let positions :=
    map (fun i => Interpolation.mkPosition "site" []) (seq 0 13) in
  exists positions',
    Interpolation.interpolate_focusdrive_positions_from_corners
      interpolator 2 3 2 positions = Py.Ok positions'
    /\ length positions' = 13%nat
    /\ forall i,
         nth_error positions' i
         = if (i <? 12)%nat
           then option_map
                  (Interpolation.with_device
                     (Interpolation.config_at interpolator 3 2 i))
                  (nth_error positions i)
           else nth_error positions i.
Proof.
  intros interpolator positions.
  apply (interpolation_gives_each_position_its_well_entry interpolator 2 3 2
           positions).
  simpl. lia.
Defined.

Lemma interpolation_needs_all_positions_witness :
  Interpolation.interpolate_focusdrive_positions_from_corners
    (fun row col => inject_Z (Z.of_nat (10 * row + col))) 2 3 2
    (map (fun i => Interpolation.mkPosition "site" []) (seq 0 11))
  = Py.Raise Interpolation.index_error.
Proof.
  apply (interpolation_needs_all_positions
           (fun row col => inject_Z (Z.of_nat (10 * row + col))) 2 3 2
           (map (fun i => Interpolation.mkPosition "site" []) (seq 0 11))).
  simpl. lia.
Defined.
